(** * memtester: memory acquisition and the test loop of [memtester.c]

    A shallow embedding of [memtester.c] (version 4.5.1 with the huge-page
    refactoring): the [memory_alloc_t] record, [memtester_pagesize],
    [get_free_hugepages], [alloc_using_hugepages], [alloc_using_malloc] and
    the part of [main] that follows option parsing.

    The operating system and the pattern tests of [tests.c] are an explicit
    environment: every call into it is answered by an oracle that sees the
    whole history of earlier calls, and is recorded in a trace.  Loops of
    the C code that need not terminate take a fuel argument. *)

From Stdlib Require Import Ascii String ZArith List Bool Lia.
Import ListNotations.
Local Open Scope Z_scope.

(** ** Machine integers (LP64: [int] is 32 bits, [long], [size_t] and
       [ptrdiff_t] are 64 bits) *)

(** Conversion to [size_t] (and to any unsigned 64-bit type). *)
Definition to_size (x : Z) : Z := x mod 2 ^ 64.

(** Conversion to [long] / [ptrdiff_t]. *)
Definition to_long (x : Z) : Z := (x + 2 ^ 63) mod 2 ^ 64 - 2 ^ 63.

(** Conversion to [int]. *)
Definition to_int (x : Z) : Z := (x + 2 ^ 31) mod 2 ^ 32 - 2 ^ 31.

(** ** Constants of the C library and of the file *)

Definition NULL : Z := 0.
Definition MAP_FAILED : Z := to_size (-1).
Definition EPERM : Z := 1.
Definition EAGAIN : Z := 11.
Definition ENOMEM : Z := 12.
Definition EXIT_FAILURE : Z := 1.

Definition EXIT_FAIL_NONSTARTER : Z := 0x01.
Definition EXIT_FAIL_ADDRESSLINES : Z := 0x02.
Definition EXIT_FAIL_OTHERTEST : Z := 0x04.

(** The table [tests[]]; the function pointers live in [tests.c] and are
    answered by the environment.  The end of the list is the
    [{ NULL, NULL }] sentinel. *)
Definition tests (TEST_NARROW_WRITES : bool) : list string :=
  [ "Random Value"; "Compare XOR"; "Compare SUB"; "Compare MUL";
    "Compare DIV"; "Compare OR"; "Compare AND"; "Sequential Increment";
    "Solid Bits"; "Block Sequential"; "Checkerboard"; "Bit Spread";
    "Bit Flip"; "Walking Ones"; "Walking Zeroes" ]%string
  ++ (if TEST_NARROW_WRITES
      then [ "8-bit Writes"; "16-bit Writes" ]%string else []).

(** ** [memory_alloc_t] *)

Record memory_alloc : Type := mk_alloc {
  buf : Z;            (* volatile void *buf; 0 is NULL *)
  aligned : Z;        (* volatile void *aligned *)
  wantbytes : Z;      (* size_t *)
  bufsize : Z;        (* int *)
  do_mlock : bool;    (* int, only ever 0 or 1 *)
  use_hugepages : bool;
  pagesize : Z;       (* size_t *)
  pagesizemask : Z    (* ptrdiff_t *)
}.

Definition set_buf (v : Z) (a : memory_alloc) : memory_alloc :=
  mk_alloc v (aligned a) (wantbytes a) (bufsize a) (do_mlock a)
           (use_hugepages a) (pagesize a) (pagesizemask a).
Definition set_aligned (v : Z) (a : memory_alloc) : memory_alloc :=
  mk_alloc (buf a) v (wantbytes a) (bufsize a) (do_mlock a)
           (use_hugepages a) (pagesize a) (pagesizemask a).
Definition set_wantbytes (v : Z) (a : memory_alloc) : memory_alloc :=
  mk_alloc (buf a) (aligned a) v (bufsize a) (do_mlock a)
           (use_hugepages a) (pagesize a) (pagesizemask a).
Definition set_bufsize (v : Z) (a : memory_alloc) : memory_alloc :=
  mk_alloc (buf a) (aligned a) (wantbytes a) v (do_mlock a)
           (use_hugepages a) (pagesize a) (pagesizemask a).
Definition set_do_mlock (v : bool) (a : memory_alloc) : memory_alloc :=
  mk_alloc (buf a) (aligned a) (wantbytes a) (bufsize a) v
           (use_hugepages a) (pagesize a) (pagesizemask a).
Definition set_use_hugepages (v : bool) (a : memory_alloc) : memory_alloc :=
  mk_alloc (buf a) (aligned a) (wantbytes a) (bufsize a) (do_mlock a)
           v (pagesize a) (pagesizemask a).
Definition set_pagesize (p m : Z) (a : memory_alloc) : memory_alloc :=
  mk_alloc (buf a) (aligned a) (wantbytes a) (bufsize a) (do_mlock a)
           (use_hugepages a) p m.

(** ** The environment *)

(** One entry per call that leaves the program.  Results are part of the
    entry, so that a property of a run can be read off its trace. *)
Inductive event : Type :=
| EvMalloc (size ret : Z)
| EvFree (ptr : Z)
| EvMlock (addr len : Z) (err : option Z)
| EvMunlock (addr len : Z)
| EvOpen (fd : Z)
| EvMmapPhys (len offset ret : Z)
| EvMmapHuge (len ret errno : Z)
| EvMemset (ptr len : Z)
| EvStuckAddress (bufa count ret : Z)
| EvTest (i : Z) (bufa bufb count ret : Z).

Definition trace : Type := list event.

(** What the system and [tests.c] answer.  Each oracle receives the trace
    so far and the arguments of the call. *)
Record env : Type := mk_env {
  sysconf_pagesize : Z;                    (* sysconf(_SC_PAGE_SIZE), -1 on error *)
  free_hugepages_file : option Z;          (* the number in the sysfs file, if readable *)
  malloc_ret : trace -> Z -> Z;            (* malloc(size): pointer or NULL *)
  mlock_ret : trace -> Z -> Z -> option Z; (* mlock(addr,len): None = 0, Some errno = -1 *)
  open_ret : trace -> Z;                   (* open(device): descriptor or -1 *)
  mmap_phys_ret : trace -> Z -> Z -> Z;    (* mmap(0,len,..,memfd,off): pointer or MAP_FAILED *)
  mmap_huge_ret : trace -> Z -> Z * Z;     (* mmap(NULL,len,..HUGETLB..): (pointer, errno) *)
  stuck_ret : trace -> Z -> Z -> Z;        (* test_stuck_address(bufa,count) *)
  test_ret : trace -> Z -> Z -> Z -> Z -> Z (* tests[i].fp(bufa,bufb,count) *)
}.

(** How a piece of the program ends: it falls through with a value, it
    calls [exit], or the fuel of the model ran out while it was still
    running. *)
Inductive outcome (A : Type) : Type :=
| Done (a : A) (t : trace)
| Exit (code : Z) (t : trace)
| OutOfFuel (t : trace).
Arguments Done {A} a t.
Arguments Exit {A} code t.
Arguments OutOfFuel {A} t.

Definition trace_of {A : Type} (o : outcome A) : trace :=
  match o with Done _ t | Exit _ t | OutOfFuel t => t end.

(** What [main] has read from its arguments and from the environment
    variable before it looks at the memory size. *)
Record config : Type := mk_config {
  cfg_use_hugepages : bool;   (* -H *)
  cfg_use_phys : bool;        (* -p *)
  cfg_physaddrbase : Z;
  cfg_wantbytes : Z;          (* wantraw << memshift, a size_t *)
  cfg_loops : Z;              (* ul *)
  cfg_testmask : Z;           (* ul *)
  cfg_narrow : bool           (* built with TEST_NARROW_WRITES *)
}.

Section Memtester.

(** [sizeof(ul)]: [ul] is declared in [types.h], which is not part of the
    sources at hand. *)
Variable sizeof_ul : Z.

Variable e : env.

(** Conversion to [ul]. *)
Definition to_ul (x : Z) : Z := x mod 2 ^ (8 * sizeof_ul).

(** ** [memtester_pagesize] *)
Definition memtester_pagesize (a : memory_alloc) (t : trace)
  : outcome memory_alloc :=
  if use_hugepages a then
    let pagesize := to_size (2 * 1024 * 1024) in
    Done (set_pagesize pagesize
            (to_long (to_size (Z.lnot (to_size (pagesize - 1))))) a) t
  else
    let pagesize := to_size (sysconf_pagesize e) in
    if pagesize =? to_size (-1) then Exit EXIT_FAIL_NONSTARTER t
    else Done (set_pagesize pagesize
                 (to_long (to_size (Z.lnot (to_size (pagesize - 1))))) a) t.

(** ** [get_free_hugepages] *)
Definition get_free_hugepages : Z :=
  match free_hugepages_file e with
  | None => -1
  | Some n => to_long n
  end.

(** ** [alloc_using_hugepages] *)

(** The [while (!alloc->buf && alloc->wantbytes)] loop. *)
Fixpoint hugepages_loop (fuel : nat) (free_hugepages : Z)
    (a : memory_alloc) (t : trace) : outcome memory_alloc :=
  if (buf a =? NULL) && negb (wantbytes a =? 0) then
    match fuel with
    | O => OutOfFuel t
    | S fuel' =>
      let r := to_size (fst (mmap_huge_ret e t (wantbytes a))) in
      let errno := snd (mmap_huge_ret e t (wantbytes a)) in
      let t1 := t ++ [EvMmapHuge (wantbytes a) r errno] in
      if (r =? MAP_FAILED) && (errno =? ENOMEM) then
        let a1 := set_buf NULL a in
        let a2 :=
          if (0 <? free_hugepages)
             && (to_size (free_hugepages * pagesize a1) <? wantbytes a1)
          then set_wantbytes (to_size (free_hugepages * pagesize a1)) a1
          else set_wantbytes (to_size (wantbytes a1 - pagesize a1)) a1 in
        if wantbytes a2 <? pagesize a2 then Done a2 t1
        else hugepages_loop fuel' free_hugepages a2 t1
      else if r =? MAP_FAILED then Exit EXIT_FAILURE t1
      else hugepages_loop fuel' free_hugepages (set_buf r a) t1
    end
  else Done a t.

Definition alloc_using_hugepages (fuel : nat) (a : memory_alloc) (t : trace)
  : outcome memory_alloc :=
  let free_hugepages := get_free_hugepages in
  let a1 :=
    if negb (wantbytes a mod pagesize a =? 0)
    then set_wantbytes
           (to_size ((wantbytes a / pagesize a + 1) * pagesize a)) a
    else a in
  hugepages_loop fuel free_hugepages a1 t.

(** ** [alloc_using_malloc] *)

(** The [while (!alloc->buf && alloc->wantbytes)] loop around [malloc]. *)
Fixpoint malloc_loop (fuel : nat) (a : memory_alloc) (t : trace)
  : outcome memory_alloc :=
  if (buf a =? NULL) && negb (wantbytes a =? 0) then
    match fuel with
    | O => OutOfFuel t
    | S fuel' =>
      let r := to_size (malloc_ret e t (wantbytes a)) in
      let t1 := t ++ [EvMalloc (wantbytes a) r] in
      let a1 := set_buf r a in
      let a2 := if buf a1 =? NULL
                then set_wantbytes (to_size (wantbytes a1 - pagesize a1)) a1
                else a1 in
      malloc_loop fuel' a2 t1
    end
  else Done a t.

(** The alignment block, which occurs twice in the file: in
    [alloc_using_malloc] before [mlock], and in [main]. *)
Definition align (a : memory_alloc) : memory_alloc :=
  if negb (buf a mod pagesize a =? 0) then
    let a1 := set_aligned
                (to_size (Z.land (buf a) (to_size (pagesizemask a))
                          + pagesize a)) a in
    set_bufsize
      (to_int (to_size (to_size (bufsize a1)
                        - to_size (aligned a1 - buf a1)))) a1
  else set_aligned (buf a) a.

(** The body after the [malloc] loop.  The [int] returned is [1] when the
    caller is done and [0] when it has to call again. *)
Definition alloc_using_malloc (fuel : nat) (a : memory_alloc)
    (wantbytes_orig : Z) (t : trace) : outcome (Z * memory_alloc) :=
  match malloc_loop fuel a t with
  | Done a1 t1 =>
    let a2 := set_bufsize (to_int (wantbytes a1)) a1 in
    if do_mlock a2 then
      let a3 := align a2 in
      let err := mlock_ret e t1 (aligned a3) (to_size (bufsize a3)) in
      let t2 := t1 ++ [EvMlock (aligned a3) (to_size (bufsize a3)) err] in
      match err with
      | Some errno =>
        if (errno =? EAGAIN) || (errno =? ENOMEM) then
          let t3 := t2 ++ [EvFree (buf a3)] in
          let a4 := set_buf NULL a3 in
          Done (0, set_wantbytes (to_size (wantbytes a4 - pagesize a4)) a4) t3
        else if errno =? EPERM then
          let a4 := set_do_mlock false a3 in
          let t3 := t2 ++ [EvFree (buf a4)] in
          let a5 := set_buf NULL a4 in
          Done (0, set_wantbytes wantbytes_orig a5) t3
        else
          Done (1, set_do_mlock false a3) t2
      | None => Done (1, a3) t2
      end
    else Done (1, a2) t1
  | Exit c t1 => Exit c t1
  | OutOfFuel t1 => OutOfFuel t1
  end.

(** [while (!done_mem) done_mem = alloc_using_malloc(&alloc, wantbytes_orig);] *)
Fixpoint malloc_rounds (fuel rounds : nat) (a : memory_alloc)
    (wantbytes_orig : Z) (t : trace) : outcome memory_alloc :=
  match rounds with
  | O => OutOfFuel t
  | S rounds' =>
    match alloc_using_malloc fuel a wantbytes_orig t with
    | Done (done_mem, a1) t1 =>
      if done_mem =? 0 then malloc_rounds fuel rounds' a1 wantbytes_orig t1
      else Done a1 t1
    | Exit c t1 => Exit c t1
    | OutOfFuel t1 => OutOfFuel t1
    end
  end.

(** ** [main], from the memory argument on *)

(** The [-p] branch: [open], [mmap] of the device at [physaddrbase], [mlock]. *)
Definition phys_map (physaddrbase : Z) (a : memory_alloc) (t : trace)
  : outcome memory_alloc :=
  let memfd := to_int (open_ret e t) in
  let t1 := t ++ [EvOpen memfd] in
  if memfd =? -1 then Exit EXIT_FAIL_NONSTARTER t1
  else
    let r := to_size (mmap_phys_ret e t1 (wantbytes a) physaddrbase) in
    let t2 := t1 ++ [EvMmapPhys (wantbytes a) physaddrbase r] in
    let a1 := set_buf r a in
    if buf a1 =? MAP_FAILED then Exit EXIT_FAIL_NONSTARTER t2
    else
      let err := mlock_ret e t2 (buf a1) (wantbytes a1) in
      let t3 := t2 ++ [EvMlock (buf a1) (wantbytes a1) err] in
      let a2 := match err with
                | Some _ => set_do_mlock false a1
                | None => a1
                end in
      let a3 := set_bufsize (to_int (wantbytes a2)) a2 in
      Done (set_aligned (buf a3) a3) t3.

(** The initializer of [alloc] in [main]; members that are not named are
    zero. *)
Definition alloc_init : memory_alloc :=
  mk_alloc NULL NULL 0 0 true false 0 0.

(** [main] from [if (use_phys)] to the line before
    [halflen = alloc.bufsize / 2]: the [-p] branch, the allocation and the
    second alignment block. *)
Definition acquire_from (fuel : nat) (c : config) (a : memory_alloc)
    (t : trace) : outcome memory_alloc :=
  let wantbytes_orig := to_size (cfg_wantbytes c) in
  match (if cfg_use_phys c then phys_map (cfg_physaddrbase c) a t
         else Done a t) with
  | Done a4 t4 =>
    match (if use_hugepages a4 then alloc_using_hugepages fuel a4 t4
           else if cfg_use_phys c then Done a4 t4
           else malloc_rounds fuel fuel a4 wantbytes_orig t4) with
    | Done a5 t5 => Done (align a5) t5
    | Exit code t5 => Exit code t5
    | OutOfFuel t5 => OutOfFuel t5
    end
  | Exit code t4 => Exit code t4
  | OutOfFuel t4 => OutOfFuel t4
  end.

(** [main] up to the same line: page size, the two size checks, and the
    above. *)
Definition acquire (fuel : nat) (c : config) : outcome memory_alloc :=
  match memtester_pagesize alloc_init [] with
  | Done a0 t0 =>
    match (if cfg_use_hugepages c
           then memtester_pagesize (set_use_hugepages true a0) t0
           else Done a0 t0) with
    | Done a1 t1 =>
      let maxbytes := to_size (-1) in
      let maxmb := to_size (Z.shiftr maxbytes 20 + 1) in
      let wantbytes_orig := to_size (cfg_wantbytes c) in
      let a2 := set_wantbytes wantbytes_orig a1 in
      let wantmb := Z.shiftr wantbytes_orig 20 in
      if maxmb <? wantmb then Exit EXIT_FAIL_NONSTARTER t1
      else if wantbytes a2 <? pagesize a2 then Exit EXIT_FAIL_NONSTARTER t1
      else acquire_from fuel c (set_buf NULL a2) t1
    | Exit code t1 => Exit code t1
    | OutOfFuel t1 => OutOfFuel t1
    end
  | Exit code t0 => Exit code t0
  | OutOfFuel t0 => OutOfFuel t0
  end.

(** The split of the region: [halflen], [count], [bufa], [bufb]. *)
Definition halflen (a : memory_alloc) : Z := to_size (Z.quot (bufsize a) 2).
Definition count (a : memory_alloc) : Z := halflen a / sizeof_ul.
Definition bufa (a : memory_alloc) : Z := aligned a.
Definition bufb (a : memory_alloc) : Z := to_size (aligned a + halflen a).

(** [for (i=0;;i++)] over the table, from entry [i] on; [tbl] is the rest
    of the table. *)
Fixpoint run_tests (tbl : list string) (i : Z) (testmask : Z)
    (a : memory_alloc) (exit_code : Z) (t : trace) : Z * trace :=
  match tbl with
  | [] => (exit_code, t)
  | _ :: tbl' =>
    if negb (testmask =? 0)
       && (Z.land (to_int (Z.shiftl 1 i)) testmask =? 0)
    then run_tests tbl' (to_ul (i + 1)) testmask a exit_code t
    else
      let r := test_ret e t i (bufa a) (bufb a) (count a) in
      let t1 := t ++ [EvTest i (bufa a) (bufb a) (count a) r] in
      let exit_code1 := if r =? 0 then exit_code
                        else Z.lor exit_code EXIT_FAIL_OTHERTEST in
      let t2 := t1 ++ [EvMemset (buf a) (wantbytes a)] in
      run_tests tbl' (to_ul (i + 1)) testmask a exit_code1 t2
  end.

(** One pass of the outer loop: the stuck-address test, then the table. *)
Definition run_pass (c : config) (a : memory_alloc) (exit_code : Z)
    (t : trace) : Z * trace :=
  let cnt := to_size (bufsize a) / sizeof_ul in
  let r := stuck_ret e t (aligned a) cnt in
  let t1 := t ++ [EvStuckAddress (aligned a) cnt r] in
  let exit_code1 := if r =? 0 then exit_code
                    else Z.lor exit_code EXIT_FAIL_ADDRESSLINES in
  run_tests (tests (cfg_narrow c)) 0 (cfg_testmask c) a exit_code1 t1.

(** [for(loop=1; ((!loops) || loop <= loops); loop++)], entered with the
    current value of [loop]. *)
Fixpoint run_loops (fuel : nat) (c : config) (a : memory_alloc)
    (loop : Z) (exit_code : Z) (t : trace) : outcome Z :=
  if (cfg_loops c =? 0) || (loop <=? cfg_loops c) then
    match fuel with
    | O => OutOfFuel t
    | S fuel' =>
      let (exit_code1, t1) := run_pass c a exit_code t in
      run_loops fuel' c a (to_ul (loop + 1)) exit_code1 t1
    end
  else Done exit_code t.

(** The whole of [main] after option parsing.  It only ever ends through
    [exit]. *)
Definition main (fuel : nat) (c : config) : outcome Empty_set :=
  match acquire fuel c with
  | Done a t =>
    match run_loops fuel c a 1 0 t with
    | Done exit_code t1 =>
      Exit exit_code
           (if do_mlock a
            then t1 ++ [EvMunlock (aligned a) (to_size (bufsize a))]
            else t1)
    | Exit code t1 => Exit code t1
    | OutOfFuel t1 => OutOfFuel t1
    end
  | Exit code t => Exit code t
  | OutOfFuel t => OutOfFuel t
  end.

End Memtester.

(** ** Reading a trace *)

(** The calls into [tests.c], without their results. *)
Inductive test_call : Type :=
| CallStuck (bufa count : Z)
| CallTest (i : Z) (bufa bufb count : Z).

Definition call_of (ev : event) : list test_call :=
  match ev with
  | EvStuckAddress b n _ => [CallStuck b n]
  | EvTest i b1 b2 n _ => [CallTest i b1 b2 n]
  | _ => []
  end.

Definition calls (t : trace) : list test_call := flat_map call_of t.

Definition call_count (k : test_call) : Z :=
  match k with CallStuck _ n => n | CallTest _ _ _ n => n end.

Definition stuck_failure (ev : event) : bool :=
  match ev with EvStuckAddress _ _ r => negb (r =? 0) | _ => false end.

Definition test_failure (ev : event) : bool :=
  match ev with EvTest _ _ _ _ r => negb (r =? 0) | _ => false end.

(** The two flags that the test loop can raise, read off a trace. *)
Definition flags (t : trace) : Z :=
  Z.lor (if existsb stuck_failure t then EXIT_FAIL_ADDRESSLINES else 0)
        (if existsb test_failure t then EXIT_FAIL_OTHERTEST else 0).

(** Whether a mask lets entry [i] of the table run: the mask 0 lets every
    entry run, any other mask those whose bit is set. *)
Definition picks (testmask i : Z) : bool :=
  (testmask =? 0) || Z.testbit testmask i.

(** The ordinals of the first [n] table entries that a mask selects, in
    table order. *)
Definition selected (testmask : Z) (n : nat) : list Z :=
  filter (picks testmask) (map Z.of_nat (seq 0 n)).

Definition test_call_at (sizeof_ul : Z) (a : memory_alloc) (i : Z)
  : test_call :=
  CallTest i (bufa a) (bufb a) (count sizeof_ul a).

(** The calls of one full pass: the stuck-address test over the whole
    region, then the selected pattern tests over the two halves. *)
Definition pass_calls (sizeof_ul : Z) (c : config) (a : memory_alloc)
  : list test_call :=
  CallStuck (aligned a) (to_size (bufsize a) / sizeof_ul)
  :: map (test_call_at sizeof_ul a)
         (selected (cfg_testmask c) (List.length (tests (cfg_narrow c)))).

(** ** The sizes asked of the huge-page pool *)

(** [n * p; (n-1) * p; ...; 1 * p] *)
Fixpoint pages_down (n : nat) (p : Z) : list Z :=
  match n with
  | O => []
  | S n' => Z.of_nat n * p :: pages_down n' p
  end.

(** The request rounded up to whole pages, then, one page at a time, the
    sizes below the first retry, which is [free] pages when that number is
    positive and less than the rounded request, and one page less than the
    rounded request otherwise. *)
Definition hugepage_requests (want free p : Z) : list Z :=
  let r := if want mod p =? 0 then want / p else want / p + 1 in
  r * p ::
  pages_down (Z.to_nat (if (0 <? free) && (free <? r) then free else r - 1)) p.

(** Walking down a list of sizes: map each, stop at the first answer that
    is not [ENOMEM]. *)
Fixpoint try_sizes (e : env) (sizes : list Z) (a : memory_alloc) (t : trace)
  : outcome memory_alloc :=
  match sizes with
  | [] => Done (set_wantbytes 0 (set_buf NULL a)) t
  | w :: rest =>
    let r := to_size (fst (mmap_huge_ret e t w)) in
    let errno := snd (mmap_huge_ret e t w) in
    let t1 := t ++ [EvMmapHuge w r errno] in
    if (r =? MAP_FAILED) && (errno =? ENOMEM) then try_sizes e rest a t1
    else if r =? MAP_FAILED then Exit EXIT_FAILURE t1
    else Done (set_wantbytes w (set_buf r a)) t1
  end.

(** ** The state of [main] when the allocation starts *)

(** The page size [main] works with: the huge-page size under [-H], else
    what [sysconf] reports. *)
Definition page_size_of (e : env) (c : config) : Z :=
  if cfg_use_hugepages c then to_size (2 * 1024 * 1024)
  else to_size (sysconf_pagesize e).

(** [alloc] after the two size checks and [alloc.buf = NULL]. *)
Definition alloc_ready (e : env) (c : config) : memory_alloc :=
  mk_alloc NULL NULL (to_size (cfg_wantbytes c)) 0 true (cfg_use_hugepages c)
    (page_size_of e c)
    (to_long (to_size (Z.lnot (to_size (page_size_of e c - 1))))).

(** ** Well-formed page sizes and addresses *)

(** The page size is [2^k] and the mask is the one [memtester_pagesize]
    computes from it. *)
Definition page_ok (k : Z) (a : memory_alloc) : Prop :=
  0 <= k < 64 /\ pagesize a = 2 ^ k /\
  pagesizemask a = to_long (to_size (Z.lnot (to_size (2 ^ k - 1)))).

(** Distance from [buf] to the next page boundary. *)
Definition skip (a : memory_alloc) : Z := pagesize a - buf a mod pagesize a.

(** The byte offsets, from [aligned], that the two halves cover, and those
    that are usable. *)
Definition in_halves (a : memory_alloc) (x : Z) : Prop :=
  0 <= x < halflen a \/ halflen a <= x < halflen a + halflen a.
Definition usable (a : memory_alloc) (x : Z) : Prop := 0 <= x < bufsize a.


(** ** States of the heap path, for a page size [2^k] and an original
       request of [pages] whole pages *)

(** The start of a round of [alloc_using_malloc]: no buffer, and a request
    of [j] whole pages, at most the original one. *)
Definition round_start (k pages j : Z) (a : memory_alloc) : Prop :=
  page_ok k a /\ buf a = NULL /\ wantbytes a = j * 2 ^ k /\ 0 <= j <= pages.

(** The end of the last round, with the trace [t] so far: the request is
    still a number of whole pages, at most the original one; it is none
    if there is no buffer; if there is one, it is at least one page and
    the buffer is what the last [malloc] of the trace, asked for that
    many bytes, has returned, with at most the [mlock] of the round
    after it; [bufsize] is the request, less the alignment if that has
    been done in the round. *)
Definition settled (k pages : Z) (a : memory_alloc) (t : trace) : Prop :=
  page_ok k a /\ 0 <= buf a < 2 ^ 64 /\
  exists j, wantbytes a = j * 2 ^ k /\ 0 <= j <= pages /\
            (buf a = NULL -> j = 0) /\
            (buf a <> NULL ->
             1 <= j /\
             exists t0 tail,
               t = t0 ++ EvMalloc (wantbytes a) (buf a) :: tail /\
               (tail = [] \/ exists addr len err, tail = [EvMlock addr len err])) /\
            (bufsize a = j * 2 ^ k \/
             (buf a mod 2 ^ k <> 0 /\ bufsize a = j * 2 ^ k - skip a)).

(** An outcome that has added no call into [tests.c] to the trace [t] and
    that, if it is an exit, has the non-starter status. *)
Definition quiet {A : Type} (t : trace) (o : outcome A) : Prop :=
  calls (trace_of o) = calls t /\
  (forall code t', o = Exit code t' -> code = EXIT_FAIL_NONSTARTER).

(** ** Sample machines and command lines *)

(** A Linux machine with 4096-byte pages whose [malloc] always answers
    [malloc_addr]; the device opens as descriptor 3 and maps at
    [0x7f0000000000]; the stuck-address test passes. *)
Definition env_with (free : option Z) (malloc_addr : Z)
    (mlock : trace -> Z -> Z -> option Z) (huge : trace -> Z -> Z * Z)
    (test : trace -> Z -> Z -> Z -> Z -> Z) : env :=
  mk_env 4096 free (fun _ _ => malloc_addr) mlock (fun _ => 3)
         (fun _ _ _ => 0x7f0000000000) huge (fun _ _ _ => 0) test.

(** Nothing fails: huge pages map at [0x40000000]. *)
Definition env_ok (malloc_addr : Z) : env :=
  env_with (Some 8) malloc_addr (fun _ _ _ => None)
           (fun _ _ => (0x40000000, 0)) (fun _ _ _ _ _ => 0).

(** The first [mlock] fails with [errno]; a later one succeeds. *)
Definition env_mlock_fails (errno : Z) (malloc_addr : Z) : env :=
  env_with (Some 8) malloc_addr
           (fun t _ _ => if (length t <=? 1)%nat then Some errno else None)
           (fun _ _ => (0x40000000, 0)) (fun _ _ _ _ _ => 0).

(** Every [mlock] fails with [EPERM]. *)
Definition env_no_mlock : env :=
  env_with (Some 8) 0x20000 (fun _ _ _ => Some EPERM)
           (fun _ _ => (0x40000000, 0)) (fun _ _ _ _ _ => 0).

(** The huge-page pool is exhausted: the sysfs file says [free], and every
    huge-page [mmap] fails with [ENOMEM]. *)
Definition env_no_hugepages (free : Z) : env :=
  env_with (Some free) 0x20000 (fun _ _ _ => None)
           (fun _ _ => (-1, ENOMEM)) (fun _ _ _ _ _ => 0).

(** The first two huge-page [mmap]s fail with [ENOMEM], the third one
    succeeds. *)
Definition env_few_hugepages (free : Z) : env :=
  env_with (Some free) 0x20000 (fun _ _ _ => None)
           (fun t _ => if (length t <=? 1)%nat then (-1, ENOMEM)
                       else (0x40000000, 0))
           (fun _ _ _ _ _ => 0).

(** [malloc] never has memory to give. *)
Definition env_no_memory : env :=
  env_with (Some 8) NULL (fun _ _ _ => None)
           (fun _ _ => (0x40000000, 0)) (fun _ _ _ _ _ => 0).

(** The pattern test of ordinal 1 reports a fault each time. *)
Definition env_faulty : env :=
  env_with (Some 8) 0x20000 (fun _ _ _ => None)
           (fun _ _ => (0x40000000, 0))
           (fun _ i _ _ _ => if i =? 1 then -1 else 0).

(** [memtester <wantbytes>B <loops>] with [MEMTESTER_TEST_MASK=testmask]. *)
Definition cfg_heap (wantbytes loops testmask : Z) : config :=
  mk_config false false 0 wantbytes loops testmask false.

(** [memtester -H <wantbytes>B <loops>] *)
Definition cfg_huge (wantbytes loops testmask : Z) : config :=
  mk_config true false 0 wantbytes loops testmask false.

(** [memtester -p 0x100000 <wantbytes>B <loops>] *)
Definition cfg_phys (wantbytes loops testmask : Z) : config :=
  mk_config false true 0x100000 wantbytes loops testmask false.

(** ** The arguments of [main]

    [getopt], [strtoul], [strtoull], [getenv] and [stat] belong to the C
    library; what they answer for the command line at hand is the input
    of this part of [main]. *)

(** What [strtoul] and [strtoull] leave behind: the value, the character
    that [*endptr] points at (the null character at the end of the
    string) and [errno]. *)
Record strto : Type := mk_strto {
  st_val : Z;
  st_end : ascii;
  st_errno : Z
}.

(** What one call of [getopt(argc, argv, "Hp:d:u")] returns, with what the
    case of that option reads of [optarg]. *)
Inductive getopt_ret : Type :=
| GetH
| GetP (addr : strto)                          (* strtoull(optarg, &addrsuffix, 16) *)
| GetD (optarg : string) (st_mode : option Z)  (* stat(optarg, &statbuf); None: it failed *)
| GetU
| GetOther.                                    (* '?' *)

Record arguments : Type := mk_arguments {
  arg_testmask : option strto;      (* MEMTESTER_TEST_MASK as strtoul(.., 0, 0) reads it *)
  arg_options : list getopt_ret;    (* the returns of getopt before -1 *)
  arg_mem : option strto;           (* argv[optind] as strtoul(.., &memsuffix, 0) reads it *)
  arg_loops : option strto;         (* the argument after it *)
  arg_narrow : bool                 (* built with TEST_NARROW_WRITES *)
}.

(** The variables of [main] and the two globals that the option loop
    sets. *)
Record options : Type := mk_options {
  opt_alloc : memory_alloc;
  opt_use_phys : bool;
  opt_physaddrbase : Z;             (* off_t *)
  opt_device_name : string;
  opt_device_specified : bool;
  opt_o_flags : Z
}.

Definition O_RDWR : Z := 2.
Definition O_SYNC : Z := 1052672.   (* 04010000 *)
Definition S_IFMT : Z := 61440.     (* 0170000 *)
Definition S_IFCHR : Z := 8192.     (* 0020000 *)
Definition S_ISCHR (st_mode : Z) : bool := Z.land st_mode S_IFMT =? S_IFCHR.

(** [usage]: its message apart, the status that [main] returns with. *)
Definition usage : Z := EXIT_FAIL_NONSTARTER.

(** The [switch] on the character at [memsuffix]: the shift, or nothing
    for a bad suffix. *)
Definition memshift_of (memsuffix : ascii) : option Z :=
  match memsuffix with
  | "G" | "g" => Some 30
  | "M" | "m" => Some 20
  | "K" | "k" => Some 10
  | "B" | "b" => Some 0
  | "000" => Some 20
  | _ => None
  end%char.

Section MainArgs.

Variable sizeof_ul : Z.
Variable e : env.

(** One turn of [while ((opt = getopt(...)) != -1) switch (opt)]. *)
Definition option_case (g : getopt_ret) (o : options) (t : trace)
  : outcome options :=
  match g with
  | GetH =>
    match memtester_pagesize e (set_use_hugepages true (opt_alloc o)) t with
    | Done a t1 =>
      Done (mk_options a (opt_use_phys o) (opt_physaddrbase o)
              (opt_device_name o) (opt_device_specified o) (opt_o_flags o)) t1
    | Exit code t1 => Exit code t1
    | OutOfFuel t1 => OutOfFuel t1
    end
  | GetP addr =>
    let physaddrbase := to_long (st_val addr) in
    if negb (st_errno addr =? 0) then Exit usage t
    else if negb (Ascii.eqb (st_end addr) "000") then Exit usage t
    else if negb (Z.land (to_size physaddrbase)
                         (to_size (pagesize (opt_alloc o) - 1)) =? 0)
    then Exit usage t
    else
      Done (mk_options (opt_alloc o) true physaddrbase
              (opt_device_name o) (opt_device_specified o) (opt_o_flags o)) t
  | GetD optarg st_mode =>
    match st_mode with
    | None => Exit usage t
    | Some m =>
      if negb (S_ISCHR m) then Exit usage t
      else
        Done (mk_options (opt_alloc o) (opt_use_phys o) (opt_physaddrbase o)
                optarg true (opt_o_flags o)) t
    end
  | GetU =>
    Done (mk_options (opt_alloc o) (opt_use_phys o) (opt_physaddrbase o)
            (opt_device_name o) (opt_device_specified o)
            (to_int (Z.land (opt_o_flags o) (Z.lnot O_SYNC)))) t
  | GetOther => Exit usage t
  end.

Fixpoint getopt_loop (gs : list getopt_ret) (o : options) (t : trace)
  : outcome options :=
  match gs with
  | [] => Done o t
  | g :: gs' =>
    match option_case g o t with
    | Done o1 t1 => getopt_loop gs' o1 t1
    | Exit code t1 => Exit code t1
    | OutOfFuel t1 => OutOfFuel t1
    end
  end.

(** The variables of [main] as it declares them, [alloc] after its first
    [memtester_pagesize]. *)
Definition options_init (a : memory_alloc) : options :=
  mk_options a false 0 "/dev/mem" false (Z.lor O_RDWR O_SYNC).

(** [if ((env_testmask = getenv("MEMTESTER_TEST_MASK")))]: the mask, 0
    when the variable is not set. *)
Definition read_testmask (r : option strto) (t : trace) : outcome Z :=
  match r with
  | Some r => if negb (st_errno r =? 0) then Exit usage t
              else Done (to_ul sizeof_ul (st_val r)) t
  | None => Done 0 t
  end.

(** [if (optind >= argc) loops = 0; else ...]: the loop count. *)
Definition read_loops (r : option strto) (t : trace) : outcome Z :=
  match r with
  | None => Done 0 t
  | Some r =>
    if negb (st_errno r =? 0) then Exit usage t
    else if negb (Ascii.eqb (st_end r) "000") then Exit usage t
    else Done (to_ul sizeof_ul (st_val r)) t
  end.

(** [main], from its first line to [exit].  Printing is left out, and
    [return usage(argv[0])] ends the program with that status, as [exit]
    does.  The device name and the flags that the option loop leaves are
    the arguments of [open]; an [EvOpen] records the descriptor only. *)
Definition main_args (fuel : nat) (av : arguments) : outcome Empty_set :=
  match memtester_pagesize e alloc_init [] with
  | Exit code t => Exit code t
  | OutOfFuel t => OutOfFuel t
  | Done a0 t0 =>
  match read_testmask (arg_testmask av) t0 with
  | Exit code t => Exit code t
  | OutOfFuel t => OutOfFuel t
  | Done testmask t1 =>
  match getopt_loop (arg_options av) (options_init a0) t1 with
  | Exit code t => Exit code t
  | OutOfFuel t => OutOfFuel t
  | Done o t2 =>
    if opt_device_specified o && negb (opt_use_phys o) then Exit usage t2
    else
    match arg_mem av with
    | None => Exit usage t2
    | Some m =>
      if negb (st_errno m =? 0) then Exit usage t2
      else
      match memshift_of (st_end m) with
      | None => Exit usage t2
      | Some memshift =>
        let wantraw := to_size (st_val m) in
        let maxbytes := to_size (-1) in
        let maxmb := to_size (Z.shiftr maxbytes 20 + 1) in
        let wantbytes_orig := to_size (Z.shiftl wantraw memshift) in
        let a := set_wantbytes wantbytes_orig (opt_alloc o) in
        let wantmb := Z.shiftr wantbytes_orig 20 in
        if maxmb <? wantmb then Exit EXIT_FAIL_NONSTARTER t2
        else if wantbytes a <? pagesize a then Exit EXIT_FAIL_NONSTARTER t2
        else
        match read_loops (arg_loops av) t2 with
        | Exit code t => Exit code t
        | OutOfFuel t => OutOfFuel t
        | Done loops t3 =>
          let c := mk_config (use_hugepages a) (opt_use_phys o)
                     (opt_physaddrbase o) wantbytes_orig loops testmask
                     (arg_narrow av) in
          match acquire_from e fuel c (set_buf NULL a) t3 with
          | Exit code t => Exit code t
          | OutOfFuel t => OutOfFuel t
          | Done a5 t5 =>
            match run_loops sizeof_ul e fuel c a5 1 0 t5 with
            | Done exit_code t6 =>
              Exit exit_code
                   (if do_mlock a5
                    then t6 ++ [EvMunlock (aligned a5) (to_size (bufsize a5))]
                    else t6)
            | Exit code t6 => Exit code t6
            | OutOfFuel t6 => OutOfFuel t6
            end
          end
        end
      end
    end
  end end end.

End MainArgs.

(** ** Reading a command line *)

Definition is_H (g : getopt_ret) : bool :=
  match g with GetH => true | _ => false end.
Definition is_P (g : getopt_ret) : bool :=
  match g with GetP _ => true | _ => false end.
Definition is_D (g : getopt_ret) : bool :=
  match g with GetD _ _ => true | _ => false end.

Definition is_U (g : getopt_ret) : bool :=
  match g with GetU => true | _ => false end.

(** The argument of the last [-d], [d] if there is none. *)
Definition device_of (gs : list getopt_ret) (d : string) : string :=
  fold_left (fun acc g => match g with
                          | GetD optarg _ => optarg
                          | _ => acc
                          end) gs d.

(** The address of the last [-p], [d] if there is none. *)
Definition physaddr_of (gs : list getopt_ret) (d : Z) : Z :=
  fold_left (fun acc g => match g with
                          | GetP addr => to_long (st_val addr)
                          | _ => acc
                          end) gs d.

(** [alloc] between two options: nothing but the page size is set. *)
Definition alloc_paged (e : env) (hugepages : bool) : memory_alloc :=
  alloc_ready e (mk_config hugepages false 0 0 0 0 false).

(** The configuration that a command line amounts to, once its memory
    argument [m] has been read with the shift [memshift]. *)
Definition config_of (sizeof_ul : Z) (av : arguments) (m : strto)
    (memshift : Z) : config :=
  mk_config
    (existsb is_H (arg_options av))
    (existsb is_P (arg_options av))
    (physaddr_of (arg_options av) 0)
    (to_size (Z.shiftl (to_size (st_val m)) memshift))
    (match arg_loops av with
     | None => 0
     | Some r => to_ul sizeof_ul (st_val r)
     end)
    (match arg_testmask av with
     | None => 0
     | Some r => to_ul sizeof_ul (st_val r)
     end)
    (arg_narrow av).

(** ** Reading the whole trace

    The calls of the test loop, as they have to be for the region [a]:
    the two kinds of test, and [memset] on the buffer at its requested
    size. *)
Definition test_event (a : memory_alloc) (ev : event) : bool :=
  match ev with
  | EvStuckAddress _ _ _ | EvTest _ _ _ _ _ => true
  | EvMemset ptr len => (ptr =? buf a) && (len =? wantbytes a)
  | _ => false
  end.

(** The pointer and length of every [memset] of a trace. *)
Definition memsets (t : trace) : list (Z * Z) :=
  flat_map (fun ev => match ev with
                      | EvMemset ptr len => [(ptr, len)]
                      | _ => []
                      end) t.

(** The heap as a trace shows it: the block that [malloc] has returned and
    [free] has not taken back, with its size.  A step is refused ([None])
    when [malloc] is called while a block is held, when [free] gets
    something else than the block held (the null pointer when none is),
    and when [memset] writes something else than the whole of the block
    held (no byte at the null pointer when none is). *)
Definition heap_step (st : option (option (Z * Z))) (ev : event)
  : option (option (Z * Z)) :=
  match st with
  | None => None
  | Some blk =>
    match ev with
    | EvMalloc size ret =>
      match blk with
      | Some _ => None
      | None => Some (if ret =? NULL then None else Some (ret, size))
      end
    | EvFree ptr =>
      match blk with
      | Some (b, _) => if ptr =? b then Some None else None
      | None => if ptr =? NULL then Some None else None
      end
    | EvMemset ptr len =>
      match blk with
      | Some (b, s) => if (ptr =? b) && (len =? s) then st else None
      | None => if (ptr =? NULL) && (len =? 0) then st else None
      end
    | _ => st
    end
  end.

Definition heap_run (t : trace) : option (option (Z * Z)) :=
  fold_left heap_step t (Some None).

Definition heap_ok (t : trace) : bool :=
  match heap_run t with Some _ => true | None => false end.

(** The block that the record [a] stands for. *)
Definition held (a : memory_alloc) : option (Z * Z) :=
  if buf a =? NULL then None else Some (buf a, wantbytes a).

(** Pinning as a trace shows it: nothing pinned yet, the buffer pinned, or
    pinning given up.  A step is refused when [mlock] is called on a
    pinned buffer or after pinning was given up, when [malloc] or [free]
    is called while the buffer is pinned, when a test or [memset] runs
    before pinning has succeeded or been given up, and when [munlock] is
    called on a buffer that is not pinned. *)
Inductive pin_state : Type := PinNone | PinLocked | PinOff.

Definition pin_step (st : option pin_state) (ev : event) : option pin_state :=
  match st with
  | None => None
  | Some s =>
    match ev with
    | EvMlock _ _ err =>
      match s with
      | PinNone =>
        match err with
        | None => Some PinLocked
        | Some errno =>
          if (errno =? EAGAIN) || (errno =? ENOMEM) then Some PinNone
          else Some PinOff
        end
      | _ => None
      end
    | EvMunlock _ _ =>
      match s with PinLocked => Some PinNone | _ => None end
    | EvMalloc _ _ | EvFree _ =>
      match s with PinLocked => None | _ => st end
    | EvStuckAddress _ _ _ | EvTest _ _ _ _ _ | EvMemset _ _ =>
      match s with PinNone => None | _ => st end
    | _ => st
    end
  end.

Definition pin_run (t : trace) : option pin_state :=
  fold_left pin_step t (Some PinNone).

Definition pin_ok (t : trace) : bool :=
  match pin_run t with Some _ => true | None => false end.

(** A call of [malloc] that returned the null pointer; a call of one of
    the functions of the heap path or of the [-p] branch. *)
Definition failed_malloc (ev : event) : bool :=
  match ev with EvMalloc _ ret => ret =? NULL | _ => false end.

Definition heap_or_phys_event (ev : event) : bool :=
  match ev with
  | EvMalloc _ _ | EvFree _ | EvMlock _ _ _ | EvOpen _ | EvMmapPhys _ _ _ => true
  | _ => false
  end.

(** ** Sample command lines *)

(** A number that [strtoul] has read to the end of its string, and one
    followed by a suffix. *)
Definition number (v : Z) : strto := mk_strto v "000" 0.
Definition sized (v : Z) (suffix : ascii) : strto := mk_strto v suffix 0.

(** [memtester <options> <mem> <loops>], no test mask in the
    environment. *)
Definition args_of (options : list getopt_ret) (mem loops : strto)
  : arguments :=
  mk_arguments None options (Some mem) (Some loops) false.

(** [memtester -H -p 0x100000 <wantbytes>B <loops>] *)
Definition cfg_phys_huge (wantbytes loops testmask : Z) : config :=
  mk_config true true 0x100000 wantbytes loops testmask false.

(** * Properties

    ** Integer conversions *)

Lemma to_size_small x : 0 <= x < 2 ^ 64 -> to_size x = x.
Proof. intros H. unfold to_size. apply Z.mod_small. exact H. Qed.

Lemma to_size_range x : 0 <= to_size x < 2 ^ 64.
Proof. unfold to_size. apply Z.mod_pos_bound. reflexivity. Qed.

Lemma to_int_small x : - 2 ^ 31 <= x < 2 ^ 31 -> to_int x = x.
Proof. intros H. unfold to_int. rewrite Z.mod_small; lia. Qed.

Lemma to_int_congr x y : (x - y) mod 2 ^ 32 = 0 -> to_int x = to_int y.
Proof.
  intros H. unfold to_int. f_equal.
  apply Z.mod_divide in H; [|lia]. destruct H as [q Hq].
  replace (x + 2 ^ 31) with (y + 2 ^ 31 + q * 2 ^ 32) by lia.
  apply Z.mod_add. lia.
Qed.

Lemma to_int_sub_size b s : to_int (to_size (to_size b - to_size s)) = to_int (b - s).
Proof.
  apply to_int_congr. unfold to_size.
  pose proof (Z.div_mod b (2^64)). pose proof (Z.div_mod s (2^64)).
  pose proof (Z.div_mod (b mod 2^64 - s mod 2^64) (2^64)).
  apply Z.mod_divide; [lia|].
  exists (2 ^ 32 * (- ((b mod 2^64 - s mod 2^64) / 2^64) - b / 2^64 + s / 2^64)).
  change (2^64) with (2^32 * 2^32) in *. lia.
Qed.


Lemma mod_is x m q r : 0 <= r < m -> x = m * q + r -> x mod m = r.
Proof. intros H1 H2. symmetry. exact (Z.mod_unique_pos x m q r H1 H2). Qed.

Lemma pow2_k_bounds k : 0 <= k < 64 -> 0 < 2 ^ k <= 2 ^ 63.
Proof.
  intros Hk. split; [apply Z.pow_pos_nonneg; lia | apply Z.pow_le_mono_r; lia].
Qed.

(** ** The page mask

    For a page size [2^k] the mask is [2^64 - 2^k] as an unsigned value,
    and [b & mask] clears the low [k] bits of [b]. *)
Lemma mask_value k : 0 <= k < 64 ->
  to_size (to_long (to_size (Z.lnot (to_size (2 ^ k - 1))))) = 2 ^ 64 - 2 ^ k.
Proof.
  intros Hk. pose proof (pow2_k_bounds k Hk) as Hp.
  rewrite (to_size_small (2 ^ k - 1)) by lia.
  unfold Z.lnot. replace (Z.pred (- (2 ^ k - 1))) with (- 2 ^ k) by lia.
  assert (E1 : to_size (- 2 ^ k) = 2 ^ 64 - 2 ^ k).
  { unfold to_size. apply (mod_is _ _ (-1)); lia. }
  rewrite E1.
  assert (E2 : to_long (2 ^ 64 - 2 ^ k) = - 2 ^ k).
  { unfold to_long. rewrite (mod_is _ _ 1 (2 ^ 63 - 2 ^ k)); lia. }
  rewrite E2. exact E1.
Qed.

Lemma land_mask b k : 0 <= k < 64 -> 0 <= b < 2 ^ 64 ->
  Z.land b (2 ^ 64 - 2 ^ k) = b - b mod 2 ^ k.
Proof.
  intros Hk Hb. pose proof (pow2_k_bounds k Hk) as Hp.
  assert (E : 2 ^ 64 - 2 ^ k = Z.land (Z.lnot (Z.ones k)) (Z.ones 64)).
  { rewrite Z.land_ones by lia. rewrite Z.ones_equiv. unfold Z.lnot.
    replace (Z.pred (- Z.pred (2 ^ k))) with (- 2 ^ k) by lia.
    symmetry. apply (mod_is _ _ (-1)); lia. }
  rewrite E. rewrite (Z.land_comm (Z.lnot _)). rewrite Z.land_assoc.
  rewrite (Z.land_ones b 64) by lia. rewrite (Z.mod_small b) by lia.
  rewrite <- Z.ldiff_land.
  rewrite Z.ldiff_ones_r by lia.
  rewrite Z.shiftr_div_pow2, Z.shiftl_mul_pow2 by lia.
  pose proof (Z.div_mod b (2 ^ k)). lia.
Qed.

(** ** The alignment block *)

Lemma align_aligned a : buf a mod pagesize a = 0 -> align a = set_aligned (buf a) a.
Proof. intros H. unfold align. rewrite H. reflexivity. Qed.

Lemma align_keeps a :
  buf (align a) = buf a /\ do_mlock (align a) = do_mlock a /\
  wantbytes (align a) = wantbytes a /\ pagesize (align a) = pagesize a /\
  pagesizemask (align a) = pagesizemask a /\
  use_hugepages (align a) = use_hugepages a.
Proof. unfold align. destruct (negb _); cbn; auto 10. Qed.

Lemma skip_bounds k a : page_ok k a -> buf a mod pagesize a <> 0 ->
  0 < skip a < pagesize a.
Proof.
  intros (Hk & Hp & _) Hne. unfold skip.
  pose proof (pow2_k_bounds k Hk) as Hb. rewrite Hp in *.
  pose proof (Z.mod_pos_bound (buf a) (2 ^ k)). lia.
Qed.

Lemma align_unaligned k a :
  page_ok k a -> 0 <= buf a < 2 ^ 64 -> buf a mod pagesize a <> 0 ->
  align a = set_bufsize (to_int (bufsize a - skip a))
              (set_aligned (to_size (buf a + skip a)) a) /\
  to_size (to_size (buf a + skip a) - buf a) = skip a.
Proof.
  intros Hok Hb Hne. pose proof (skip_bounds k a Hok Hne) as Hs.
  destruct Hok as (Hk & Hp & Hm). pose proof (pow2_k_bounds k Hk) as Hpk.
  assert (E : to_size (to_size (buf a + skip a) - buf a) = skip a).
  { unfold to_size. rewrite Zminus_mod_idemp_l.
    replace (buf a + skip a - buf a) with (skip a) by lia.
    apply Z.mod_small. lia. }
  split; [|exact E].
  unfold align. destruct (buf a mod pagesize a =? 0) eqn:Hz; [lia|].
  cbn [negb]. 
  assert (Ea : to_size (Z.land (buf a) (to_size (pagesizemask a)) + pagesize a)
               = to_size (buf a + skip a)).
  { rewrite Hm, mask_value by exact Hk. rewrite land_mask by assumption.
    unfold skip. rewrite Hp. f_equal. lia. }
  rewrite Ea. cbn [set_aligned aligned buf bufsize].
  rewrite to_int_sub_size.
  assert (Es : to_int (bufsize a - (to_size (buf a + skip a) - buf a))
               = to_int (bufsize a - skip a)).
  { apply to_int_congr.
    replace (bufsize a - (to_size (buf a + skip a) - buf a) - (bufsize a - skip a))
      with (- (to_size (buf a + skip a) - (buf a + skip a))) by lia.
    unfold to_size. pose proof (Z.div_mod (buf a + skip a) (2 ^ 64)).
    apply Z.mod_divide; [lia|]. exists ((buf a + skip a) / 2 ^ 64 * 2 ^ 32).
    change (2 ^ 64) with (2 ^ 32 * 2 ^ 32) in *. lia. }
  rewrite Es. reflexivity.
Qed.

(** ** [alloc_using_malloc] *)

Section Heap.
Variable e : env.

Lemma malloc_loop_fields fuel : forall a t a1 t1,
  malloc_loop e fuel a t = Done a1 t1 ->
  do_mlock a1 = do_mlock a /\ pagesize a1 = pagesize a /\
  pagesizemask a1 = pagesizemask a /\ use_hugepages a1 = use_hugepages a /\
  bufsize a1 = bufsize a /\ aligned a1 = aligned a /\
  (0 <= buf a < 2 ^ 64 -> 0 <= buf a1 < 2 ^ 64).
Proof.
  induction fuel as [|fuel IH]; intros a t a1 t1 H; cbn [malloc_loop] in H;
    destruct ((buf a =? NULL) && negb (wantbytes a =? 0)) eqn:C;
    try discriminate; try (injection H as <- <-; tauto).
  apply IH in H. 
  destruct (buf (set_buf _ a) =? NULL); cbn in H;
    pose proof (to_size_range (malloc_ret e t (wantbytes a))); intuition.
Qed.

(** C3.  A failed [mlock] on [[aligned, aligned + bufsize)], pinning being
    requested.  With [EAGAIN] or [ENOMEM] the buffer is freed, the request
    shrinks by one page (in [size_t] arithmetic) and the caller's loop runs
    the allocation again, pinning still requested.  With [EPERM] pinning is
    switched off, the buffer is freed and the allocation runs again at the
    original size.  With any other error pinning is switched off, the
    buffer is kept and the caller's loop ends. *)
Theorem pin_failure_handling :
  forall fuel rounds a wantbytes_orig t a1 t1 errno,
  do_mlock a = true ->
  malloc_loop e fuel a t = Done a1 t1 ->
  let a3 := align (set_bufsize (to_int (wantbytes a1)) a1) in
  let t2 := t1 ++ [EvMlock (aligned a3) (to_size (bufsize a3)) (Some errno)] in
  mlock_ret e t1 (aligned a3) (to_size (bufsize a3)) = Some errno ->
  (errno = EAGAIN \/ errno = ENOMEM ->
     exists a',
       alloc_using_malloc e fuel a wantbytes_orig t
         = Done (0, a') (t2 ++ [EvFree (buf a1)]) /\
       buf a' = NULL /\ do_mlock a' = true /\
       wantbytes a' = to_size (wantbytes a1 - pagesize a1) /\
       (0 <= pagesize a1 <= wantbytes a1 -> wantbytes a1 < 2 ^ 64 ->
        wantbytes a' = wantbytes a1 - pagesize a1) /\
       malloc_rounds e fuel (S rounds) a wantbytes_orig t
         = malloc_rounds e fuel rounds a' wantbytes_orig
             (t2 ++ [EvFree (buf a1)])) /\
  (errno = EPERM ->
     exists a',
       alloc_using_malloc e fuel a wantbytes_orig t
         = Done (0, a') (t2 ++ [EvFree (buf a1)]) /\
       buf a' = NULL /\ do_mlock a' = false /\
       wantbytes a' = wantbytes_orig /\
       malloc_rounds e fuel (S rounds) a wantbytes_orig t
         = malloc_rounds e fuel rounds a' wantbytes_orig
             (t2 ++ [EvFree (buf a1)])) /\
  (errno <> EAGAIN -> errno <> ENOMEM -> errno <> EPERM ->
     exists a',
       alloc_using_malloc e fuel a wantbytes_orig t = Done (1, a') t2 /\
       buf a' = buf a1 /\ do_mlock a' = false /\
       wantbytes a' = wantbytes a1 /\
       aligned a' = aligned a3 /\ bufsize a' = bufsize a3 /\
       malloc_rounds e fuel (S rounds) a wantbytes_orig t = Done a' t2).
Proof.
  intros fuel rounds a orig t a1 t1 errno Hlock Hloop a3 t2 Hml.
  destruct (malloc_loop_fields _ _ _ _ _ Hloop) as (Hd & _).
  assert (Hbuf3 : buf a3 = buf a1 /\ wantbytes a3 = wantbytes a1 /\
                  pagesize a3 = pagesize a1 /\ do_mlock a3 = true).
  { subst a3. unfold align.
    destruct (negb (buf (set_bufsize (to_int (wantbytes a1)) a1)
                    mod pagesize (set_bufsize (to_int (wantbytes a1)) a1) =? 0));
      cbn; rewrite Hd, Hlock; auto. }
  destruct Hbuf3 as (Hb3 & Hw3 & Hp3 & Hd3).
  assert (Hrun : alloc_using_malloc e fuel a orig t =
    if (errno =? EAGAIN) || (errno =? ENOMEM) then
      Done (0, set_wantbytes (to_size (wantbytes a3 - pagesize a3))
                 (set_buf NULL a3)) (t2 ++ [EvFree (buf a3)])
    else if errno =? EPERM then
      Done (0, set_wantbytes orig (set_buf NULL (set_do_mlock false a3)))
           (t2 ++ [EvFree (buf a3)])
    else Done (1, set_do_mlock false a3) t2).
  { unfold alloc_using_malloc. rewrite Hloop. cbn [do_mlock set_bufsize].
    rewrite Hd, Hlock. fold a3. rewrite Hml. reflexivity. }
  repeat split.
  - intros Hlim.
    assert (Hc : (errno =? EAGAIN) || (errno =? ENOMEM) = true).
    { apply orb_true_iff. destruct Hlim; [left | right]; apply Z.eqb_eq; assumption. }
    rewrite Hc in Hrun. eexists. split; [rewrite Hrun, Hb3; reflexivity|].
    cbn [buf do_mlock wantbytes set_wantbytes set_buf pagesize].
    rewrite Hd3, Hw3, Hp3. repeat split.
    + intros Hr Hr'. apply to_size_small. lia.
    + cbn [malloc_rounds]. rewrite Hrun, Hb3, Hw3, Hp3. reflexivity.
  - intros ->. cbn in Hrun.
    eexists. split; [rewrite Hrun, Hb3; reflexivity|].
    cbn [buf do_mlock wantbytes set_wantbytes set_buf set_do_mlock].
    repeat split.
    cbn [malloc_rounds]. rewrite Hrun, Hb3. reflexivity.
  - intros N1 N2 N3.
    apply Z.eqb_neq in N1, N2, N3. rewrite N1, N2, N3 in Hrun. cbn in Hrun.
    eexists. split; [exact Hrun|].
    cbn [buf do_mlock wantbytes set_do_mlock aligned bufsize].
    rewrite Hb3, Hw3. repeat split.
    cbn [malloc_rounds]. rewrite Hrun. reflexivity.
Qed.

Lemma alloc_using_malloc_done fuel a orig t a' t' :
  do_mlock a = true ->
  alloc_using_malloc e fuel a orig t = Done (1, a') t' ->
  exists a1 t1 err,
    malloc_loop e fuel a t = Done a1 t1 /\
    let a3 := align (set_bufsize (to_int (wantbytes a1)) a1) in
    mlock_ret e t1 (aligned a3) (to_size (bufsize a3)) = err /\
    t' = t1 ++ [EvMlock (aligned a3) (to_size (bufsize a3)) err] /\
    (a' = a3 \/ a' = set_do_mlock false a3).
Proof.
  intros Hlock H. unfold alloc_using_malloc in H.
  destruct (malloc_loop e fuel a t) as [a1 t1| |] eqn:Hloop; try discriminate.
  destruct (malloc_loop_fields _ _ _ _ _ Hloop) as (Hd & _).
  cbn [do_mlock set_bufsize] in H. rewrite Hd, Hlock in H.
  exists a1, t1. eexists. split; [reflexivity|]. cbn zeta.
  split; [reflexivity|].
  destruct (mlock_ret e t1 _ _) as [errno|].
  - destruct ((errno =? EAGAIN) || (errno =? ENOMEM)); [discriminate|].
    destruct (errno =? EPERM); [discriminate|].
    injection H as <- <-. auto.
  - injection H as <- <-. auto.
Qed.

(** The round of [alloc_using_malloc] that ends the allocation, entered
    with pinning enabled, returns a buffer that is not page-aligned.  Then
    [bufsize] has already lost the distance [skip] to the next page
    boundary before the [mlock] call, which is made on [wantbytes - skip]
    bytes, and the alignment block of [main] takes [skip] away once more. *)
Lemma skip_subtracted_in_round :
  forall k fuel a wantbytes_orig t a' t',
  page_ok k a -> k <= 30 -> 0 <= buf a < 2 ^ 64 ->
  do_mlock a = true ->
  alloc_using_malloc e fuel a wantbytes_orig t = Done (1, a') t' ->
  buf a' mod pagesize a' <> 0 ->
  0 <= wantbytes a' < 2 ^ 31 ->
  0 < skip a' < pagesize a' /\
  aligned a' = to_size (buf a' + skip a') /\
  bufsize a' = wantbytes a' - skip a' /\
  (exists t1 err,
     t' = t1 ++ [EvMlock (aligned a') (to_size (wantbytes a' - skip a')) err]) /\
  aligned (align a') = aligned a' /\
  bufsize (align a') = wantbytes a' - 2 * skip a'.
Proof.
  intros k fuel a orig t a' t' Hok Hk Hb Hlock Hrun Hne Hw.
  destruct (alloc_using_malloc_done _ _ _ _ _ _ Hlock Hrun)
    as (a1 & t1 & err & Hloop & Hml & Ht & Ha').
  destruct (malloc_loop_fields _ _ _ _ _ Hloop)
    as (Hd & Hp & Hm & _ & _ & _ & Hb1).
  specialize (Hb1 Hb).
  set (a2 := set_bufsize (to_int (wantbytes a1)) a1) in *.
  assert (Hok2 : page_ok k a2).
  { destruct Hok as (? & ? & ?). unfold page_ok, a2. cbn. rewrite Hp, Hm. auto. }
  assert (Hsame : buf a' = buf a1 /\ pagesize a' = pagesize a1 /\
                  wantbytes a' = wantbytes a1 /\ pagesizemask a' = pagesizemask a1).
  { unfold align in Ha'.
    destruct (negb (buf a2 mod pagesize a2 =? 0)); destruct Ha' as [-> | ->]; cbn; auto. }
  destruct Hsame as (Eb & Ep & Ew & Em).
  assert (Hne2 : buf a2 mod pagesize a2 <> 0) by (cbn; rewrite <- Eb, <- Ep; exact Hne).
  assert (Hb2 : 0 <= buf a2 < 2 ^ 64) by (cbn; exact Hb1).
  destruct (align_unaligned k a2 Hok2 Hb2 Hne2) as (Hal & Hsk).
  assert (Esk : skip a2 = skip a') by (unfold skip; cbn; rewrite Eb, Ep; reflexivity).
  pose proof (skip_bounds k a2 Hok2 Hne2) as Hs.
  assert (Hp30 : pagesize a2 <= 2 ^ 30).
  { destruct Hok2 as (Hk2 & -> & _). apply Z.pow_le_mono_r; lia. }
  assert (Hraw : aligned a' = to_size (buf a2 + skip a2) /\
                 bufsize a' = to_int (bufsize a2 - skip a2)).
  { rewrite Hal in Ha'. destruct Ha' as [E | E]; rewrite E; cbn; auto. }
  assert (Hbs : to_int (bufsize a2 - skip a2) = wantbytes a' - skip a2).
  { cbn [a2 bufsize set_bufsize]. rewrite <- Ew.
    rewrite (to_int_small (wantbytes a')) by lia. apply to_int_small. lia. }
  assert (Hfields : aligned a' = to_size (buf a' + skip a') /\
                    bufsize a' = wantbytes a' - skip a').
  { destruct Hraw as (-> & ->). rewrite Hbs, Esk, Eb. cbn [a2 buf set_bufsize]. auto. }
  rewrite Esk in *. clear Hraw.
  destruct Hfields as (Eal & Ebs).
  assert (Hok' : page_ok k a').
  { destruct Hok2 as (? & ? & ?). unfold page_ok. rewrite Ep, Em. auto. }
  assert (Hb' : 0 <= buf a' < 2 ^ 64) by (rewrite Eb; exact Hb1).
  destruct (align_unaligned k a' Hok' Hb' Hne) as (Hal' & _).
  assert (Ep2 : pagesize a2 = pagesize a') by (cbn; auto).
  split; [lia|]. split; [exact Eal|]. split; [exact Ebs|].
  split; [|split].
  - exists t1, err. rewrite Ht. f_equal. f_equal.
    assert (Hx : aligned (align a2) = aligned a' /\ bufsize (align a2) = bufsize a').
    { destruct Ha' as [E | E]; rewrite E; cbn; auto. }
    destruct Hx as (-> & ->). rewrite Ebs. reflexivity.
  - rewrite Hal'. cbn. symmetry. exact Eal.
  - rewrite Hal'. cbn [bufsize set_bufsize]. rewrite Ebs.
    rewrite to_int_small; lia.
Qed.
End Heap.



(** ** Traces of the test loop *)

Lemma calls_app t1 t2 : calls (t1 ++ t2) = calls t1 ++ calls t2.
Proof. unfold calls. apply flat_map_app. Qed.

Lemma flags_snoc_quiet t ev :
  stuck_failure ev = false -> test_failure ev = false ->
  flags (t ++ [ev]) = flags t.
Proof.
  intros H1 H2. unfold flags. rewrite !existsb_app. cbn [existsb].
  rewrite H1, H2, !orb_false_r. reflexivity.
Qed.

Lemma flags_snoc_stuck t ev :
  stuck_failure ev = true -> test_failure ev = false ->
  flags (t ++ [ev]) = Z.lor (flags t) EXIT_FAIL_ADDRESSLINES.
Proof.
  intros H1 H2. unfold flags. rewrite !existsb_app. cbn [existsb].
  rewrite H1, H2, !orb_false_r, orb_true_r.
  destruct (existsb stuck_failure t), (existsb test_failure t); reflexivity.
Qed.

Lemma flags_snoc_test t ev :
  stuck_failure ev = false -> test_failure ev = true ->
  flags (t ++ [ev]) = Z.lor (flags t) EXIT_FAIL_OTHERTEST.
Proof.
  intros H1 H2. unfold flags. rewrite !existsb_app. cbn [existsb].
  rewrite H1, H2, !orb_false_r, orb_true_r.
  destruct (existsb stuck_failure t), (existsb test_failure t); reflexivity.
Qed.

Lemma flags_no_calls t : calls t = [] -> flags t = 0.
Proof.
  intros H. unfold flags.
  assert (E : existsb stuck_failure t = false /\ existsb test_failure t = false).
  { induction t as [|ev t IH]; [auto|].
    change (calls (ev :: t)) with (call_of ev ++ calls t) in H.
    apply app_eq_nil in H. destruct H as (H1 & H2).
    destruct (IH H2) as (I1 & I2). cbn [existsb]. rewrite I1, I2.
    destruct ev; cbn in *; try discriminate; auto. }
  destruct E as (-> & ->). reflexivity.
Qed.

(** [(1 << i) & testmask] is zero exactly when bit [i] of the mask is
    clear, for the shifts that fit an [int]. *)
Lemma mask_bit_clear i m : 0 <= i < 31 ->
  (Z.land (to_int (Z.shiftl 1 i)) m =? 0) = negb (Z.testbit m i).
Proof.
  intros Hi. rewrite Z.shiftl_1_l.
  assert (Hp : 0 < 2 ^ i < 2 ^ 31).
  { split; [apply Z.pow_pos_nonneg; lia | apply Z.pow_lt_mono_r; lia]. }
  rewrite to_int_small by lia.
  destruct (Z.testbit m i) eqn:Hb; cbn [negb].
  - apply Z.eqb_neq. intros E.
    assert (Hc : Z.testbit (Z.land (2 ^ i) m) i = true).
    { rewrite Z.land_spec, Z.pow2_bits_true, Hb by lia. reflexivity. }
    rewrite E in Hc. rewrite Z.bits_0 in Hc. discriminate.
  - apply Z.eqb_eq. apply Z.bits_inj'. intros n Hn.
    rewrite Z.land_spec, Z.bits_0, Z.pow2_bits_eqb by lia.
    destruct (Z.eqb_spec i n) as [<- | Hne]; [rewrite Hb|]; reflexivity.
Qed.



(** ** The start of [main] *)

Section Start.
Variable e : env.

Lemma maxmb_check x :
  (to_size (Z.shiftr (to_size (-1)) 20 + 1) <? Z.shiftr (to_size x) 20) = false.
Proof.
  apply Z.ltb_ge. rewrite Z.shiftr_div_pow2 by lia.
  pose proof (to_size_range x) as Hx.
  assert (to_size x / 2 ^ 20 < 2 ^ 44).
  { apply Z.div_lt_upper_bound; [lia|]. change (2 ^ 20 * 2 ^ 44) with (2 ^ 64). lia. }
  change (to_size (Z.shiftr (to_size (-1)) 20 + 1)) with (2 ^ 44). lia.
Qed.

(** No page size, or a request below one page: [main] exits with the
    non-starter code before anything is allocated. *)
Lemma acquire_nonstarter fuel c :
  to_size (sysconf_pagesize e) = to_size (-1) \/
  to_size (cfg_wantbytes c) < page_size_of e c ->
  acquire e fuel c = Exit EXIT_FAIL_NONSTARTER [].
Proof.
  intros H. unfold acquire, memtester_pagesize. cbn [use_hugepages alloc_init].
  destruct (to_size (sysconf_pagesize e) =? to_size (-1)) eqn:Hs; [reflexivity|].
  apply Z.eqb_neq in Hs. destruct H as [H | H]; [contradiction|].
  unfold page_size_of in H.
  destruct (cfg_use_hugepages c); cbn [use_hugepages set_use_hugepages set_pagesize];
    rewrite maxmb_check; cbn [wantbytes pagesize set_wantbytes set_pagesize];
    destruct (Z.ltb_spec (to_size (cfg_wantbytes c)) (to_size (2 * 1024 * 1024)));
    destruct (Z.ltb_spec (to_size (cfg_wantbytes c)) (to_size (sysconf_pagesize e)));
    try reflexivity; lia.
Qed.

(** Otherwise the allocation starts from [alloc_ready]. *)
Lemma acquire_ready fuel c :
  to_size (sysconf_pagesize e) <> to_size (-1) ->
  page_size_of e c <= to_size (cfg_wantbytes c) ->
  acquire e fuel c = acquire_from e fuel c (alloc_ready e c) [].
Proof.
  intros Hs H. unfold acquire, memtester_pagesize. cbn [use_hugepages alloc_init].
  apply Z.eqb_neq in Hs. rewrite Hs.
  unfold acquire_from, alloc_ready, page_size_of in *.
  destruct (cfg_use_hugepages c); cbn [use_hugepages set_use_hugepages set_pagesize];
    rewrite maxmb_check; cbn [wantbytes pagesize set_wantbytes set_pagesize].
  - destruct (Z.ltb_spec (to_size (cfg_wantbytes c)) (to_size (2 * 1024 * 1024))); [lia|].
    reflexivity.
  - destruct (Z.ltb_spec (to_size (cfg_wantbytes c)) (to_size (sysconf_pagesize e))); [lia|].
    reflexivity.
Qed.

Lemma acquire_cases fuel c :
  acquire e fuel c = Exit EXIT_FAIL_NONSTARTER [] \/
  acquire e fuel c = acquire_from e fuel c (alloc_ready e c) [].
Proof.
  destruct (Z.eq_dec (to_size (sysconf_pagesize e)) (to_size (-1))) as [E | NE].
  - left. apply acquire_nonstarter. auto.
  - destruct (Z.lt_ge_cases (to_size (cfg_wantbytes c)) (page_size_of e c)).
    + left. apply acquire_nonstarter. auto.
    + right. apply acquire_ready; assumption.
Qed.
End Start.

(** ** The allocation makes no test call and exits only with status 1 *)

Section Quiet.
Variable e : env.

Lemma quiet_done {A : Type} (x : A) t t' :
  calls t' = calls t -> quiet t (Done x t').
Proof. intros H. split; [exact H | discriminate]. Qed.

Lemma quiet_fuel {A : Type} t t' :
  calls t' = calls t -> quiet t (@OutOfFuel A t').
Proof. intros H. split; [exact H | discriminate]. Qed.

Lemma quiet_exit {A : Type} t t' :
  calls t' = calls t -> quiet t (@Exit A EXIT_FAIL_NONSTARTER t').
Proof. intros H. split; [exact H | intros ? ? [= <- _]; reflexivity]. Qed.

Lemma calls_snoc_quiet t ev : call_of ev = [] -> calls (t ++ [ev]) = calls t.
Proof. intros H. rewrite calls_app. cbn. rewrite H. rewrite !app_nil_r. reflexivity. Qed.

Lemma hugepages_loop_quiet fuel free : forall a t,
  quiet t (hugepages_loop e fuel free a t).
Proof.
  induction fuel as [|fuel IH]; intros a t; cbn [hugepages_loop];
    destruct ((buf a =? NULL) && negb (wantbytes a =? 0));
    try (apply quiet_done; reflexivity); try (apply quiet_fuel; reflexivity).
  set (r := to_size (fst (mmap_huge_ret e t (wantbytes a)))).
  set (errno := snd (mmap_huge_ret e t (wantbytes a))).
  assert (Hc : calls (t ++ [EvMmapHuge (wantbytes a) r errno]) = calls t)
    by (apply calls_snoc_quiet; reflexivity).
  destruct ((r =? MAP_FAILED) && (errno =? ENOMEM)).
  - match goal with |- context [if ?c then Done ?x ?y else _] => destruct c end.
    + apply quiet_done. exact Hc.
    + match goal with |- quiet _ (hugepages_loop _ _ _ ?a' ?t') =>
        destruct (IH a' t') as (I1 & I2) end.
      split; [congruence | exact I2].
  - destruct (r =? MAP_FAILED).
    + apply quiet_exit. exact Hc.
    + destruct (IH (set_buf r a) (t ++ [EvMmapHuge (wantbytes a) r errno])) as (I1 & I2).
      split; [congruence | exact I2].
Qed.

Lemma malloc_loop_quiet fuel : forall a t, quiet t (malloc_loop e fuel a t).
Proof.
  induction fuel as [|fuel IH]; intros a t; cbn [malloc_loop];
    destruct ((buf a =? NULL) && negb (wantbytes a =? 0));
    try (apply quiet_done; reflexivity); try (apply quiet_fuel; reflexivity).
  match goal with |- quiet _ (malloc_loop _ _ ?a' ?t') =>
    destruct (IH a' t') as (I1 & I2) end.
  split; [|exact I2]. rewrite I1. apply calls_snoc_quiet. reflexivity.
Qed.

Lemma alloc_using_malloc_quiet fuel a orig t :
  quiet t (alloc_using_malloc e fuel a orig t).
Proof.
  unfold alloc_using_malloc.
  destruct (malloc_loop_quiet fuel a t) as (H1 & H2).
  destruct (malloc_loop e fuel a t) as [a1 t1|c t1|t1]; cbn [trace_of] in H1.
  - cbn [do_mlock set_bufsize]. destruct (do_mlock a1); [|apply quiet_done; exact H1].
    cbv zeta.
    destruct (mlock_ret e t1 _ _) as [errno|].
    + destruct ((errno =? EAGAIN) || (errno =? ENOMEM)); [|destruct (errno =? EPERM)];
        apply quiet_done; rewrite ?calls_snoc_quiet by reflexivity; exact H1.
    + apply quiet_done. rewrite calls_snoc_quiet by reflexivity. exact H1.
  - split; [exact H1|]. intros code t' [= <- <-]. eapply H2. reflexivity.
  - apply quiet_fuel. exact H1.
Qed.

Lemma malloc_rounds_quiet fuel rounds : forall a orig t,
  quiet t (malloc_rounds e fuel rounds a orig t).
Proof.
  induction rounds as [|rounds IH]; intros a orig t; cbn [malloc_rounds].
  - apply quiet_fuel. reflexivity.
  - destruct (alloc_using_malloc_quiet fuel a orig t) as (H1 & H2).
    destruct (alloc_using_malloc e fuel a orig t) as [[d a1] t1|c t1|t1];
      cbn [trace_of] in H1.
    + destruct (d =? 0); [|apply quiet_done; exact H1].
      destruct (IH a1 orig t1) as (I1 & I2). split; [congruence | exact I2].
    + split; [exact H1|]. intros code t' [= <- <-]. eapply H2. reflexivity.
    + apply quiet_fuel. exact H1.
Qed.

Lemma phys_map_quiet base a t : quiet t (phys_map e base a t).
Proof.
  unfold phys_map. cbv zeta.
  destruct (to_int (open_ret e t) =? -1).
  - apply quiet_exit. apply calls_snoc_quiet. reflexivity.
  - match goal with |- context [if ?c then _ else _] => destruct c end.
    + apply quiet_exit. rewrite !calls_snoc_quiet by reflexivity. reflexivity.
    + apply quiet_done. rewrite !calls_snoc_quiet by reflexivity. reflexivity.
Qed.

Lemma acquire_from_quiet fuel c a : quiet [] (acquire_from e fuel c a []).
Proof.
  unfold acquire_from.
  assert (H4 : quiet (A := memory_alloc) []
                 (if cfg_use_phys c then phys_map e (cfg_physaddrbase c) a []
                  else Done a [])).
  { destruct (cfg_use_phys c); [apply phys_map_quiet | apply quiet_done; reflexivity]. }
  destruct H4 as (H4 & H4').
  destruct (if cfg_use_phys c then phys_map e (cfg_physaddrbase c) a [] else Done a [])
    as [a4 t4|code t4|t4]; cbn [trace_of] in H4.
  - assert (H5 : quiet t4
       (if use_hugepages a4 then alloc_using_hugepages e fuel a4 t4
        else if cfg_use_phys c then Done a4 t4
        else malloc_rounds e fuel fuel a4 (to_size (cfg_wantbytes c)) t4)).
    { destruct (use_hugepages a4); [apply hugepages_loop_quiet|].
      destruct (cfg_use_phys c); [apply quiet_done; reflexivity|].
      apply malloc_rounds_quiet. }
    destruct H5 as (H5 & H5').
    destruct (if use_hugepages a4 then _ else _) as [a5 t5|code t5|t5];
      cbn [trace_of] in H5.
    + apply quiet_done. congruence.
    + split; [cbn [trace_of]; rewrite H5; exact H4|].
      intros code' t' [= <- <-]. eapply H5'. reflexivity.
    + apply quiet_fuel. congruence.
  - split; [exact H4|]. intros code' t' [= <- <-]. eapply H4'. reflexivity.
  - apply quiet_fuel. exact H4.
Qed.

Lemma acquire_quiet fuel c : quiet (A := memory_alloc) [] (acquire e fuel c).
Proof.
  destruct (acquire_cases e fuel c) as [-> | ->].
  - apply quiet_exit. reflexivity.
  - apply acquire_from_quiet.
Qed.
End Quiet.


(** ** The heap path: the last round *)

Section HeapLast.
Variable e : env.

Lemma alloc_using_malloc_keeps fuel a orig t d a' t' :
  alloc_using_malloc e fuel a orig t = Done (d, a') t' ->
  pagesize a' = pagesize a /\ pagesizemask a' = pagesizemask a /\
  (do_mlock a = false -> do_mlock a' = false) /\
  (d = 0 -> buf a' = NULL).
Proof.
  intros H. unfold alloc_using_malloc in H.
  destruct (malloc_loop e fuel a t) as [a1 t1| |] eqn:Hloop; try discriminate.
  destruct (malloc_loop_fields e _ _ _ _ _ Hloop) as (Hd & Hp & Hm & _).
  cbn [do_mlock set_bufsize] in H. rewrite Hd in H.
  destruct (do_mlock a) eqn:Hlock.
  - destruct (align_keeps (set_bufsize (to_int (wantbytes a1)) a1))
      as (_ & _ & _ & Kp & Km & _).
    cbn [pagesize pagesizemask set_bufsize] in Kp, Km.
    destruct (mlock_ret e t1 _ _) as [errno|].
    + destruct ((errno =? EAGAIN) || (errno =? ENOMEM));
        [|destruct (errno =? EPERM)]; injection H as <- <- <-; cbn;
        rewrite Kp, Km, Hp, Hm; repeat split; auto; discriminate.
    + injection H as <- <- <-. rewrite Kp, Km, Hp, Hm.
      repeat split; auto; discriminate.
  - injection H as <- <- <-. cbn. rewrite Hp, Hm, Hd.
    repeat split; auto; discriminate.
Qed.

(** The round that ends the caller's loop starts without a buffer, like
    every round, and with pinning on if pinning is on at the end. *)
Lemma malloc_rounds_last fuel k orig : forall rounds a t a' t',
  page_ok k a -> buf a = NULL ->
  malloc_rounds e fuel rounds a orig t = Done a' t' ->
  exists a0 t0,
    page_ok k a0 /\ buf a0 = NULL /\
    (do_mlock a' = true -> do_mlock a0 = true) /\
    alloc_using_malloc e fuel a0 orig t0 = Done (1, a') t'.
Proof.
  induction rounds as [|rounds IH]; intros a t a' t' Hok Hb H;
    cbn [malloc_rounds] in H; [discriminate|].
  destruct (alloc_using_malloc e fuel a orig t) as [[d a1] t1| |] eqn:Hrun;
    try discriminate.
  destruct (alloc_using_malloc_keeps _ _ _ _ _ _ _ Hrun) as (Kp & Km & Kd & Kb).
  destruct (Z.eqb_spec d 0) as [-> | Hd].
  - apply (IH a1 t1); [|auto|exact H].
    destruct Hok as (H1 & H2 & H3). unfold page_ok. rewrite Kp, Km. auto.
  - injection H as <- <-.
    assert (d = 1) as ->.
    { unfold alloc_using_malloc in Hrun.
      destruct (malloc_loop e fuel a t); try discriminate.
      destruct (do_mlock _); [|congruence].
      cbv zeta in Hrun. destruct (mlock_ret e _ _ _) as [errno|];
        [destruct ((errno =? EAGAIN) || (errno =? ENOMEM));
           [|destruct (errno =? EPERM)]|]; congruence. }
    exists a, t. split; [exact Hok|]. split; [exact Hb|].
    split; [|exact Hrun].
    intros Hon. destruct (do_mlock a) eqn:Hlock; [reflexivity|].
    specialize (Kd eq_refl). congruence.
Qed.

(** C10.  Pinning enabled and a heap buffer that is not page-aligned.
    In the round of [alloc_using_malloc] that ends the allocation,
    [bufsize] loses the distance [skip] to the next page boundary before
    the [mlock] call, which is made on [wantbytes - skip] bytes, and the
    alignment block of [main] takes [skip] away once more.  So when the
    allocation ends with a pinned buffer, the region that is tested is
    [skip] bytes shorter than the aligned part of the allocation, which
    is what was pinned. *)
Theorem alignment_skip_subtracted_twice :
  (forall k fuel a wantbytes_orig t a' t',
     page_ok k a -> k <= 30 -> 0 <= buf a < 2 ^ 64 ->
     do_mlock a = true ->
     alloc_using_malloc e fuel a wantbytes_orig t = Done (1, a') t' ->
     buf a' mod pagesize a' <> 0 ->
     0 <= wantbytes a' < 2 ^ 31 ->
     0 < skip a' < pagesize a' /\
     aligned a' = to_size (buf a' + skip a') /\
     bufsize a' = wantbytes a' - skip a' /\
     (exists t1 err,
        t' = t1 ++ [EvMlock (aligned a') (to_size (wantbytes a' - skip a')) err]) /\
     aligned (align a') = aligned a' /\
     bufsize (align a') = wantbytes a' - 2 * skip a') /\
  (forall k fuel c a t,
     0 <= k <= 30 -> sysconf_pagesize e = 2 ^ k ->
     cfg_use_hugepages c = false -> cfg_use_phys c = false ->
     acquire e fuel c = Done a t ->
     do_mlock a = true ->
     buf a mod pagesize a <> 0 ->
     0 <= wantbytes a < 2 ^ 31 ->
     0 < skip a < pagesize a /\
     (exists t1,
        t = t1 ++ [EvMlock (aligned a) (to_size (wantbytes a - skip a)) None]) /\
     bufsize a = wantbytes a - 2 * skip a).
Proof.
  split; [exact (skip_subtracted_in_round e)|].
  intros k fuel c a t Hk Hsys Hh Hph Hacq Hon Hne Hw.
  assert (Hpk : 0 < 2 ^ k <= 2 ^ 30)
    by (split; [apply Z.pow_pos_nonneg; lia | apply Z.pow_le_mono_r; lia]).
  destruct (acquire_cases e fuel c) as [E | E]; rewrite E in Hacq;
    [discriminate|].
  unfold acquire_from in Hacq. rewrite Hph in Hacq.
  change (use_hugepages (alloc_ready e c)) with (cfg_use_hugepages c) in Hacq.
  rewrite Hh in Hacq. cbv zeta in Hacq.
  destruct (malloc_rounds e fuel fuel (alloc_ready e c)
              (to_size (cfg_wantbytes c)) []) as [a5 t5| |] eqn:Hrounds;
    try discriminate.
  injection Hacq as <- <-.
  assert (Hok : page_ok k (alloc_ready e c)).
  { unfold page_ok, alloc_ready, page_size_of. cbn. rewrite Hh, Hsys.
    rewrite to_size_small by lia. repeat split; lia. }
  destruct (malloc_rounds_last fuel k _ fuel _ _ _ _ Hok eq_refl Hrounds)
    as (a0 & t0 & Hok0 & Hb0 & Hon0 & Hrun).
  destruct (align_keeps a5) as (Kb & Kd & Kw & Kp & _).
  rewrite Kd in Hon. rewrite Kb, Kp in Hne. rewrite Kw in Hw.
  destruct (skip_subtracted_in_round e k fuel a0 _ t0 a5 t5 Hok0 ltac:(lia)
              ltac:(rewrite Hb0; unfold NULL; lia) (Hon0 Hon) Hrun Hne Hw)
    as (Hs & Hal & Hbs & (t1 & err & Ht) & Hal' & Hfinal).
  assert (Esk : skip (align a5) = skip a5) by (unfold skip; rewrite Kb, Kp; reflexivity).
  rewrite Esk, Kp, Kw, Hal'. split; [exact Hs|]. split; [|exact Hfinal].
  exists t1. rewrite Ht. repeat f_equal.
  destruct (alloc_using_malloc_done e _ _ _ _ _ _ (Hon0 Hon) Hrun)
    as (a1 & t1' & err' & _ & _ & Ht' & Ha').
  rewrite Ht' in Ht. apply app_inj_tail in Ht. destruct Ht as (_ & Hev).
  injection Hev as _ _ <-.
  destruct Ha' as [Ha' | Ha']; [|rewrite Ha' in Hon; discriminate].
  unfold alloc_using_malloc in Hrun.
  destruct (malloc_loop e fuel a0 t0) as [a1' t1''| |] eqn:Hloop; try discriminate.
  destruct (malloc_loop_fields e _ _ _ _ _ Hloop) as (Hd & _).
  cbn [do_mlock set_bufsize] in Hrun. rewrite Hd, (Hon0 Hon) in Hrun.
  cbv zeta in Hrun.
  destruct (mlock_ret e t1'' _ _) as [errno|] eqn:Hml.
  - destruct ((errno =? EAGAIN) || (errno =? ENOMEM)); [discriminate|].
    destruct (errno =? EPERM); [discriminate|].
    injection Hrun as <- _. cbn in Hon. discriminate.
  - injection Hrun as <- <-. apply app_inj_tail in Ht'.
    destruct Ht' as (_ & Hev'). injection Hev' as _ _ <-. reflexivity.
Qed.
End HeapLast.

(** ** The test loop of [main] *)

Section Loop.
Variable sizeof_ul : Z.
Hypothesis sizeof_ul_pos : 0 < sizeof_ul.
Variable e : env.

Lemma to_ul_small x : 0 <= x < 256 -> to_ul sizeof_ul x = x.
Proof.
  intros H. unfold to_ul. apply Z.mod_small.
  assert (2 ^ 8 <= 2 ^ (8 * sizeof_ul)) by (apply Z.pow_le_mono_r; lia).
  change (2 ^ 8) with 256 in *. lia.
Qed.

Lemma run_tests_cons name tbl i testmask a exit_code t :
  0 <= i < 31 ->
  run_tests sizeof_ul e (name :: tbl) i testmask a exit_code t =
  if picks testmask i then
    let r := test_ret e t i (bufa a) (bufb a) (count sizeof_ul a) in
    run_tests sizeof_ul e tbl (i + 1) testmask a
      (if r =? 0 then exit_code else Z.lor exit_code EXIT_FAIL_OTHERTEST)
      ((t ++ [EvTest i (bufa a) (bufb a) (count sizeof_ul a) r])
         ++ [EvMemset (buf a) (wantbytes a)])
  else run_tests sizeof_ul e tbl (i + 1) testmask a exit_code t.
Proof.
  intros Hi. cbn [run_tests]. rewrite mask_bit_clear by lia.
  rewrite to_ul_small by lia. unfold picks.
  destruct (testmask =? 0), (Z.testbit testmask i); reflexivity.
Qed.

Lemma run_tests_spec tbl : forall i testmask a exit_code t,
  0 <= i -> i + Z.of_nat (length tbl) <= 31 ->
  calls (snd (run_tests sizeof_ul e tbl i testmask a exit_code t))
    = calls t ++ map (test_call_at sizeof_ul a)
        (filter (picks testmask) (map Z.of_nat (seq (Z.to_nat i) (length tbl))))
  /\ (exit_code = flags t ->
      fst (run_tests sizeof_ul e tbl i testmask a exit_code t)
        = flags (snd (run_tests sizeof_ul e tbl i testmask a exit_code t))).
Proof.
  induction tbl as [|name tbl IH]; intros i testmask a exit_code t Hi Hlen.
  - cbn. rewrite app_nil_r. auto.
  - cbn [length] in Hlen. rewrite Nat2Z.inj_succ in Hlen.
    rewrite run_tests_cons by lia.
    cbn [length seq map filter]. rewrite Z2Nat.id by lia.
    replace (S (Z.to_nat i)) with (Z.to_nat (i + 1)) by lia.
    destruct (picks testmask i); [|apply IH; lia].
    cbv zeta.
    set (r := test_ret e t i (bufa a) (bufb a) (count sizeof_ul a)).
    set (t2 := (t ++ [EvTest i (bufa a) (bufb a) (count sizeof_ul a) r])
                 ++ [EvMemset (buf a) (wantbytes a)]).
    set (c2 := if r =? 0 then exit_code else Z.lor exit_code EXIT_FAIL_OTHERTEST).
    destruct (IH (i + 1) testmask a c2 t2 ltac:(lia) ltac:(lia)) as (IH1 & IH2).
    rewrite IH1. split.
    + unfold t2. rewrite !calls_app. cbn. rewrite <- !app_assoc. reflexivity.
    + intros Hc. apply IH2. unfold t2, c2.
      rewrite flags_snoc_quiet by reflexivity.
      destruct (r =? 0) eqn:Hr.
      * rewrite flags_snoc_quiet; [exact Hc | reflexivity | cbn; rewrite Hr; reflexivity].
      * rewrite flags_snoc_test; [rewrite Hc; reflexivity | reflexivity | cbn; rewrite Hr; reflexivity].
Qed.

Lemma tests_length narrow : Z.of_nat (length (tests narrow)) <= 31.
Proof. destruct narrow; cbn; lia. Qed.

Lemma run_pass_spec c a exit_code t :
  calls (snd (run_pass sizeof_ul e c a exit_code t))
    = calls t ++ pass_calls sizeof_ul c a
  /\ (exit_code = flags t ->
      fst (run_pass sizeof_ul e c a exit_code t)
        = flags (snd (run_pass sizeof_ul e c a exit_code t))).
Proof.
  unfold run_pass. cbv zeta.
  set (cnt := to_size (bufsize a) / sizeof_ul).
  set (r := stuck_ret e t (aligned a) cnt).
  set (c1 := if r =? 0 then exit_code else Z.lor exit_code EXIT_FAIL_ADDRESSLINES).
  destruct (run_tests_spec (tests (cfg_narrow c)) 0 (cfg_testmask c) a c1
              (t ++ [EvStuckAddress (aligned a) cnt r]) ltac:(lia)
              ltac:(pose proof (tests_length (cfg_narrow c)); lia)) as (H1 & H2).
  rewrite H1. split.
  - rewrite calls_app. cbn. rewrite <- app_assoc. reflexivity.
  - intros Hc. apply H2. unfold c1. destruct (r =? 0) eqn:Hr.
    + rewrite flags_snoc_quiet; [exact Hc | cbn; rewrite Hr; reflexivity | reflexivity].
    + rewrite flags_snoc_stuck; [rewrite Hc; reflexivity | cbn; rewrite Hr; reflexivity | reflexivity].
Qed.

Lemma run_loops_step fuel c a loop exit_code t :
  run_loops sizeof_ul e (S fuel) c a loop exit_code t =
  if (cfg_loops c =? 0) || (loop <=? cfg_loops c) then
    run_loops sizeof_ul e fuel c a (to_ul sizeof_ul (loop + 1))
      (fst (run_pass sizeof_ul e c a exit_code t))
      (snd (run_pass sizeof_ul e c a exit_code t))
  else Done exit_code t.
Proof.
  cbn [run_loops]. destruct (run_pass sizeof_ul e c a exit_code t). reflexivity.
Qed.

Lemma repeat_snoc_concat (A : Type) (x : list A) n l :
  (l ++ x) ++ concat (repeat x n) = l ++ concat (repeat x (S n)).
Proof. cbn. rewrite app_assoc. reflexivity. Qed.

(** Whatever the fuel and the loop counter, the calls made are whole
    passes, and the exit code follows the flags of the trace. *)
Lemma run_loops_passes fuel c a : forall loop exit_code t,
  exists n, (n <= fuel)%nat /\
    calls (trace_of (run_loops sizeof_ul e fuel c a loop exit_code t))
      = calls t ++ concat (repeat (pass_calls sizeof_ul c a) n) /\
    (exit_code = flags t ->
     match run_loops sizeof_ul e fuel c a loop exit_code t with
     | Done exit_code' t' => exit_code' = flags t'
     | _ => True
     end).
Proof.
  induction fuel as [|fuel IH]; intros loop exit_code t.
  - exists O. cbn [run_loops].
    destruct ((cfg_loops c =? 0) || (loop <=? cfg_loops c));
      cbn; rewrite app_nil_r; repeat split; auto.
  - rewrite run_loops_step.
    destruct ((cfg_loops c =? 0) || (loop <=? cfg_loops c)).
    + destruct (run_pass_spec c a exit_code t) as (P1 & P2).
      destruct (IH (to_ul sizeof_ul (loop + 1))
                   (fst (run_pass sizeof_ul e c a exit_code t))
                   (snd (run_pass sizeof_ul e c a exit_code t)))
        as (n & Hn & H1 & H2).
      exists (S n). split; [lia|]. split.
      * rewrite H1, P1. apply repeat_snoc_concat.
      * intros Hc. apply H2. apply P2. exact Hc.
    + exists O. cbn. rewrite app_nil_r. repeat split; auto. lia.
Qed.

(** A loop count [N] between 1 and [ULONG_MAX - 1]: if the loop ends, it
    has made the passes from [loop] to [N]. *)
Lemma run_loops_done_count fuel c a : forall loop exit_code t exit_code' t',
  run_loops sizeof_ul e fuel c a loop exit_code t = Done exit_code' t' ->
  1 <= loop <= cfg_loops c + 1 ->
  0 < cfg_loops c < 2 ^ (8 * sizeof_ul) - 1 ->
  calls t' = calls t ++ concat (repeat (pass_calls sizeof_ul c a)
                                       (Z.to_nat (cfg_loops c + 1 - loop))).
Proof.
  induction fuel as [|fuel IH]; intros loop exit_code t exit_code' t' H Hl HN.
  - cbn in H. destruct (cfg_loops c =? 0) eqn:H0; [discriminate|].
    destruct (loop <=? cfg_loops c) eqn:Hc; [discriminate|].
    injection H as <- <-. apply Z.leb_gt in Hc.
    replace (cfg_loops c + 1 - loop) with 0 by lia. cbn. rewrite app_nil_r.
    reflexivity.
  - rewrite run_loops_step in H.
    destruct (cfg_loops c =? 0) eqn:H0.
    + apply Z.eqb_eq in H0. lia.
    + cbn [orb] in H. destruct (loop <=? cfg_loops c) eqn:Hc.
      * apply Z.leb_le in Hc.
        assert (Hu : to_ul sizeof_ul (loop + 1) = loop + 1)
          by (unfold to_ul; apply Z.mod_small; lia).
        rewrite Hu in H. apply IH in H; [|lia|exact HN].
        destruct (run_pass_spec c a exit_code t) as (P1 & _).
        rewrite H, P1.
        replace (Z.to_nat (cfg_loops c + 1 - loop))
          with (S (Z.to_nat (cfg_loops c + 1 - (loop + 1)))) by lia.
        apply repeat_snoc_concat.
      * injection H as <- <-. apply Z.leb_gt in Hc.
        replace (cfg_loops c + 1 - loop) with 0 by lia. cbn.
        rewrite app_nil_r. reflexivity.
Qed.

Lemma run_loops_terminates c a : forall fuel loop exit_code t,
  0 < cfg_loops c < 2 ^ (8 * sizeof_ul) - 1 ->
  1 <= loop <= cfg_loops c + 1 ->
  (Z.to_nat (cfg_loops c + 1 - loop) <= fuel)%nat ->
  exists exit_code' t',
    run_loops sizeof_ul e fuel c a loop exit_code t = Done exit_code' t'.
Proof.
  induction fuel as [|fuel IH]; intros loop exit_code t HN Hl Hf.
  - cbn. assert (loop = cfg_loops c + 1) as -> by lia.
    destruct (Z.eqb_spec (cfg_loops c) 0); [lia|].
    destruct (Z.leb_spec (cfg_loops c + 1) (cfg_loops c)); [lia|].
    cbn. eauto.
  - rewrite run_loops_step.
    destruct (Z.eqb_spec (cfg_loops c) 0); [lia|]. cbn [orb].
    destruct (Z.leb_spec loop (cfg_loops c)); [|eauto].
    assert (Hu : to_ul sizeof_ul (loop + 1) = loop + 1)
      by (unfold to_ul; apply Z.mod_small; lia).
    rewrite Hu. apply IH; [exact HN | lia | lia].
Qed.

(** A loop condition that holds at every value of the counter: the loop is
    still running when the fuel is spent, one pass per unit of fuel. *)
Lemma run_loops_forever c a :
  (forall loop, 0 <= loop < 2 ^ (8 * sizeof_ul) ->
     (cfg_loops c =? 0) || (loop <=? cfg_loops c) = true) ->
  forall fuel loop exit_code t,
  0 <= loop < 2 ^ (8 * sizeof_ul) ->
  exists t',
    run_loops sizeof_ul e fuel c a loop exit_code t = OutOfFuel t' /\
    calls t' = calls t ++ concat (repeat (pass_calls sizeof_ul c a) fuel).
Proof.
  intros Hcond. induction fuel as [|fuel IH]; intros loop exit_code t Hl.
  - cbn [run_loops]. rewrite Hcond by exact Hl. exists t. cbn.
    rewrite app_nil_r. auto.
  - rewrite run_loops_step. rewrite Hcond by exact Hl.
    destruct (IH (to_ul sizeof_ul (loop + 1))
                 (fst (run_pass sizeof_ul e c a exit_code t))
                 (snd (run_pass sizeof_ul e c a exit_code t)))
      as (t' & H1 & H2).
    { unfold to_ul. apply Z.mod_pos_bound. apply Z.pow_pos_nonneg; lia. }
    exists t'. split; [exact H1|].
    destruct (run_pass_spec c a exit_code t) as (P1 & _).
    rewrite H2, P1. apply repeat_snoc_concat.
Qed.

Lemma length_concat_repeat (A : Type) (x : list A) n :
  length (concat (repeat x n)) = (n * length x)%nat.
Proof.
  induction n as [|n IH]; [reflexivity|].
  cbn [repeat concat]. rewrite length_app, IH. lia.
Qed.

Lemma run_loops_no_exit fuel c a : forall loop exit_code t code t',
  run_loops sizeof_ul e fuel c a loop exit_code t <> Exit code t'.
Proof.
  induction fuel as [|fuel IH]; intros loop exit_code t code t'.
  - cbn. destruct ((cfg_loops c =? 0) || (loop <=? cfg_loops c)); discriminate.
  - rewrite run_loops_step.
    destruct ((cfg_loops c =? 0) || (loop <=? cfg_loops c)); [apply IH | discriminate].
Qed.

Lemma selected_In m n i :
  In i (selected m n) <->
  0 <= i < Z.of_nat n /\ (m = 0 \/ Z.testbit m i = true).
Proof.
  unfold selected, picks. rewrite filter_In, in_map_iff, orb_true_iff, Z.eqb_eq.
  split.
  - intros ((j & <- & Hj) & Hp). apply in_seq in Hj. split; [lia | exact Hp].
  - intros (Hi & Hp). split; [|exact Hp]. exists (Z.to_nat i).
    split; [lia|]. apply in_seq. lia.
Qed.

Lemma selected_all n : selected 0 n = map Z.of_nat (seq 0 n).
Proof.
  unfold selected. apply forallb_filter_id. apply forallb_forall. reflexivity.
Qed.

(** C6.  One pass calls the stuck-address test and then, in table order,
    the pattern tests that the mask selects, each on
    [(bufa, bufb, count)]; every run of the loop is made of such passes.
    An entry is selected when the mask is 0 or has the bit of its ordinal
    set; the mask 0 selects the whole table and the mask [0x3] selects
    entries 0 and 1 only. *)
Theorem selected_tests_run : forall c a,
  (forall exit_code t,
     calls (snd (run_pass sizeof_ul e c a exit_code t))
       = calls t ++
         CallStuck (aligned a) (to_size (bufsize a) / sizeof_ul)
         :: map (fun i => CallTest i (bufa a) (bufb a) (count sizeof_ul a))
                (selected (cfg_testmask c) (length (tests (cfg_narrow c))))) /\
  (forall fuel loop exit_code t, exists n,
     calls (trace_of (run_loops sizeof_ul e fuel c a loop exit_code t))
       = calls t ++ concat (repeat (pass_calls sizeof_ul c a) n)) /\
  (forall i,
     In i (selected (cfg_testmask c) (length (tests (cfg_narrow c)))) <->
     0 <= i < Z.of_nat (length (tests (cfg_narrow c))) /\
     (cfg_testmask c = 0 \/ Z.testbit (cfg_testmask c) i = true)) /\
  (cfg_testmask c = 0 ->
     selected (cfg_testmask c) (length (tests (cfg_narrow c)))
       = map Z.of_nat (seq 0 (length (tests (cfg_narrow c))))) /\
  (cfg_testmask c = 0x3 ->
     selected (cfg_testmask c) (length (tests (cfg_narrow c))) = [0; 1]).
Proof.
  intros c a. split; [|split; [|split; [|split]]].
  - intros exit_code t.
    destruct (run_pass_spec c a exit_code t) as (H & _).
    exact H.
  - intros fuel loop exit_code t.
    destruct (run_loops_passes fuel c a loop exit_code t)
      as (n & _ & H & _).
    exists n. exact H.
  - intros i. apply selected_In.
  - intros ->. apply selected_all.
  - intros ->. destruct (cfg_narrow c); reflexivity.
Qed.

(** C5.  When [main] exits, its status is the OR of [0x01] if it ended
    before the allocation was complete, [0x02] if some stuck-address test
    of the run failed and [0x04] if some pattern test of the run failed.
    A non-starter has run no test.  Otherwise the tests that ran are whole
    passes, whatever their results were, as many as the loop count asks
    for; and with enough fuel for these passes [main] does exit. *)
Theorem exit_status_is_or_of_flags : forall fuel c,
  (forall code t,
     main sizeof_ul e fuel c = Exit code t ->
     let nonstarter :=
       match acquire e fuel c with Exit _ _ => true | _ => false end in
     code = Z.lor (if nonstarter then EXIT_FAIL_NONSTARTER else 0) (flags t) /\
     (nonstarter = true -> calls t = []) /\
     (nonstarter = false ->
      exists a t0 n,
        acquire e fuel c = Done a t0 /\
        calls t = concat (repeat (pass_calls sizeof_ul c a) n) /\
        (0 < cfg_loops c < 2 ^ (8 * sizeof_ul) - 1 ->
         n = Z.to_nat (cfg_loops c)))) /\
  (forall a t0,
     acquire e fuel c = Done a t0 ->
     0 < cfg_loops c < 2 ^ (8 * sizeof_ul) - 1 ->
     (Z.to_nat (cfg_loops c) <= fuel)%nat ->
     exists code t, main sizeof_ul e fuel c = Exit code t).
Proof.
  intros fuel c. pose proof (acquire_quiet e fuel c) as (Hq & Hx).
  unfold main. split.
  - intros code t H.
    destruct (acquire e fuel c) as [a t0|code0 t0|t0]; cbn [trace_of] in Hq;
      [| |discriminate].
    + cbv zeta.
      change (calls []) with (@nil test_call) in Hq.
      destruct (run_loops_passes fuel c a 1 0 t0)
        as (n & _ & H1 & H2).
      specialize (H2 (eq_sym (flags_no_calls t0 Hq))).
      destruct (run_loops sizeof_ul e fuel c a 1 0 t0) as [code1 t1|code1 t1|]
        eqn:Hrun; [|exfalso; exact (run_loops_no_exit _ _ _ _ _ _ _ _ Hrun)
                   |discriminate].
      cbn [trace_of] in H1. rewrite Hq in H1. cbn [app] in H1.
      injection H as <- <-.
      assert (Hf : flags (if do_mlock a
                          then t1 ++ [EvMunlock (aligned a) (to_size (bufsize a))]
                          else t1) = flags t1).
      { destruct (do_mlock a); [apply flags_snoc_quiet|]; reflexivity. }
      assert (Hc : calls (if do_mlock a
                          then t1 ++ [EvMunlock (aligned a) (to_size (bufsize a))]
                          else t1) = calls t1).
      { destruct (do_mlock a); [apply calls_snoc_quiet|]; reflexivity. }
      rewrite Hf, Hc. split; [rewrite H2; reflexivity|].
      split; [discriminate|]. intros _. exists a, t0, n.
      split; [reflexivity|]. split; [exact H1|]. intros HN.
      pose proof (run_loops_done_count fuel c a 1 0 t0
                    code1 t1 Hrun ltac:(lia) HN) as Hd.
      rewrite Hq, H1 in Hd. cbn [app] in Hd.
      replace (cfg_loops c + 1 - 1) with (cfg_loops c) in Hd by lia.
      apply (f_equal (@length _)) in Hd.
      rewrite !length_concat_repeat in Hd.
      unfold pass_calls in Hd. cbn [length] in Hd. nia.
    + injection H as <- <-. cbv zeta.
      rewrite (Hx code0 t0 eq_refl). rewrite (flags_no_calls t0 Hq).
      split; [reflexivity|]. split; [intros _; exact Hq | discriminate].
  - intros a t0 -> HN Hf.
    destruct (run_loops_terminates c a fuel 1 0 t0 HN ltac:(lia)
                ltac:(lia)) as (code1 & t1 & ->).
    eauto.
Qed.

(** With the loop count 0 the loop is still running after any number of
    passes. *)
Lemma loop_count_zero_runs_forever fuel c a t0 :
  cfg_loops c = 0 ->
  acquire e fuel c = Done a t0 ->
  exists t, main sizeof_ul e fuel c = OutOfFuel t /\
            calls t = concat (repeat (pass_calls sizeof_ul c a) fuel).
Proof.
  intros H0 Hacq. pose proof (acquire_quiet e fuel c) as (Hq & _).
  unfold main. rewrite Hacq in *. cbn [trace_of] in Hq.
  destruct (run_loops_forever c a
              ltac:(intros; rewrite H0; reflexivity) fuel 1 0 t0)
    as (t' & -> & H2).
  { split; [lia|]. apply Z.pow_gt_1; lia. }
  exists t'. split; [reflexivity|]. rewrite H2, Hq. reflexivity.
Qed.

(** A loop count [N] with [0 < N < ULONG_MAX]: [main] makes [N] passes and
    exits. *)
Lemma loop_count_passes_exactly fuel c a t0 :
  acquire e fuel c = Done a t0 ->
  0 < cfg_loops c < 2 ^ (8 * sizeof_ul) - 1 ->
  (Z.to_nat (cfg_loops c) <= fuel)%nat ->
  exists code t,
    main sizeof_ul e fuel c = Exit code t /\
    calls t = concat (repeat (pass_calls sizeof_ul c a)
                             (Z.to_nat (cfg_loops c))).
Proof.
  intros Hacq HN Hf. pose proof (acquire_quiet e fuel c) as (Hq & _).
  unfold main. rewrite Hacq in *. cbn [trace_of] in Hq.
  destruct (run_loops_terminates c a fuel 1 0 t0 HN ltac:(lia) ltac:(lia))
    as (code1 & t1 & Hrun).
  pose proof (run_loops_done_count fuel c a 1 0 t0 code1 t1 Hrun ltac:(lia) HN)
    as Hd.
  rewrite Hrun. eexists. eexists. split; [reflexivity|].
  replace (cfg_loops c + 1 - 1) with (cfg_loops c) in Hd by lia.
  rewrite Hq in Hd. cbn [app calls flat_map] in Hd.
  destruct (do_mlock a); [rewrite calls_snoc_quiet by reflexivity|]; exact Hd.
Qed.

(** C7, at the loop count [ULONG_MAX].  The counter wraps from
    [ULONG_MAX] to 0 and [loop <= loops] never fails: after any number of
    passes, also more than [ULONG_MAX], the loop is still running. *)
Theorem loop_count_ulong_max_never_ends : forall fuel c a t0,
  cfg_loops c = 2 ^ (8 * sizeof_ul) - 1 ->
  acquire e fuel c = Done a t0 ->
  exists t, main sizeof_ul e fuel c = OutOfFuel t /\
            calls t = concat (repeat (pass_calls sizeof_ul c a) fuel).
Proof.
  intros fuel c a t0 HN Hacq. pose proof (acquire_quiet e fuel c) as (Hq & _).
  unfold main. rewrite Hacq in *. cbn [trace_of] in Hq.
  destruct (run_loops_forever c a
              ltac:(intros l Hl; rewrite HN; apply orb_true_iff; right;
                    apply Z.leb_le; lia) fuel 1 0 t0)
    as (t' & -> & H2).
  { split; [lia|]. apply Z.pow_gt_1; lia. }
  exists t'. split; [reflexivity|]. rewrite H2, Hq. reflexivity.
Qed.
End Loop.


(** ** The physical-device path *)

Section Phys.
Variable sizeof_ul : Z.
Variable e : env.

Lemma hugepages_loop_has_buf fuel free a t :
  buf a <> NULL -> hugepages_loop e fuel free a t = Done a t.
Proof.
  intros H. apply Z.eqb_neq in H.
  destruct fuel; cbn [hugepages_loop]; rewrite H; reflexivity.
Qed.

Lemma alloc_using_hugepages_has_buf fuel a t :
  buf a <> NULL ->
  exists a', alloc_using_hugepages e fuel a t = Done a' t /\
             buf a' = buf a /\ do_mlock a' = do_mlock a.
Proof.
  intros H. unfold alloc_using_hugepages.
  destruct (negb (wantbytes a mod pagesize a =? 0));
    rewrite hugepages_loop_has_buf by exact H; eauto.
Qed.

Lemma phys_map_spec base a t :
  let fd := to_int (open_ret e t) in
  let t1 := t ++ [EvOpen fd] in
  let r := to_size (mmap_phys_ret e t1 (wantbytes a) base) in
  let t2 := t1 ++ [EvMmapPhys (wantbytes a) base r] in
  let err := mlock_ret e t2 r (wantbytes a) in
  phys_map e base a t =
  if fd =? -1 then Exit EXIT_FAIL_NONSTARTER t1
  else if r =? MAP_FAILED then Exit EXIT_FAIL_NONSTARTER t2
  else Done (mk_alloc r r (wantbytes a) (to_int (wantbytes a))
               (match err with None => do_mlock a | Some _ => false end)
               (use_hugepages a) (pagesize a) (pagesizemask a))
            (t2 ++ [EvMlock r (wantbytes a) err]).
Proof.
  cbv zeta. unfold phys_map. cbv zeta.
  destruct (to_int (open_ret e t) =? -1); [reflexivity|].
  cbn [buf set_buf wantbytes].
  destruct (_ =? MAP_FAILED); [reflexivity|].
  destruct (mlock_ret e _ _ _); reflexivity.
Qed.

(** C8.  With [-p], a page size and a request of at least one page: the
    device is opened and [physaddrbase] is mapped once, at the requested
    size.  A failed [open] or [mmap] ends the program with the non-starter
    status and nothing else is tried.  Otherwise the mapping is the
    buffer, whatever [mlock] answers; a failed [mlock] only clears
    [do_mlock]. *)
Theorem physical_mapping_is_exact : forall fuel c,
  cfg_use_phys c = true ->
  to_size (sysconf_pagesize e) <> to_size (-1) ->
  page_size_of e c <= to_size (cfg_wantbytes c) ->
  let size := to_size (cfg_wantbytes c) in
  let base := cfg_physaddrbase c in
  let fd := to_int (open_ret e []) in
  let r := to_size (mmap_phys_ret e [EvOpen fd] size base) in
  let err := mlock_ret e [EvOpen fd; EvMmapPhys size base r] r size in
  (fd = -1 ->
     main sizeof_ul e fuel c = Exit EXIT_FAIL_NONSTARTER [EvOpen fd]) /\
  (fd <> -1 -> r = MAP_FAILED ->
     main sizeof_ul e fuel c
       = Exit EXIT_FAIL_NONSTARTER [EvOpen fd; EvMmapPhys size base r]) /\
  (fd <> -1 -> r <> MAP_FAILED ->
     (cfg_use_hugepages c = true -> r <> NULL) ->
     exists a,
       acquire e fuel c
         = Done a [EvOpen fd; EvMmapPhys size base r; EvMlock r size err] /\
       buf a = r /\
       do_mlock a = match err with None => true | Some _ => false end).
Proof.
  intros fuel c Hphys Hs Hp size base fd r err.
  assert (Hacq : acquire e fuel c = acquire_from e fuel c (alloc_ready e c) [])
    by (apply acquire_ready; assumption).
  unfold main. rewrite Hacq. unfold acquire_from. rewrite Hphys.
  rewrite phys_map_spec.
  cbn [wantbytes buf alloc_ready app do_mlock use_hugepages pagesize pagesizemask].
  fold size base fd. fold r. fold err.
  split; [|split].
  - intros Hfd. apply Z.eqb_eq in Hfd. rewrite Hfd. reflexivity.
  - intros Hfd Hr. apply Z.eqb_neq in Hfd. apply Z.eqb_eq in Hr.
    rewrite Hfd, Hr. reflexivity.
  - intros Hfd Hr Hnull. apply Z.eqb_neq in Hfd. apply Z.eqb_neq in Hr.
    rewrite Hfd, Hr. cbn [use_hugepages].
    set (a4 := mk_alloc r r size (to_int size) _ _ _ _).
    destruct (cfg_use_hugepages c) eqn:Hh.
    + destruct (alloc_using_hugepages_has_buf fuel a4
                  [EvOpen fd; EvMmapPhys size base r; EvMlock r size err]
                  (Hnull eq_refl)) as (a5 & -> & Hb & Hd).
      exists (align a5). split; [reflexivity|].
      destruct (align_keeps a5) as (-> & -> & _). rewrite Hb, Hd.
      subst a4. cbn. destruct err; auto.
    + exists (align a4). split; [reflexivity|].
      destruct (align_keeps a4) as (-> & -> & _).
      subst a4. cbn. destruct err; auto.
Qed.
End Phys.


(** ** The split of the region *)


(** ** The heap path: a bound on the region *)

Section HeapBound.
Variable e : env.
Variable k : Z.
Variable pages : Z.

Hypothesis k_range : 0 <= k <= 30.
Hypothesis pages_pos : 1 <= pages.
Hypothesis request_fits_int : pages * 2 ^ k < 2 ^ 31.

(** [mlock] of an empty range succeeds. *)
Hypothesis mlock_empty : forall t addr, mlock_ret e t addr 0 = None.

Local Abbreviation p := (2 ^ k).

Lemma p_bounds : 0 < p <= 2 ^ 30.
Proof.
  split; [apply Z.pow_pos_nonneg; lia | apply Z.pow_le_mono_r; lia].
Qed.

Local Abbreviation round_start := (round_start k pages).

Lemma malloc_loop_has_buf fuel a t :
  buf a <> NULL -> malloc_loop e fuel a t = Done a t.
Proof.
  intros H. apply Z.eqb_neq in H.
  destruct fuel; cbn [malloc_loop]; rewrite H; reflexivity.
Qed.

Lemma malloc_loop_no_request fuel a t :
  wantbytes a = 0 -> malloc_loop e fuel a t = Done a t.
Proof.
  intros H. destruct fuel; cbn [malloc_loop]; rewrite H; cbn;
    rewrite andb_false_r; reflexivity.
Qed.

Lemma malloc_loop_pages fuel : forall j a t,
  round_start j a -> (Z.to_nat j <= fuel)%nat ->
  exists a1 t1 j1,
    malloc_loop e fuel a t = Done a1 t1 /\
    0 <= j1 <= j /\ wantbytes a1 = j1 * p /\
    (buf a1 = NULL -> j1 = 0) /\ (buf a1 <> NULL -> 1 <= j1) /\
    0 <= buf a1 < 2 ^ 64 /\
    (buf a1 <> NULL ->
     exists t0, t1 = t0 ++ [EvMalloc (wantbytes a1) (buf a1)]) /\
    ((forall t' s, to_size (malloc_ret e t' s) = NULL) -> buf a1 = NULL).
Proof.
  pose proof p_bounds as Hp.
  induction fuel as [|fuel IH]; intros j a t (Hok & Hb & Hw & Hj) Hf.
  - assert (j = 0) as -> by lia. exists a, t, 0.
    rewrite malloc_loop_no_request by lia. rewrite Hb. unfold NULL.
    repeat split; try lia; try contradiction; auto.
  - destruct (Z.eq_dec j 0) as [-> | Hj0].
    + exists a, t, 0. rewrite malloc_loop_no_request by lia. rewrite Hb.
      unfold NULL. repeat split; try lia; try contradiction; auto.
    + cbn [malloc_loop]. rewrite Hb, Hw.
      assert (Hnz : (j * p =? 0) = false) by (apply Z.eqb_neq; nia).
      rewrite Hnz. cbn [Z.eqb NULL andb negb].
      set (r := to_size (malloc_ret e t (j * p))).
      pose proof (to_size_range (malloc_ret e t (j * p))) as Hr. fold r in Hr.
      cbn [buf set_buf]. destruct (Z.eqb_spec r NULL) as [E | NE].
      * destruct (IH (j - 1)
                    (set_wantbytes (to_size (wantbytes (set_buf r a)
                                             - pagesize (set_buf r a)))
                       (set_buf r a))
                    (t ++ [EvMalloc (j * p) r]))
          as (a1 & t1 & j1 & H1 & H2 & H3 & H4 & H5 & H6 & H7 & H8).
        { destruct Hok as (Hk & Hps & Hm).
          assert (Hsub : to_size (j * p - p) = (j - 1) * p).
          { replace (j * p - p) with ((j - 1) * p) by lia.
            apply to_size_small. nia. }
          unfold round_start, page_ok. cbn.
          rewrite Hw, Hps. fold p. rewrite E, Hsub.
          repeat split; auto; lia. }
        { lia. }
        exists a1, t1, j1. split; [exact H1|].
        split; [lia|]. auto 10.
      * rewrite malloc_loop_has_buf by (cbn; exact NE).
        exists (set_buf r a), (t ++ [EvMalloc (j * p) r]), j.
        split; [reflexivity|]. cbn [buf wantbytes set_buf]. rewrite Hw.
        split; [lia|]. split; [reflexivity|]. split; [intros; contradiction|].
        split; [intros; lia|]. split; [exact Hr|]. split.
        -- intros _. exists t. reflexivity.
        -- intros Hno. exfalso. apply NE. apply Hno.
Qed.

Lemma align_summary a :
  page_ok k a -> 0 <= buf a < 2 ^ 64 -> - 2 ^ 30 <= bufsize a < 2 ^ 31 ->
  bufsize a - p < bufsize (align a) <= bufsize a /\
  (buf a mod pagesize a = 0 ->
   bufsize (align a) = bufsize a /\ aligned (align a) = buf a) /\
  (buf a mod pagesize a <> 0 -> bufsize (align a) = bufsize a - skip a).
Proof.
  intros Hok Hb Hs. pose proof p_bounds as Hp.
  destruct (Z.eq_dec (buf a mod pagesize a) 0) as [E | NE].
  - rewrite align_aligned by exact E. cbn.
    split; [lia|]. split; [auto | intros C; contradiction].
  - destruct (align_unaligned k a Hok Hb NE) as (-> & _).
    pose proof (skip_bounds k a Hok NE) as Hsk.
    destruct Hok as (_ & Hps & _). rewrite Hps in Hsk. fold p in Hsk.
    cbn [bufsize set_bufsize]. rewrite to_int_small by lia.
    split; [lia|]. split; [contradiction | reflexivity].
Qed.

Lemma page_ok_same a a' :
  pagesize a' = pagesize a -> pagesizemask a' = pagesizemask a ->
  page_ok k a -> page_ok k a'.
Proof. intros E1 E2 (H1 & H2 & H3). unfold page_ok. rewrite E1, E2. auto. Qed.

(** A round either ends the caller's loop with a settled region, or hands
    back a smaller request with pinning still on, or the original request
    with pinning off. *)
Lemma round_outcome fuel j a t :
  round_start j a -> (Z.to_nat pages <= fuel)%nat ->
  exists d a' t',
    alloc_using_malloc e fuel a (pages * p) t = Done (d, a') t' /\
    (do_mlock a = false -> d = 1) /\
    ((forall t0 s, to_size (malloc_ret e t0 s) = NULL) -> buf a' = NULL) /\
    ((d = 1 /\ settled k pages a' t') \/
     (d = 0 /\ exists j', round_start j' a' /\
        ((do_mlock a' = true /\ j' < j) \/ do_mlock a' = false))).
Proof.
  intros Hst Hf. pose proof p_bounds as Hp.
  destruct (malloc_loop_pages fuel j a t Hst ltac:(destruct Hst as (_&_&_&?); lia))
    as (a1 & t1 & j1 & Hloop & Hj1 & Hw1 & Hnull & Hnn & Hb1 & Htr & Hnomem).
  destruct Hst as (Hok & Hb & Hw & Hj).
  destruct (malloc_loop_fields e fuel a t a1 t1 Hloop)
    as (Hd & Hps & Hpm & _ & _ & _ & _).
  assert (Hok1 : page_ok k a1) by (apply (page_ok_same a); assumption).
  assert (Hint : to_int (wantbytes a1) = j1 * p).
  { rewrite Hw1. apply to_int_small. fold p in request_fits_int. nia. }
  set (a2 := set_bufsize (to_int (wantbytes a1)) a1).
  assert (Hok2 : page_ok k a2) by (apply (page_ok_same a1); auto).
  unfold alloc_using_malloc. rewrite Hloop. fold a2.
  change (do_mlock a2) with (do_mlock a1). rewrite Hd.
  destruct (do_mlock a) eqn:Hlock.
  2:{ exists 1, a2, t1. split; [reflexivity|]. split; [reflexivity|].
      split; [exact Hnomem|]. left. split; [reflexivity|].
      unfold settled. split; [exact Hok2|]. split; [exact Hb1|].
      exists j1. cbn [a2 buf wantbytes bufsize set_bufsize]. rewrite Hint.
      split; [exact Hw1|]. split; [lia|]. split; [exact Hnull|]. split.
      - intros NE. split; [exact (Hnn NE)|].
        destruct (Htr NE) as (t0 & ->). exists t0, []. auto.
      - left. reflexivity. }
  cbv zeta.
  assert (Hb2 : 0 <= buf a2 < 2 ^ 64) by exact Hb1.
  assert (Hs2 : - 2 ^ 30 <= bufsize a2 < 2 ^ 31).
  { cbn. rewrite Hint. fold p in request_fits_int. nia. }
  destruct (align_summary a2 Hok2 Hb2 Hs2) as (Hbs & Hal & Hun).
  destruct (align_keeps a2) as (Kb & Kd & Kw & Kp & Km & _).
  cbn [a2 buf wantbytes pagesize pagesizemask do_mlock set_bufsize bufsize]
    in Kb, Kd, Kw, Kp, Km, Hbs, Hun.
  fold a2 in Kb, Kd, Kw, Kp, Km, Hbs, Hun. rewrite Hint in Hbs, Hun.
  set (a3 := align a2) in *.
  assert (Hok3 : page_ok k a3) by (apply (page_ok_same a1); auto).
  assert (Hsettled3 : forall a' err,
            pagesize a' = pagesize a3 -> pagesizemask a' = pagesizemask a3 ->
            buf a' = buf a3 -> wantbytes a' = wantbytes a3 ->
            bufsize a' = bufsize a3 ->
            settled k pages a'
              (t1 ++ [EvMlock (aligned a3) (to_size (bufsize a3)) err])).
  { intros a' err E1 E2 E3 E4 E5. unfold settled.
    split; [apply (page_ok_same a3); auto|].
    rewrite E3, E4, E5, Kb. split; [exact Hb1|]. exists j1. rewrite Kw.
    split; [exact Hw1|]. split; [lia|]. split; [exact Hnull|]. split.
    - intros NE. split; [exact (Hnn NE)|].
      destruct (Htr NE) as (t0 & ->). exists t0, [EvMlock (aligned a3) (to_size (bufsize a3)) err].
      rewrite <- app_assoc. split; [reflexivity|]. right. eauto.
    - destruct (Z.eq_dec (buf a1 mod p) 0) as [Hmod | Hmod].
      + left.
        assert (E0 : buf a2 mod pagesize a2 = 0).
        { destruct Hok2 as (_ & -> & _). exact Hmod. }
        destruct (Hal E0) as (-> & _). cbn. exact Hint.
      + right. split; [exact Hmod|].
        assert (E0 : buf a2 mod pagesize a2 <> 0).
        { destruct Hok2 as (_ & -> & _). exact Hmod. }
        rewrite (Hun E0).
        unfold skip. cbn [a2 buf pagesize set_bufsize]. rewrite E3, E1, Kb, Kp.
        reflexivity. }
  assert (Hnomem3 : (forall t0 s, to_size (malloc_ret e t0 s) = NULL) ->
                    buf a3 = NULL) by (rewrite Kb; exact Hnomem).
  destruct (mlock_ret e t1 (aligned a3) (to_size (bufsize a3))) as [errno|] eqn:Hml.
  - assert (Hnn1 : 1 <= j1).
    { apply Hnn. intros E. specialize (Hnull E). subst j1.
      assert (E0 : buf a2 mod pagesize a2 = 0) by (cbn; rewrite E; reflexivity).
      destruct (Hal E0) as (Hbz & Haz). fold a3 in Hbz, Haz.
      rewrite Hbz in Hml. cbn [a2 bufsize set_bufsize] in Hml.
      rewrite Hint in Hml. cbn in Hml. rewrite mlock_empty in Hml. discriminate. }
    assert (Hsub : to_size (j1 * p - p) = (j1 - 1) * p).
    { replace (j1 * p - p) with ((j1 - 1) * p) by lia.
      apply to_size_small. fold p in request_fits_int. nia. }
    destruct ((errno =? EAGAIN) || (errno =? ENOMEM)).
    { eexists 0, _, _. split; [reflexivity|]. split; [discriminate|].
      split; [reflexivity|]. right.
      split; [reflexivity|]. exists (j1 - 1). split.
      - unfold round_start.
        split; [apply (page_ok_same a3); auto|].
        cbn. rewrite Kw, Kp, Hw1, Hps. destruct Hok as (_ & -> & _). fold p.
        rewrite Hsub. repeat split; lia.
      - left. cbn. rewrite Kd, Hd. split; [reflexivity | lia]. }
    destruct (errno =? EPERM).
    { eexists 0, _, _. split; [reflexivity|]. split; [discriminate|].
      split; [reflexivity|]. right.
      split; [reflexivity|]. exists pages. split.
      - unfold round_start.
        split; [apply (page_ok_same a3); auto|].
        cbn. fold p. repeat split; lia.
      - right. reflexivity. }
    exists 1, (set_do_mlock false a3), (t1 ++ [EvMlock (aligned a3) (to_size (bufsize a3)) (Some errno)]).
    split; [reflexivity|]. split; [reflexivity|]. split; [exact Hnomem3|]. left.
    split; [reflexivity|]. apply Hsettled3; reflexivity.
  - exists 1, a3, (t1 ++ [EvMlock (aligned a3) (to_size (bufsize a3)) None]).
    split; [reflexivity|]. split; [reflexivity|]. split; [exact Hnomem3|].
    left. split; [reflexivity|].
    apply Hsettled3; reflexivity.
Qed.

Lemma malloc_rounds_settle fuel : forall rounds j a t,
  round_start j a -> (Z.to_nat pages <= fuel)%nat ->
  ((if do_mlock a then Z.to_nat j + 2 else 1) <= rounds)%nat ->
  exists a' t',
    malloc_rounds e fuel rounds a (pages * p) t = Done a' t' /\
    settled k pages a' t' /\
    ((forall t0 s, to_size (malloc_ret e t0 s) = NULL) -> buf a' = NULL).
Proof.
  induction rounds as [|rounds IH]; intros j a t Hst Hf Hr.
  - destruct (do_mlock a); lia.
  - cbn [malloc_rounds].
    destruct (round_outcome fuel j a t Hst Hf)
      as (d & a' & t' & -> & Hun & Hno & [(-> & Hs) | (-> & j' & Hst' & Hcase)]).
    + exists a', t'. split; [reflexivity | auto].
    + cbn [Z.eqb]. destruct (do_mlock a) eqn:Hlock.
      * apply (IH j'); [exact Hst' | exact Hf |].
        destruct Hst as (_ & _ & _ & Hj). destruct Hst' as (_ & _ & _ & Hj').
        destruct Hcase as [(-> & Hlt) | ->]; lia.
      * specialize (Hun eq_refl). discriminate.
Qed.

Lemma settled_bound a t :
  settled k pages a t ->
  bufsize (align a) <= pages * p /\ wantbytes (align a) <= pages * p /\
  (buf (align a) <> NULL -> buf (align a) mod p = 0 ->
   bufsize (align a) = wantbytes (align a) /\ p <= wantbytes (align a)) /\
  (exists j, 0 <= j <= pages /\ wantbytes (align a) = j * p) /\
  (buf (align a) = NULL ->
   wantbytes (align a) = 0 /\ bufsize (align a) = 0) /\
  (buf (align a) <> NULL ->
   p <= wantbytes (align a) /\
   (exists t0 tail,
      t = t0 ++ EvMalloc (wantbytes (align a)) (buf (align a)) :: tail /\
      (tail = [] \/ exists addr len err, tail = [EvMlock addr len err])) /\
   (buf (align a) mod p <> 0 ->
    bufsize (align a) = wantbytes (align a) - skip (align a) \/
    bufsize (align a) = wantbytes (align a) - 2 * skip (align a))).
Proof.
  intros (Hok & Hb & j & Hw & Hj & Hnull & Hnn & Hbs). pose proof p_bounds as Hp.
  assert (Hsk : buf a mod p <> 0 -> 0 < skip a < p).
  { intros NE. pose proof (skip_bounds k a Hok) as H.
    destruct Hok as (_ & Hps & _). rewrite Hps in H. apply H. exact NE. }
  assert (Hrange : - 2 ^ 30 <= bufsize a < 2 ^ 31).
  { destruct Hbs as [-> | (NE & ->)]; [nia|]. specialize (Hsk NE). nia. }
  assert (Hle : bufsize a <= j * p).
  { destruct Hbs as [-> | (NE & ->)]; [lia|]. specialize (Hsk NE). lia. }
  destruct (align_summary a Hok Hb Hrange) as (H1 & H2 & H3).
  assert (Eskip : skip (align a) = skip a).
  { unfold skip. destruct (align_keeps a) as (-> & _ & _ & -> & _). reflexivity. }
  rewrite Eskip.
  destruct (align_keeps a) as (-> & _ & -> & _). rewrite Hw.
  assert (Hps : pagesize a = p) by (destruct Hok as (_ & -> & _); reflexivity).
  split; [nia|]. split; [nia|]. split; [|split; [|split]].
  - intros Hbuf Hmod.
    assert (E0 : buf a mod pagesize a = 0) by (rewrite Hps; exact Hmod).
    destruct (H2 E0) as (-> & _).
    destruct Hbs as [-> | (NE & _)]; [|contradiction].
    destruct (Hnn Hbuf) as (Hj1 & _). split; [reflexivity | nia].
  - exists j. split; [exact Hj | reflexivity].
  - intros E. rewrite (Hnull E). split; [lia|].
    assert (E0 : buf a mod pagesize a = 0) by (rewrite E; reflexivity).
    destruct (H2 E0) as (-> & _).
    destruct Hbs as [-> | (NE & _)]; [rewrite (Hnull E); lia|].
    exfalso. apply NE. rewrite E. apply Z.mod_0_l. lia.
  - intros NE. destruct (Hnn NE) as (Hj1 & t0 & tail & Ht & Htail).
    split; [nia|]. rewrite <- Hw. split; [eauto|].
    intros Hmod.
    assert (E0 : buf a mod pagesize a <> 0) by (rewrite Hps; exact Hmod).
    rewrite (H3 E0). destruct Hbs as [-> | (_ & ->)]; rewrite Hw; [left | right]; lia.
Qed.

Lemma heap_request_settles fuel c :
  cfg_use_hugepages c = false -> cfg_use_phys c = false ->
  sysconf_pagesize e = p -> cfg_wantbytes c = pages * p ->
  (Z.to_nat pages + 2 <= fuel)%nat ->
  exists a t,
    acquire e fuel c = Done a t /\
    bufsize a <= cfg_wantbytes c /\ wantbytes a <= cfg_wantbytes c /\
    (buf a <> NULL -> buf a mod p = 0 ->
     bufsize a = wantbytes a /\ p <= wantbytes a) /\
    (exists j, 0 <= j <= pages /\ wantbytes a = j * p) /\
    (buf a = NULL -> wantbytes a = 0 /\ bufsize a = 0) /\
    (buf a <> NULL ->
     p <= wantbytes a /\
     (exists t0 tail,
        t = t0 ++ EvMalloc (wantbytes a) (buf a) :: tail /\
        (tail = [] \/ exists addr len err, tail = [EvMlock addr len err])) /\
     (buf a mod p <> 0 ->
      bufsize a = wantbytes a - skip a \/
      bufsize a = wantbytes a - 2 * skip a)) /\
    ((forall t0 s, to_size (malloc_ret e t0 s) = NULL) -> buf a = NULL).
Proof.
  intros Hh Hph Hsys Hwant Hf. pose proof p_bounds as Hp.
  assert (Hps : to_size (sysconf_pagesize e) = p).
  { rewrite Hsys. apply to_size_small. lia. }
  assert (Hws : to_size (cfg_wantbytes c) = pages * p).
  { rewrite Hwant. apply to_size_small. nia. }
  rewrite acquire_ready.
  - unfold acquire_from. rewrite Hph.
    change (use_hugepages (alloc_ready e c)) with (cfg_use_hugepages c).
    rewrite Hh, Hws.
    destruct (malloc_rounds_settle fuel fuel pages (alloc_ready e c) [])
      as (a' & t' & Hrun & Hs & Hno).
    + unfold round_start, page_ok, alloc_ready, page_size_of. cbn.
      rewrite Hh, Hps, Hws. repeat split; lia.
    + lia.
    + destruct (do_mlock _); lia.
    + rewrite Hrun. exists (align a'), t'.
      split; [reflexivity|]. rewrite Hwant.
      pose proof (settled_bound a' t' Hs) as (B1 & B2 & B3 & B4 & B5 & B6).
      repeat (split; [assumption|]).
      destruct (align_keeps a') as (-> & _). exact Hno.
  - rewrite Hps. change (to_size (-1)) with (2 ^ 64 - 1). lia.
  - unfold page_size_of. rewrite Hh, Hps, Hws. nia.
Qed.
End HeapBound.



(** ** Huge-page mode: the size of the region that is tested *)

Section HugeBufsize.
Variable sizeof_ul : Z.
Hypothesis sizeof_ul_pos : 0 < sizeof_ul.
Variable e : env.

(** [mmap] returns [MAP_FAILED] or an address on a huge-page boundary. *)
Hypothesis mmap_huge_aligned : forall t len,
  to_size (fst (mmap_huge_ret e t len)) <> MAP_FAILED ->
  to_size (fst (mmap_huge_ret e t len)) mod to_size (2 * 1024 * 1024) = 0.

Lemma hugepages_loop_keeps_bufsize fuel free : forall a t a' t',
  hugepages_loop e fuel free a t = Done a' t' -> bufsize a' = bufsize a.
Proof.
  induction fuel as [|fuel IH]; intros a t a' t' H; cbn [hugepages_loop] in H;
    destruct ((buf a =? NULL) && negb (wantbytes a =? 0));
    try discriminate; try (injection H as <- <-; reflexivity).
  destruct ((_ =? MAP_FAILED) && (_ =? ENOMEM)).
  - match type of H with (if ?c then _ else _) = _ => destruct c end.
    + injection H as <- <-. destruct ((0 <? free) && _); reflexivity.
    + apply IH in H. rewrite H. destruct ((0 <? free) && _); reflexivity.
  - destruct (_ =? MAP_FAILED); [discriminate|].
    apply IH in H. exact H.
Qed.

Lemma hugepages_loop_bufsize fuel free : forall a t a' t',
  pagesize a = to_size (2 * 1024 * 1024) ->
  buf a mod pagesize a = 0 ->
  hugepages_loop e fuel free a t = Done a' t' ->
  bufsize a' = bufsize a /\ pagesize a' = pagesize a /\
  buf a' mod pagesize a' = 0 /\ aligned a' = aligned a.
Proof.
  induction fuel as [|fuel IH]; intros a t a' t' Hp Hb H; cbn [hugepages_loop] in H;
    destruct ((buf a =? NULL) && negb (wantbytes a =? 0));
    try discriminate; try (injection H as <- <-; auto).
  set (r := to_size (fst (mmap_huge_ret e t (wantbytes a)))) in *.
  set (errno := snd (mmap_huge_ret e t (wantbytes a))) in *.
  destruct ((r =? MAP_FAILED) && (errno =? ENOMEM)).
  - match type of H with (if ?c then _ else _) = _ => destruct c end.
    + injection H as <- <-.
      destruct ((0 <? free) && _); cbn; auto.
    + apply IH in H.
      * destruct ((0 <? free) && _); cbn in *; exact H.
      * destruct ((0 <? free) && _); cbn; exact Hp.
      * destruct ((0 <? free) && _); cbn; reflexivity.
  - destruct (Z.eqb_spec r MAP_FAILED) as [|Hr]; [discriminate|].
    apply IH in H; [exact H | exact Hp |].
    cbn. rewrite Hp. apply mmap_huge_aligned. exact Hr.
Qed.

Lemma acquire_hugepages_bufsize fuel c a t :
  cfg_use_hugepages c = true -> cfg_use_phys c = false ->
  acquire e fuel c = Done a t ->
  bufsize a = 0.
Proof.
  intros Hh Hph H.
  destruct (acquire_cases e fuel c) as [E | E]; rewrite E in H; [discriminate|].
  unfold acquire_from in H. rewrite Hph in H.
  cbn [use_hugepages alloc_ready] in H. rewrite Hh in H.
  unfold alloc_using_hugepages in H.
  destruct (hugepages_loop e fuel (get_free_hugepages e) _ []) as [a5 t5| |] eqn:Hloop;
    try discriminate.
  injection H as <- <-.
  apply hugepages_loop_bufsize in Hloop.
  - destruct Hloop as (Hb & Hp & Hm & _).
    rewrite align_aligned by exact Hm. cbn [bufsize set_aligned]. rewrite Hb.
    destruct (negb _); reflexivity.
  - destruct (negb _); cbn; unfold page_size_of; rewrite Hh; reflexivity.
  - destruct (negb _); reflexivity.
Qed.

Lemma pass_calls_no_words c a :
  bufsize a = 0 ->
  Forall (fun k => call_count k = 0) (pass_calls sizeof_ul c a).
Proof.
  intros H. unfold pass_calls. constructor.
  - cbn. rewrite H. reflexivity.
  - apply Forall_map. apply Forall_forall. intros i _.
    unfold test_call_at, count, halflen. cbn. rewrite H. reflexivity.
Qed.

(** C9.  [alloc_using_hugepages] leaves [bufsize] as it finds it.  In
    huge-page mode (without [-p]) it finds the 0 of the initializer, and
    the mapping is page-aligned, so the alignment block of [main] does not
    touch it either: it is still 0 when the region is split, however many
    bytes were mapped, and every call of the stuck-address test and of a
    pattern test, in every pass, is made with a word count of 0. *)
Theorem hugepages_tests_run_on_zero_words : forall fuel c,
  cfg_use_hugepages c = true -> cfg_use_phys c = false ->
  (forall a t a' t',
     alloc_using_hugepages e fuel a t = Done a' t' ->
     bufsize a' = bufsize a) /\
  (forall a t, acquire e fuel c = Done a t -> bufsize a = 0) /\
  Forall (fun k => call_count k = 0)
         (calls (trace_of (main sizeof_ul e fuel c))).
Proof.
  intros fuel c Hh Hph. split; [|split].
  - intros a t a' t' H. unfold alloc_using_hugepages in H.
    apply hugepages_loop_keeps_bufsize in H. rewrite H.
    destruct (negb _); reflexivity.
  - intros a t. apply acquire_hugepages_bufsize; assumption.
  - pose proof (acquire_quiet e fuel c) as (Hq & _). unfold main.
    destruct (acquire e fuel c) as [a t0|code t0|t0] eqn:Hacq;
      cbn [trace_of] in Hq |- *; try (rewrite Hq; constructor).
    pose proof (acquire_hugepages_bufsize fuel c a t0 Hh Hph Hacq) as Hb.
    destruct (run_loops_passes sizeof_ul sizeof_ul_pos e fuel c a 1 0 t0)
      as (n & _ & H1 & _).
    rewrite Hq in H1. cbn [app calls flat_map] in H1.
    assert (Hall : Forall (fun k => call_count k = 0)
                     (concat (repeat (pass_calls sizeof_ul c a) n))).
    { apply Forall_concat. apply Forall_forall. intros l Hl.
      apply repeat_spec in Hl. subst l. apply pass_calls_no_words. exact Hb. }
    destruct (run_loops sizeof_ul e fuel c a 1 0 t0) as [code1 t1|code1 t1|t1];
      cbn [trace_of] in H1 |- *.
    + destruct (do_mlock a); [rewrite calls_snoc_quiet by reflexivity|];
        rewrite H1; exact Hall.
    + rewrite H1; exact Hall.
    + rewrite H1; exact Hall.
Qed.
End HugeBufsize.


(** ** Huge-page mode: the sizes that are tried *)

Lemma length_pages_down n p : length (pages_down n p) = n.
Proof. induction n as [|n IH]; cbn; [|rewrite IH]; reflexivity. Qed.


Section HugeRequests.
Variable e : env.

(** [mmap] returns [MAP_FAILED] or a pointer that is not null. *)
Hypothesis mmap_huge_not_null : forall t len,
  to_size (fst (mmap_huge_ret e t len)) <> NULL.

Lemma try_sizes_same sizes : forall a w b t,
  try_sizes e sizes (set_wantbytes w (set_buf b a)) t = try_sizes e sizes a t.
Proof.
  induction sizes as [|s sizes IH]; intros a w b t; cbn [try_sizes].
  - reflexivity.
  - rewrite IH. reflexivity.
Qed.

Lemma set_buf_wantbytes r a w :
  wantbytes a = w -> set_buf r a = set_wantbytes w (set_buf r a).
Proof. intros <-. destruct a; reflexivity. Qed.

(** One turn of the loop, for a request that is not null. *)
Lemma hugepages_loop_attempt fuel free a t :
  buf a = NULL -> wantbytes a <> 0 ->
  hugepages_loop e (S fuel) free a t =
  let r := to_size (fst (mmap_huge_ret e t (wantbytes a))) in
  let errno := snd (mmap_huge_ret e t (wantbytes a)) in
  let t1 := t ++ [EvMmapHuge (wantbytes a) r errno] in
  if (r =? MAP_FAILED) && (errno =? ENOMEM) then
    let w := if (0 <? free) && (to_size (free * pagesize a) <? wantbytes a)
             then to_size (free * pagesize a)
             else to_size (wantbytes a - pagesize a) in
    if w <? pagesize a then Done (set_wantbytes w (set_buf NULL a)) t1
    else hugepages_loop e fuel free (set_wantbytes w (set_buf NULL a)) t1
  else if r =? MAP_FAILED then Exit EXIT_FAILURE t1
  else Done (set_buf r a) t1.
Proof.
  intros Hb Hw. cbn [hugepages_loop]. rewrite Hb.
  apply Z.eqb_neq in Hw. rewrite Hw. cbn [Z.eqb NULL andb negb]. cbv zeta.
  destruct ((_ =? MAP_FAILED) && (_ =? ENOMEM)).
  - cbn [pagesize wantbytes set_buf].
    destruct ((0 <? free) && _); reflexivity.
  - destruct (_ =? MAP_FAILED); [reflexivity|].
    apply hugepages_loop_has_buf. cbn. apply mmap_huge_not_null.
Qed.

Lemma hugepages_loop_no_request fuel free a t :
  wantbytes a = 0 -> hugepages_loop e fuel free a t = Done a t.
Proof.
  intros H. destruct fuel; cbn [hugepages_loop]; rewrite H; cbn;
    rewrite andb_false_r; reflexivity.
Qed.

(** From [n] pages on, with no clamp ahead: one page less each time. *)
Lemma hugepages_loop_down free p : forall n fuel a t,
  0 < p -> Z.of_nat n * p < 2 ^ 64 -> free * p < 2 ^ 64 ->
  buf a = NULL -> pagesize a = p -> wantbytes a = Z.of_nat n * p ->
  (free <= 0 \/ Z.of_nat n <= free) ->
  (n <= fuel)%nat ->
  hugepages_loop e fuel free a t = try_sizes e (pages_down n p) a t.
Proof.
  induction n as [|n IH]; intros fuel a t Hp Hlt Hfp Hb Hps Hw Hfree Hf.
  - cbn [pages_down try_sizes]. rewrite hugepages_loop_no_request by lia.
    f_equal. destruct a; cbn in *; subst; reflexivity.
  - destruct fuel as [|fuel]; [lia|].
    rewrite hugepages_loop_attempt by (try assumption; rewrite Hw; nia).
    cbn [pages_down try_sizes]. cbv zeta. rewrite Hw, Hps.
    assert (Hclamp : (0 <? free) && (to_size (free * p) <? Z.of_nat (S n) * p) = false).
    { apply andb_false_iff. destruct Hfree as [Hfree | Hfree].
      - left. apply Z.ltb_ge. exact Hfree.
      - right. apply Z.ltb_ge. rewrite to_size_small by nia. nia. }
    rewrite Hclamp.
    assert (Hsub : to_size (Z.of_nat (S n) * p - p) = Z.of_nat n * p).
    { replace (Z.of_nat (S n) * p - p) with (Z.of_nat n * p) by lia.
      apply to_size_small. nia. }
    rewrite Hsub.
    destruct ((_ =? MAP_FAILED) && (_ =? ENOMEM)).
    + destruct (Z.ltb_spec (Z.of_nat n * p) p) as [Hlast | Hmore].
      * assert (n = O) as -> by nia. reflexivity.
      * rewrite (IH fuel (set_wantbytes (Z.of_nat n * p) (set_buf NULL a)));
          [apply try_sizes_same | exact Hp | lia | exact Hfp | reflexivity
          | exact Hps | reflexivity | lia | lia].
    + destruct (_ =? MAP_FAILED); [reflexivity|].
      f_equal. apply set_buf_wantbytes. exact Hw.
Qed.

(** C2, amended.  The free huge-page count is read once, before the first
    attempt.  The request is rounded up to whole huge pages; the sizes
    that are then asked of [mmap], each after the one before it has failed
    with [ENOMEM], are those of [hugepage_requests]: the rounded request,
    then the free count in pages if that is positive and less, else one
    page less, and from there down one page at a time to one page.  The
    first answer that is not [ENOMEM] ends the attempts, and no attempt is
    made below one page. *)
Theorem hugepage_requests_followed : forall fuel a t,
  buf a = NULL -> 0 < pagesize a -> 0 < wantbytes a ->
  (wantbytes a / pagesize a + 1) * pagesize a < 2 ^ 64 ->
  get_free_hugepages e * pagesize a < 2 ^ 64 ->
  (length (hugepage_requests (wantbytes a) (get_free_hugepages e) (pagesize a))
     <= fuel)%nat ->
  alloc_using_hugepages e fuel a t
    = try_sizes e
        (hugepage_requests (wantbytes a) (get_free_hugepages e) (pagesize a))
        a t.
Proof.
  intros fuel a t Hb Hp Hw Hround Hfp Hf.
  set (p := pagesize a) in *. set (free := get_free_hugepages e) in *.
  set (w := wantbytes a) in *.
  pose proof (Z.div_mod w p ltac:(lia)) as Hdm.
  pose proof (Z.mod_pos_bound w p Hp) as Hm.
  assert (Hq : 0 <= w / p) by (apply Z.div_pos; lia).
  unfold alloc_using_hugepages, hugepage_requests in *. fold p w free in Hf |- *.
  set (r := if w mod p =? 0 then w / p else w / p + 1) in *.
  assert (Hr : 1 <= r /\ r * p < 2 ^ 64 /\ r <= w / p + 1).
  { unfold r. destruct (Z.eqb_spec (w mod p) 0); nia. }
  set (a0 := if negb (w mod p =? 0)
             then set_wantbytes (to_size ((w / p + 1) * p)) a else a).
  assert (Ha0 : buf a0 = NULL /\ pagesize a0 = p /\ wantbytes a0 = r * p).
  { unfold a0, r. destruct (Z.eqb_spec (w mod p) 0) as [E | NE]; cbn.
    - repeat split; try assumption. fold w. nia.
    - repeat split; try assumption. apply to_size_small. nia. }
  destruct Ha0 as (Hb0 & Hp0 & Hw0).
  assert (Hsame : forall sizes t', try_sizes e sizes a0 t' = try_sizes e sizes a t').
  { intros sizes t'. unfold a0. destruct (negb _); [|reflexivity].
    replace (set_wantbytes (to_size ((w / p + 1) * p)) a)
      with (set_wantbytes (to_size ((w / p + 1) * p)) (set_buf (buf a) a))
      by (destruct a; reflexivity).
    apply try_sizes_same. }
  set (m := if (0 <? free) && (free <? r) then free else r - 1) in *.
  cbn [length] in Hf. destruct fuel as [|fuel]; [lia|].
  rewrite hugepages_loop_attempt by (try assumption; rewrite Hw0; nia).
  cbn [try_sizes]. cbv zeta. rewrite Hw0, Hp0.
  destruct ((_ =? MAP_FAILED) && (_ =? ENOMEM)).
  - assert (Hnext : (if (0 <? free) && (to_size (free * p) <? r * p)
                     then to_size (free * p) else to_size (r * p - p)) = m * p
                    /\ 0 <= m <= r /\ (free <= 0 \/ m <= free)).
    { assert (Hsub : to_size (r * p - p) = (r - 1) * p).
      { replace (r * p - p) with ((r - 1) * p) by lia.
        apply to_size_small. nia. }
      unfold m. destruct (Z.ltb_spec 0 free) as [Hpos | Hneg]; cbn [andb].
      - rewrite (to_size_small (free * p)) by nia.
        destruct (Z.ltb_spec free r) as [Hlt | Hge].
        + destruct (Z.ltb_spec (free * p) (r * p)); [|nia].
          split; [reflexivity | lia].
        + destruct (Z.ltb_spec (free * p) (r * p)); [nia|].
          split; [exact Hsub | lia].
      - split; [exact Hsub | lia]. }
    destruct Hnext as (-> & Hm0 & Hmf).
    rewrite length_pages_down in Hf.
    destruct (Z.ltb_spec (m * p) p) as [Hlast | Hmore].
    + assert (m = 0) as -> by nia. cbn [Z.to_nat pages_down try_sizes].
      f_equal. unfold a0. destruct (negb _); reflexivity.
    + rewrite (hugepages_loop_down free p (Z.to_nat m));
        [rewrite try_sizes_same; apply Hsame | exact Hp
        | rewrite Z2Nat.id by lia; nia | exact Hfp | reflexivity | exact Hp0
        | rewrite Z2Nat.id by lia; reflexivity
        | rewrite Z2Nat.id by lia; exact Hmf | lia].
  - destruct (_ =? MAP_FAILED); [reflexivity|].
    f_equal. rewrite (set_buf_wantbytes _ a0 (r * p) Hw0).
    unfold a0. destruct (negb _); reflexivity.
Qed.
End HugeRequests.


(** * The theorems at sample inputs *)



(** No free huge page and every [mmap] failing with [ENOMEM].  The 4 MB
    request is not clamped to the zero free pages: 2 MB are asked for next;
    and when nothing is left [main] goes on to the tests and exits with
    status 0. *)
Lemma exhausted_pool_is_not_fatal :
  get_free_hugepages (env_no_hugepages 0) = 0 /\
  main 8 (env_no_hugepages 0) 3 (cfg_huge 4194304 1 1)
  = Exit 0 [EvMmapHuge 4194304 MAP_FAILED ENOMEM;
            EvMmapHuge 2097152 MAP_FAILED ENOMEM;
            EvStuckAddress 0 0 0; EvTest 0 0 0 0 0; EvMemset 0 0;
            EvMunlock 0 0].
Proof. split; vm_compute; reflexivity. Qed.

(** 5000000 bytes with two free huge pages: 6 MB, 4 MB and 2 MB are
    asked for. *)
Lemma hugepage_requests_followed_witness :
  alloc_using_hugepages (env_few_hugepages 2) 3
    (alloc_ready (env_few_hugepages 2) (cfg_huge 5000000 1 1)) []
  = try_sizes (env_few_hugepages 2) [6291456; 4194304; 2097152]
      (alloc_ready (env_few_hugepages 2) (cfg_huge 5000000 1 1)) [].
Proof.
  apply (hugepage_requests_followed (env_few_hugepages 2)).
  - intros t len. unfold env_few_hugepages, env_with. cbn.
    destruct (length t <=? 1)%nat; vm_compute; discriminate.
  - reflexivity.
  - reflexivity.
  - reflexivity.
  - reflexivity.
  - reflexivity.
  - vm_compute. lia.
Defined.

(** The first [mlock] fails with [ENOMEM]. *)
Lemma pin_failure_handling_witness :
  exists a',
    alloc_using_malloc (env_mlock_fails ENOMEM 0x20010) 3
      (alloc_ready (env_mlock_fails ENOMEM 0x20010) (cfg_heap 8192 1 0))
      8192 []
    = Done (0, a') [EvMalloc 8192 0x20010; EvMlock 0x21000 4112 (Some ENOMEM);
                    EvFree 0x20010] /\
    buf a' = NULL /\ do_mlock a' = true /\ wantbytes a' = 4096.
Proof.
  destruct (pin_failure_handling (env_mlock_fails ENOMEM 0x20010) 3 0
              (alloc_ready (env_mlock_fails ENOMEM 0x20010) (cfg_heap 8192 1 0))
              8192 []
              (set_buf 0x20010
                 (alloc_ready (env_mlock_fails ENOMEM 0x20010) (cfg_heap 8192 1 0)))
              [EvMalloc 8192 0x20010] ENOMEM
              eq_refl eq_refl eq_refl) as (H & _).
  destruct (H (or_intror eq_refl)) as (a' & Hrun & Hb & Hd & _ & Hw & _).
  exists a'. split; [exact Hrun|]. split; [exact Hb|]. split; [exact Hd|].
  apply Hw; vm_compute; split; discriminate.
Defined.



(** Two passes in which the pattern test of ordinal 1 fails. *)
Lemma exit_status_is_or_of_flags_witness :
  0 < 8 /\
  exists code t,
    main 8 env_faulty 3 (cfg_heap 8192 2 3) = Exit code t /\
    code = Z.lor 0 (flags t) /\ code = EXIT_FAIL_OTHERTEST.
Proof.
  split; [lia|].
  destruct (exit_status_is_or_of_flags 8 ltac:(lia) env_faulty 3
              (cfg_heap 8192 2 3)) as (H1 & H2).
  destruct (H2 (mk_alloc 0x20000 0x20000 8192 8192 true false 4096 (-4096))
               [EvMalloc 8192 0x20000; EvMlock 0x20000 8192 None]
               eq_refl ltac:(cbn; lia) ltac:(cbn; lia)) as (code & t & Hmain).
  exists code, t. split; [exact Hmain|].
  pose proof (proj1 (H1 code t Hmain)) as Hcode.
  split; [exact Hcode|].
  vm_compute in Hmain. injection Hmain as <- <-. reflexivity.
Defined.

(** The mask [0x3]. *)
Lemma selected_tests_run_witness :
  0 < 8 /\
  calls (snd (run_pass 8 (env_ok 0x20000) (cfg_heap 8192 1 3)
                (mk_alloc 0x20000 0x20000 8192 8192 true false 4096 (-4096))
                0 []))
  = [CallStuck 0x20000 1024; CallTest 0 0x20000 0x21000 512;
     CallTest 1 0x20000 0x21000 512].
Proof.
  split; [lia|].
  destruct (selected_tests_run 8 ltac:(lia) (env_ok 0x20000)
              (cfg_heap 8192 1 3)
              (mk_alloc 0x20000 0x20000 8192 8192 true false 4096 (-4096)))
    as (H1 & _ & _ & _ & H5).
  rewrite H1. rewrite (H5 eq_refl). reflexivity.
Defined.

(** The loop count [ULONG_MAX] of a 64-bit [unsigned long], and fuel for
    three passes. *)
Lemma loop_count_ulong_max_never_ends_witness :
  0 < 8 /\
  exists t,
    main 8 (env_ok 0x20000) 3 (cfg_heap 8192 18446744073709551615 1)
      = OutOfFuel t /\
    length (calls t) = 6%nat.
Proof.
  split; [lia|].
  destruct (loop_count_ulong_max_never_ends 8 ltac:(lia) (env_ok 0x20000) 3
              (cfg_heap 8192 18446744073709551615 1)
              (mk_alloc 0x20000 0x20000 8192 8192 true false 4096 (-4096))
              [EvMalloc 8192 0x20000; EvMlock 0x20000 8192 None]
              eq_refl eq_refl) as (t & Hmain & Hcalls).
  exists t. split; [exact Hmain|]. rewrite Hcalls. reflexivity.
Defined.

(** The device maps, [mlock] fails with [EPERM]. *)
Lemma physical_mapping_is_exact_witness :
  exists a,
    acquire env_no_mlock 0 (cfg_phys 8192 1 1)
      = Done a [EvOpen 3; EvMmapPhys 8192 0x100000 0x7f0000000000;
                EvMlock 0x7f0000000000 8192 (Some EPERM)] /\
    buf a = 0x7f0000000000 /\ do_mlock a = false.
Proof.
  destruct (physical_mapping_is_exact 8 env_no_mlock 0 (cfg_phys 8192 1 1)
              eq_refl ltac:(vm_compute; discriminate)
              ltac:(vm_compute; discriminate)) as (_ & _ & H).
  apply H.
  - vm_compute. discriminate.
  - vm_compute. discriminate.
  - discriminate.
Defined.

(** 5000000 bytes asked under [-H], 2 MB mapped at the third attempt. *)
Lemma hugepages_tests_run_on_zero_words_witness :
  0 < 8 /\
  calls (trace_of (main 8 (env_few_hugepages 2) 4 (cfg_huge 5000000 1 1)))
    = [CallStuck 0x40000000 0; CallTest 0 0x40000000 0x40000000 0] /\
  Forall (fun k => call_count k = 0)
    (calls (trace_of (main 8 (env_few_hugepages 2) 4 (cfg_huge 5000000 1 1)))).
Proof.
  split; [lia|]. split; [vm_compute; reflexivity|].
  apply (hugepages_tests_run_on_zero_words 8 ltac:(lia) (env_few_hugepages 2)).
  - intros t len. unfold env_few_hugepages, env_with. cbn.
    destruct (length t <=? 1)%nat.
    + intros H. exfalso. apply H. reflexivity.
    + intros _. reflexivity.
  - reflexivity.
  - reflexivity.
Defined.

(** 8192 bytes at an address 16 bytes past a page boundary. *)
Lemma alignment_skip_subtracted_twice_witness :
  exists a t,
    acquire (env_ok 0x20010) 3 (cfg_heap 8192 1 0) = Done a t /\
    skip a = 4080 /\
    (exists t1, t = t1 ++ [EvMlock 0x21000 (8192 - 4080) None]) /\
    bufsize a = 8192 - 2 * 4080.
Proof.
  eexists. eexists. split; [vm_compute; reflexivity|].
  split; [reflexivity|].
  destruct (proj2 (alignment_skip_subtracted_twice (env_ok 0x20010)) 12 3%nat
              (cfg_heap 8192 1 0)
              (mk_alloc 0x20010 0x21000 8192 32 true false 4096 (-4096))
              [EvMalloc 8192 0x20010; EvMlock 0x21000 4112 None])
    as (_ & H1 & H2).
  - lia.
  - reflexivity.
  - reflexivity.
  - reflexivity.
  - vm_compute. reflexivity.
  - reflexivity.
  - vm_compute. discriminate.
  - cbn. lia.
  - split; [exact H1 | exact H2].
Defined.

(** * The command line *)

Section ArgsProps.
Variable sizeof_ul : Z.
Variable e : env.

Lemma to_size_idem x : to_size (to_size x) = to_size x.
Proof. apply to_size_small. apply to_size_range. Qed.

Lemma memtester_pagesize_first :
  memtester_pagesize e alloc_init [] = Exit EXIT_FAIL_NONSTARTER [] \/
  (to_size (sysconf_pagesize e) <> to_size (-1) /\
   memtester_pagesize e alloc_init [] = Done (alloc_paged e false) []).
Proof.
  unfold memtester_pagesize. cbn [use_hugepages alloc_init].
  destruct (Z.eqb_spec (to_size (sysconf_pagesize e)) (to_size (-1)));
    [left | right]; auto.
Qed.

Lemma option_case_H o t hp :
  opt_alloc o = alloc_paged e hp ->
  option_case e GetH o t
  = Done (mk_options (alloc_paged e true) (opt_use_phys o)
            (opt_physaddrbase o) (opt_device_name o)
            (opt_device_specified o) (opt_o_flags o)) t.
Proof. intros H. cbn [option_case]. rewrite H. reflexivity. Qed.

(** The option loop adds nothing to the trace and ends either in [usage]
    or with the options read off the list. *)
Lemma getopt_loop_spec gs : forall o t hp,
  opt_alloc o = alloc_paged e hp ->
  getopt_loop e gs o t = Exit usage t \/
  exists o',
    getopt_loop e gs o t = Done o' t /\
    opt_alloc o' = alloc_paged e (hp || existsb is_H gs) /\
    opt_use_phys o' = opt_use_phys o || existsb is_P gs /\
    opt_device_specified o' = opt_device_specified o || existsb is_D gs /\
    opt_physaddrbase o' = physaddr_of gs (opt_physaddrbase o).
Proof.
  induction gs as [|g gs IH]; intros o t hp Ho.
  - right. exists o. cbn. rewrite !orb_false_r. auto.
  - cbn [getopt_loop].
    assert (Hstep : option_case e g o t = Exit usage t \/
      exists o1, option_case e g o t = Done o1 t /\
        opt_alloc o1 = alloc_paged e (hp || is_H g) /\
        opt_use_phys o1 = opt_use_phys o || is_P g /\
        opt_device_specified o1 = opt_device_specified o || is_D g /\
        opt_physaddrbase o1 = physaddr_of [g] (opt_physaddrbase o)).
    { destruct g as [|addr|optarg st_mode| |].
      - right. rewrite (option_case_H o t hp Ho). eexists. split; [reflexivity|].
        cbn. rewrite !orb_true_r, !orb_false_r. auto.
      - cbn [option_case]. destruct (negb (st_errno addr =? 0)); [left; reflexivity|].
        destruct (negb (Ascii.eqb (st_end addr) "000")); [left; reflexivity|].
        destruct (negb (Z.land _ _ =? 0)); [left; reflexivity|].
        right. eexists. split; [reflexivity|]. cbn.
        rewrite !orb_true_r, !orb_false_r. auto.
      - cbn [option_case]. destruct st_mode as [m|]; [|left; reflexivity].
        destruct (negb (S_ISCHR m)); [left; reflexivity|].
        right. eexists. split; [reflexivity|]. cbn.
        rewrite !orb_true_r, !orb_false_r. auto.
      - right. eexists. split; [reflexivity|]. cbn.
        rewrite !orb_false_r. auto.
      - left. reflexivity. }
    destruct Hstep as [-> | (o1 & -> & H1 & H2 & H3 & H4)]; [left; reflexivity|].
    destruct (IH o1 t (hp || is_H g) H1) as [-> | (o' & -> & I1 & I2 & I3 & I4)];
      [left; reflexivity|].
    right. exists o'. split; [reflexivity|]. cbn [existsb].
    rewrite I1, I2, I3, I4, H2, H3, H4, !orb_assoc. auto.
Qed.

Lemma alloc_paged_ready av m memshift :
  set_buf NULL
    (set_wantbytes (to_size (Z.shiftl (to_size (st_val m)) memshift))
       (alloc_paged e (existsb is_H (arg_options av))))
  = alloc_ready e (config_of sizeof_ul av m memshift).
Proof.
  unfold alloc_paged, alloc_ready, config_of, page_size_of. cbn.
  rewrite to_size_idem. reflexivity.
Qed.

Lemma read_testmask_spec av t :
  read_testmask sizeof_ul (arg_testmask av) t = Exit usage t \/
  read_testmask sizeof_ul (arg_testmask av) t
  = Done (match arg_testmask av with
          | None => 0
          | Some r => to_ul sizeof_ul (st_val r)
          end) t.
Proof.
  unfold read_testmask. destruct (arg_testmask av) as [r|]; [|auto].
  destruct (negb (st_errno r =? 0)); auto.
Qed.

Lemma read_loops_spec av t :
  read_loops sizeof_ul (arg_loops av) t = Exit usage t \/
  read_loops sizeof_ul (arg_loops av) t
  = Done (match arg_loops av with
          | None => 0
          | Some r => to_ul sizeof_ul (st_val r)
          end) t.
Proof.
  unfold read_loops. destruct (arg_loops av) as [r|]; [|auto].
  destruct (negb (st_errno r =? 0)); [auto|].
  destruct (negb (Ascii.eqb (st_end r) "000")); auto.
Qed.

(** X1.  [main] checks all of its arguments before it opens, allocates or
    tests anything: either it ends with status 1 and an empty trace, or
    the memory argument has been read, with one of the known suffixes,
    and [main] goes on as on the configuration that the command line
    amounts to (huge pages if there is a [-H], the address of the last
    [-p], the size shifted by the suffix, the loop count or 0, the test
    mask or 0). *)
Theorem main_args_validates_then_runs : forall fuel av,
  main_args sizeof_ul e fuel av = Exit EXIT_FAIL_NONSTARTER [] \/
  exists m memshift,
    arg_mem av = Some m /\ st_errno m = 0 /\
    memshift_of (st_end m) = Some memshift /\
    main_args sizeof_ul e fuel av
      = main sizeof_ul e fuel (config_of sizeof_ul av m memshift).
Proof.
  intros fuel av. unfold main_args.
  destruct memtester_pagesize_first as [-> | (Hsys & ->)]; [left; reflexivity|].
  destruct (read_testmask_spec av []) as [-> | ->]; [left; reflexivity|].
  destruct (getopt_loop_spec (arg_options av) (options_init (alloc_paged e false))
              [] false eq_refl) as [-> | (o & -> & Ha & Hp & Hd & Hb)];
    [left; reflexivity|].
  destruct (opt_device_specified o && negb (opt_use_phys o));
    [left; reflexivity|].
  destruct (arg_mem av) as [m|]; [|left; reflexivity].
  destruct (Z.eqb_spec (st_errno m) 0) as [Herr | _]; cbn [negb];
    [|left; reflexivity].
  destruct (memshift_of (st_end m)) as [memshift|] eqn:Hshift;
    [|left; reflexivity].
  cbv zeta. rewrite maxmb_check.
  destruct (_ <? _) eqn:Hsmall; [left; reflexivity|].
  destruct (read_loops_spec av []) as [-> | ->]; [left; reflexivity|].
  right. exists m, memshift. split; [reflexivity|]. split; [exact Herr|].
  split; [exact Hshift|].
  cbn [orb options_init opt_use_phys opt_physaddrbase] in Ha, Hp, Hb.
  rewrite Ha, Hp, Hb in *. cbn [use_hugepages set_wantbytes alloc_paged alloc_ready].
  change (mk_config (existsb is_H (arg_options av)) (existsb is_P (arg_options av))
            (physaddr_of (arg_options av) 0)
            (to_size (Z.shiftl (to_size (st_val m)) memshift))
            _ _ (arg_narrow av))
    with (config_of sizeof_ul av m memshift).
  unfold main. rewrite acquire_ready.
  - rewrite <- alloc_paged_ready. reflexivity.
  - exact Hsys.
  - apply Z.ltb_ge in Hsmall. cbn in Hsmall |- *. rewrite to_size_idem.
    exact Hsmall.
Qed.

(** When the page size is known, everything on the command line is read
    without error, [-d] comes with [-p], and the size is at least one
    page, [main] goes on as on the configuration that the command line
    amounts to. *)
Lemma main_args_run : forall fuel av m memshift,
  to_size (sysconf_pagesize e) <> to_size (-1) ->
  (forall r, arg_testmask av = Some r -> st_errno r = 0) ->
  (exists o,
     getopt_loop e (arg_options av) (options_init (alloc_paged e false)) []
     = Done o []) ->
  (existsb is_D (arg_options av) = true ->
   existsb is_P (arg_options av) = true) ->
  arg_mem av = Some m -> st_errno m = 0 ->
  memshift_of (st_end m) = Some memshift ->
  (forall r, arg_loops av = Some r ->
             st_errno r = 0 /\ st_end r = "000"%char) ->
  page_size_of e (config_of sizeof_ul av m memshift)
    <= to_size (Z.shiftl (to_size (st_val m)) memshift) ->
  main_args sizeof_ul e fuel av
    = main sizeof_ul e fuel (config_of sizeof_ul av m memshift).
Proof.
  intros fuel av m memshift Hsys Hmask (o & Ho) Hdev Hm Herr Hshift Hloops Hsize.
  unfold main_args.
  destruct memtester_pagesize_first as [Hx | (_ & ->)].
  { unfold memtester_pagesize in Hx. cbn [use_hugepages alloc_init] in Hx.
    destruct (Z.eqb_spec (to_size (sysconf_pagesize e)) (to_size (-1)));
      [contradiction | discriminate]. }
  assert (Htm : read_testmask sizeof_ul (arg_testmask av) []
                = Done (match arg_testmask av with
                        | None => 0
                        | Some r => to_ul sizeof_ul (st_val r)
                        end) []).
  { unfold read_testmask. destruct (arg_testmask av) as [r|]; [|reflexivity].
    rewrite (Hmask r eq_refl). reflexivity. }
  rewrite Htm, Ho.
  destruct (getopt_loop_spec (arg_options av) (options_init (alloc_paged e false))
              [] false eq_refl) as [Hx | (o' & Ho' & Ha & Hp & Hd & Hb)];
    [rewrite Ho in Hx; discriminate|].
  rewrite Ho in Ho'. injection Ho' as <-.
  cbn [orb options_init opt_use_phys opt_physaddrbase opt_device_specified]
    in Ha, Hp, Hd, Hb.
  assert (Hdp : opt_device_specified o && negb (opt_use_phys o) = false).
  { rewrite Hd, Hp. destruct (existsb is_D _); [|reflexivity].
    rewrite Hdev by reflexivity. reflexivity. }
  rewrite Hdp, Hm, Herr, Hshift. cbn [negb Z.eqb]. cbv zeta. rewrite maxmb_check.
  rewrite Ha. cbn [wantbytes pagesize set_wantbytes alloc_paged alloc_ready].
  assert (Hps : page_size_of e (mk_config (existsb is_H (arg_options av))
                                 false 0 0 0 0 false)
                = page_size_of e (config_of sizeof_ul av m memshift))
    by reflexivity.
  rewrite Hps.
  destruct (Z.ltb_spec (to_size (Z.shiftl (to_size (st_val m)) memshift))
              (page_size_of e (config_of sizeof_ul av m memshift)))
    as [Hlt | _]; [lia|].
  assert (Hl : read_loops sizeof_ul (arg_loops av) []
               = Done (match arg_loops av with
                       | None => 0
                       | Some r => to_ul sizeof_ul (st_val r)
                       end) []).
  { unfold read_loops. destruct (arg_loops av) as [r|]; [|reflexivity].
    destruct (Hloops r eq_refl) as [-> ->]. reflexivity. }
  rewrite Hl, Hp, Hb.
  change (mk_config (existsb is_H (arg_options av)) (existsb is_P (arg_options av))
            (physaddr_of (arg_options av) 0)
            (to_size (Z.shiftl (to_size (st_val m)) memshift))
            _ _ (arg_narrow av))
    with (config_of sizeof_ul av m memshift).
  unfold main. rewrite acquire_ready.
  - rewrite <- alloc_paged_ready. reflexivity.
  - exact Hsys.
  - cbn. rewrite to_size_idem. exact Hsize.
Qed.

(** X3.  A device given with [-d] is of no use without [-p]: whatever
    else is on the command line, [main] returns the status of [usage]
    and has opened, allocated and tested nothing. *)
Theorem device_needs_physaddr : forall fuel av,
  existsb is_D (arg_options av) = true ->
  existsb is_P (arg_options av) = false ->
  main_args sizeof_ul e fuel av = Exit EXIT_FAIL_NONSTARTER [].
Proof.
  intros fuel av HD HP. unfold main_args.
  destruct memtester_pagesize_first as [-> | (Hsys & ->)]; [reflexivity|].
  destruct (read_testmask_spec av []) as [-> | ->]; [reflexivity|].
  destruct (getopt_loop_spec (arg_options av) (options_init (alloc_paged e false))
              [] false eq_refl) as [-> | (o & -> & Ha & Hp & Hd & Hb)];
    [reflexivity|].
  rewrite Hd, Hp, HD, HP. cbn. reflexivity.
Qed.

Lemma getopt_loop_files gs : forall o t o' t',
  opt_o_flags o = Z.lor O_RDWR O_SYNC \/ opt_o_flags o = O_RDWR ->
  getopt_loop e gs o t = Done o' t' ->
  opt_device_name o' = device_of gs (opt_device_name o) /\
  opt_o_flags o' = if existsb is_U gs then O_RDWR else opt_o_flags o.
Proof.
  induction gs as [|g gs IH]; intros o t o' t' Hf H.
  - cbn in H. injection H as <- <-. auto.
  - cbn [getopt_loop] in H.
    destruct (option_case e g o t) as [o1 t1| |] eqn:Hc; try discriminate.
    assert (Hstep : opt_device_name o1 = device_of [g] (opt_device_name o) /\
                    opt_o_flags o1 = if is_U g then O_RDWR else opt_o_flags o).
    { destruct g as [|addr|optarg st_mode| |]; cbn [option_case] in Hc.
      - destruct (memtester_pagesize _ _ _); try discriminate.
        injection Hc as <- <-. auto.
      - destruct (negb (st_errno addr =? 0)); try discriminate.
        destruct (negb (Ascii.eqb (st_end addr) "000")); try discriminate.
        destruct (negb (Z.land _ _ =? 0)); try discriminate.
        injection Hc as <- <-. auto.
      - destruct st_mode as [m|]; try discriminate.
        destruct (negb (S_ISCHR m)); try discriminate.
        injection Hc as <- <-. auto.
      - injection Hc as <- <-. cbn. split; [reflexivity|].
        destruct Hf as [-> | ->]; reflexivity.
      - discriminate. }
    destruct Hstep as [Hn Hfl].
    assert (Hf1 : opt_o_flags o1 = Z.lor O_RDWR O_SYNC \/ opt_o_flags o1 = O_RDWR).
    { rewrite Hfl. destruct (is_U g); auto. }
    destruct (IH o1 t1 o' t' Hf1 H) as [I1 I2].
    split.
    + rewrite I1, Hn. reflexivity.
    + rewrite I2, Hfl. cbn [existsb]. destruct (is_U g), (existsb is_U gs); reflexivity.
Qed.

(** X4.  What the option loop leaves behind when it does not end in
    [usage]: it has called nothing; huge pages are on, with the 2 MB page
    size, exactly if there is a [-H]; [use_phys] is set exactly if there
    is a [-p], and the base address is that of the last one; the device
    is the argument of the last [-d], [/dev/mem] without one; and the
    device is opened for reading and writing, with [O_SYNC] unless there
    is a [-u]. *)
Theorem options_read : forall gs o t,
  getopt_loop e gs (options_init (alloc_paged e false)) [] = Done o t ->
  t = [] /\
  opt_alloc o = alloc_paged e (existsb is_H gs) /\
  use_hugepages (opt_alloc o) = existsb is_H gs /\
  (existsb is_H gs = true -> pagesize (opt_alloc o) = 2 * 1024 * 1024) /\
  opt_use_phys o = existsb is_P gs /\
  opt_physaddrbase o = physaddr_of gs 0 /\
  opt_device_specified o = existsb is_D gs /\
  opt_device_name o = device_of gs "/dev/mem" /\
  opt_o_flags o = if existsb is_U gs then O_RDWR else Z.lor O_RDWR O_SYNC.
Proof.
  intros gs o t H.
  destruct (getopt_loop_files gs (options_init (alloc_paged e false)) [] o t
              (or_introl eq_refl) H) as [Hn Hf].
  destruct (getopt_loop_spec gs (options_init (alloc_paged e false)) [] false
              eq_refl) as [Hx | (o' & Ho' & Ha & Hp & Hd & Hb)];
    [rewrite H in Hx; discriminate|].
  rewrite H in Ho'. injection Ho' as <- ->.
  cbn [orb options_init opt_use_phys opt_physaddrbase opt_device_specified]
    in Ha, Hp, Hd, Hb.
  repeat split; try assumption.
  - rewrite Ha. reflexivity.
  - intros HH. rewrite Ha, HH. reflexivity.
Qed.

(** X5.  The base address of [-p] is checked against the page size as it
    is when the option is read, so the order of [-H] and [-p] matters.
    An address that is a multiple of the system's page size but not of
    2 MB is refused after [-H], and accepted before it: then the option
    loop ends with huge pages on and with that base address. *)
Theorem physaddr_check_follows_option_order : forall addr o t,
  opt_alloc o = alloc_paged e false ->
  st_errno addr = 0 -> st_end addr = "000"%char ->
  Z.land (to_size (to_long (st_val addr)))
         (to_size (to_size (sysconf_pagesize e) - 1)) = 0 ->
  Z.land (to_size (to_long (st_val addr))) (2 * 1024 * 1024 - 1) <> 0 ->
  getopt_loop e [GetH; GetP addr] o t = Exit usage t /\
  exists o',
    getopt_loop e [GetP addr; GetH] o t = Done o' t /\
    use_hugepages (opt_alloc o') = true /\
    pagesize (opt_alloc o') = 2 * 1024 * 1024 /\
    opt_use_phys o' = true /\
    opt_physaddrbase o' = to_long (st_val addr).
Proof.
  intros addr o t Ho Herr Hend Hsys Hhuge.
  assert (HP : forall o1,
    option_case e (GetP addr) o1 t
    = if negb (Z.land (to_size (to_long (st_val addr)))
                      (to_size (pagesize (opt_alloc o1) - 1)) =? 0)
      then Exit usage t
      else Done (mk_options (opt_alloc o1) true (to_long (st_val addr))
                   (opt_device_name o1) (opt_device_specified o1)
                   (opt_o_flags o1)) t).
  { intros o1. cbn [option_case]. rewrite Herr, Hend. reflexivity. }
  split.
  - cbn [getopt_loop]. rewrite (option_case_H o t false Ho), HP.
    cbn [opt_alloc].
    change (to_size (pagesize (alloc_paged e true) - 1)) with (2 * 1024 * 1024 - 1).
    destruct (Z.eqb_spec (Z.land (to_size (to_long (st_val addr)))
                            (2 * 1024 * 1024 - 1)) 0) as [E | _];
      [contradiction | reflexivity].
  - cbn [getopt_loop]. rewrite HP, Ho.
    change (pagesize (alloc_paged e false)) with (to_size (sysconf_pagesize e)).
    rewrite Hsys. cbn [Z.eqb negb].
    rewrite (option_case_H _ t false) by reflexivity.
    eexists. split; [reflexivity|]. cbn. auto.
Qed.
End ArgsProps.

(** * The run as a whole

    ** The events of the test loop *)

Section LoopEvents.
Variable sizeof_ul : Z.
Variable e : env.

Lemma run_tests_events tbl : forall i testmask a exit_code t,
  exists added,
    snd (run_tests sizeof_ul e tbl i testmask a exit_code t) = t ++ added /\
    forallb (test_event a) added = true.
Proof.
  induction tbl as [|name tbl IH]; intros i testmask a exit_code t;
    cbn [run_tests].
  - exists []. rewrite app_nil_r. auto.
  - destruct (negb (testmask =? 0) && _); [apply IH|]. cbv zeta.
    match goal with |- context [run_tests _ _ _ ?i1 _ _ ?c1 ?t1] =>
      destruct (IH i1 testmask a c1 t1) as (added & -> & Hall) end.
    eexists. rewrite <- !app_assoc. split; [reflexivity|].
    cbn. rewrite !Z.eqb_refl. exact Hall.
Qed.

Lemma run_pass_events c a exit_code t :
  exists added,
    snd (run_pass sizeof_ul e c a exit_code t) = t ++ added /\
    forallb (test_event a) added = true.
Proof.
  unfold run_pass. cbv zeta.
  match goal with |- context [run_tests _ _ ?tbl ?i1 ?m ?a1 ?c1 ?t1] =>
    destruct (run_tests_events tbl i1 m a1 c1 t1) as (added & -> & Hall) end.
  eexists. rewrite <- app_assoc. split; [reflexivity|]. exact Hall.
Qed.

Lemma run_loops_events fuel : forall c a loop exit_code t,
  exists added,
    trace_of (run_loops sizeof_ul e fuel c a loop exit_code t) = t ++ added /\
    forallb (test_event a) added = true.
Proof.
  induction fuel as [|fuel IH]; intros c a loop exit_code t; cbn [run_loops].
  - exists []. rewrite app_nil_r. destruct (_ || _); auto.
  - destruct (_ || _); [|exists []; rewrite app_nil_r; auto].
    destruct (run_pass_events c a exit_code t) as (added1 & H1 & Hall1).
    destruct (run_pass sizeof_ul e c a exit_code t) as [code1 t1].
    cbn [snd] in H1. subst t1.
    destruct (IH c a (to_ul sizeof_ul (loop + 1)) code1 (t ++ added1))
      as (added2 & -> & Hall2).
    exists (added1 ++ added2). rewrite app_assoc. split; [reflexivity|].
    rewrite forallb_app, Hall1, Hall2. reflexivity.
Qed.

(** ** The heap path and the heap *)

Lemma heap_run_snoc t ev : heap_run (t ++ [ev]) = heap_step (heap_run t) ev.
Proof. unfold heap_run. rewrite fold_left_app. reflexivity. Qed.

Lemma heap_run_tests a added : forall t,
  heap_run t = Some (held a) ->
  (buf a = NULL -> wantbytes a = 0) ->
  forallb (test_event a) added = true ->
  heap_run (t ++ added) = Some (held a).
Proof.
  induction added as [|ev added IH]; intros t Ht Hz Hall.
  - rewrite app_nil_r. exact Ht.
  - cbn [forallb] in Hall. apply andb_true_iff in Hall as [Hev Hall].
    change (ev :: added) with ([ev] ++ added). rewrite app_assoc.
    apply IH; [|exact Hz|exact Hall].
    rewrite heap_run_snoc, Ht.
    destruct ev; try discriminate; try reflexivity.
    cbn in Hev. apply andb_true_iff in Hev as [Hp Hl].
    apply Z.eqb_eq in Hp, Hl. subst ptr len.
    unfold held. cbn. destruct (Z.eqb_spec (buf a) NULL) as [E | _].
    + rewrite (Hz E). reflexivity.
    + rewrite !Z.eqb_refl. reflexivity.
Qed.

Lemma heap_ok_of t blk : heap_run t = Some blk -> heap_ok t = true.
Proof. intros H. unfold heap_ok. rewrite H. reflexivity. Qed.

Lemma malloc_loop_heap fuel : forall a t,
  heap_run t = Some (held a) ->
  match malloc_loop e fuel a t with
  | Done a1 t1 =>
    heap_run t1 = Some (held a1) /\ (buf a1 = NULL -> wantbytes a1 = 0)
  | Exit _ t1 | OutOfFuel t1 => heap_ok t1 = true
  end.
Proof.
  induction fuel as [|fuel IH]; intros a t H; cbn [malloc_loop];
    destruct ((buf a =? NULL) && negb (wantbytes a =? 0)) eqn:C.
  - exact (heap_ok_of _ _ H).
  - split; [exact H|]. intros Hb. rewrite Hb in C. cbn in C.
    apply negb_false_iff, Z.eqb_eq in C. exact C.
  - apply IH. apply andb_true_iff in C as [Cb _].
    rewrite heap_run_snoc, H. unfold held. rewrite Cb.
    cbn [heap_step buf set_buf].
    destruct (to_size (malloc_ret e t (wantbytes a)) =? NULL) eqn:Hr;
      cbn [buf wantbytes set_buf set_wantbytes]; rewrite Hr; reflexivity.
  - split; [exact H|]. intros Hb. rewrite Hb in C. cbn in C.
    apply negb_false_iff, Z.eqb_eq in C. exact C.
Qed.

Lemma held_align a : held (align a) = held a.
Proof.
  destruct (align_keeps a) as (Hb & _ & Hw & _). unfold held.
  rewrite Hb, Hw. reflexivity.
Qed.

Lemma alloc_using_malloc_heap fuel a orig t :
  heap_run t = Some (held a) ->
  match alloc_using_malloc e fuel a orig t with
  | Done (d, a') t' =>
    heap_run t' = Some (held a') /\
    (d <> 0 -> buf a' = NULL -> wantbytes a' = 0)
  | Exit _ t' | OutOfFuel t' => heap_ok t' = true
  end.
Proof.
  intros H. unfold alloc_using_malloc.
  pose proof (malloc_loop_heap fuel a t H) as Hl.
  destruct (malloc_loop e fuel a t) as [a1 t1| |]; try exact Hl.
  destruct Hl as [H1 Hz].
  set (a2 := set_bufsize (to_int (wantbytes a1)) a1).
  assert (E2 : held a2 = held a1) by reflexivity.
  destruct (align_keeps a2) as (Kb & _ & Kw & _).
  cbn [buf wantbytes set_bufsize a2] in Kb, Kw.
  destruct (do_mlock a2).
  - cbv zeta.
    assert (Hm : forall err,
      heap_run (t1 ++ [EvMlock (aligned (align a2)) (to_size (bufsize (align a2))) err])
      = Some (held a1)).
    { intros err. rewrite heap_run_snoc, H1. reflexivity. }
    assert (Hf : forall err,
      heap_run ((t1 ++ [EvMlock (aligned (align a2))
                          (to_size (bufsize (align a2))) err])
                ++ [EvFree (buf a1)]) = Some None).
    { intros err. rewrite heap_run_snoc, Hm. unfold held.
      destruct (Z.eqb_spec (buf a1) NULL) as [E | NE]; cbn.
      - rewrite E. reflexivity.
      - rewrite Z.eqb_refl. reflexivity. }
    destruct (mlock_ret e t1 _ _) as [errno|].
    + destruct ((errno =? EAGAIN) || (errno =? ENOMEM)).
      * cbn [buf set_buf]. rewrite Kb. split; [apply Hf | intros C; contradiction].
      * destruct (errno =? EPERM).
        -- cbn [buf set_buf set_do_mlock]. rewrite Kb.
           split; [apply Hf | intros C; contradiction].
        -- split.
           ++ rewrite Hm. unfold held. cbn. rewrite Kb, Kw. reflexivity.
           ++ cbn. rewrite Kb, Kw. intros _. exact Hz.
    + split.
      * rewrite Hm. unfold held. rewrite Kb, Kw. reflexivity.
      * rewrite Kb, Kw. intros _. exact Hz.
  - split; [rewrite E2; exact H1 | intros _; exact Hz].
Qed.

Lemma malloc_rounds_heap fuel rounds : forall a orig t,
  heap_run t = Some (held a) ->
  match malloc_rounds e fuel rounds a orig t with
  | Done a' t' =>
    heap_run t' = Some (held a') /\ (buf a' = NULL -> wantbytes a' = 0)
  | Exit _ t' | OutOfFuel t' => heap_ok t' = true
  end.
Proof.
  induction rounds as [|rounds IH]; intros a orig t H; cbn [malloc_rounds].
  - exact (heap_ok_of _ _ H).
  - pose proof (alloc_using_malloc_heap fuel a orig t H) as Hr.
    destruct (alloc_using_malloc e fuel a orig t) as [[d a1] t1| |];
      try exact Hr.
    destruct Hr as [H1 Hz].
    destruct (Z.eqb_spec d 0) as [_ | Hd]; [apply IH; exact H1|].
    split; [exact H1 | exact (Hz Hd)].
Qed.

Lemma acquire_heap fuel c :
  cfg_use_hugepages c = false -> cfg_use_phys c = false ->
  match acquire e fuel c with
  | Done a t =>
    heap_run t = Some (held a) /\ (buf a = NULL -> wantbytes a = 0)
  | Exit _ t | OutOfFuel t => heap_ok t = true
  end.
Proof.
  intros Hh Hp. destruct (acquire_cases e fuel c) as [-> | ->]; [reflexivity|].
  unfold acquire_from. rewrite Hp. cbn [alloc_ready use_hugepages]. rewrite Hh.
  pose proof (malloc_rounds_heap fuel fuel (alloc_ready e c)
                (to_size (cfg_wantbytes c)) [] eq_refl) as Hr.
  destruct (malloc_rounds e fuel fuel _ _ _) as [a t| |]; try exact Hr.
  destruct Hr as [H1 Hz]. cbv beta iota. rewrite held_align.
  destruct (align_keeps a) as (Kb & _ & Kw & _). rewrite Kb, Kw. auto.
Qed.

(** X6.  The heap path keeps its heap in order.  Whatever [malloc] and
    [mlock] answer and however far the run gets, [malloc] is only called
    when no block is held, [free] is only called on the block held (or on
    the null pointer when there is none), and every [memset] after a test
    writes exactly the block held, from its start and at the size that
    was asked of [malloc] (and no byte when the allocation ended with
    nothing). *)
Theorem heap_path_keeps_heap_in_order : forall fuel c,
  cfg_use_hugepages c = false -> cfg_use_phys c = false ->
  heap_ok (trace_of (main sizeof_ul e fuel c)) = true.
Proof.
  intros fuel c Hh Hp. unfold main.
  pose proof (acquire_heap fuel c Hh Hp) as Ha.
  destruct (acquire e fuel c) as [a t| |]; try exact Ha.
  destruct Ha as [H1 Hz].
  destruct (run_loops_events fuel c a 1 0 t) as (added & Ht & Hall).
  pose proof (heap_run_tests a added t H1 Hz Hall) as H2.
  destruct (run_loops sizeof_ul e fuel c a 1 0 t) as [code t1|code t1|t1];
    cbn [trace_of] in Ht |- *; subst t1; try exact (heap_ok_of _ _ H2).
  destruct (do_mlock a); [|exact (heap_ok_of _ _ H2)].
  apply (heap_ok_of _ (held a)). rewrite heap_run_snoc, H2. reflexivity.
Qed.

(** ** The heap path and pinning *)

Lemma pin_run_snoc t ev : pin_run (t ++ [ev]) = pin_step (pin_run t) ev.
Proof. unfold pin_run. rewrite fold_left_app. reflexivity. Qed.

Lemma pin_ok_of t s : pin_run t = Some s -> pin_ok t = true.
Proof. intros H. unfold pin_ok. rewrite H. reflexivity. Qed.

Lemma pin_run_tests a s added : forall t,
  pin_run t = Some s -> s <> PinNone ->
  forallb (test_event a) added = true ->
  pin_run (t ++ added) = Some s.
Proof.
  induction added as [|ev added IH]; intros t Ht Hs Hall.
  - rewrite app_nil_r. exact Ht.
  - cbn [forallb] in Hall. apply andb_true_iff in Hall as [Hev Hall].
    change (ev :: added) with ([ev] ++ added). rewrite app_assoc.
    apply IH; [|exact Hs|exact Hall].
    rewrite pin_run_snoc, Ht.
    destruct ev; try discriminate; destruct s; try reflexivity; contradiction.
Qed.

Lemma malloc_loop_pin fuel : forall a t s,
  pin_run t = Some s -> s <> PinLocked ->
  match malloc_loop e fuel a t with
  | Done a1 t1 => pin_run t1 = Some s
  | Exit _ t1 | OutOfFuel t1 => pin_ok t1 = true
  end.
Proof.
  induction fuel as [|fuel IH]; intros a t s H Hs; cbn [malloc_loop];
    destruct ((buf a =? NULL) && negb (wantbytes a =? 0));
    try exact H; try exact (pin_ok_of _ _ H).
  apply IH; [|exact Hs]. rewrite pin_run_snoc, H.
  destruct s; try reflexivity; contradiction.
Qed.

Lemma alloc_using_malloc_pin fuel a orig t :
  pin_run t = Some (if do_mlock a then PinNone else PinOff) ->
  match alloc_using_malloc e fuel a orig t with
  | Done (d, a') t' =>
    pin_run t' = Some (if do_mlock a'
                       then if d =? 0 then PinNone else PinLocked
                       else PinOff)
  | Exit _ t' | OutOfFuel t' => pin_ok t' = true
  end.
Proof.
  intros H. unfold alloc_using_malloc.
  assert (Hs : (if do_mlock a then PinNone else PinOff) <> PinLocked)
    by (destruct (do_mlock a); discriminate).
  pose proof (malloc_loop_pin fuel a t _ H Hs) as Hl.
  pose proof (malloc_loop_fields e fuel a t) as Hf.
  destruct (malloc_loop e fuel a t) as [a1 t1| |]; try exact Hl.
  destruct (Hf a1 t1 eq_refl) as (Hd & _).
  set (a2 := set_bufsize (to_int (wantbytes a1)) a1).
  destruct (align_keeps a2) as (_ & Kd & _).
  cbn [do_mlock set_bufsize a2] in Kd.
  change (do_mlock a2) with (do_mlock a1). rewrite Hd.
  destruct (do_mlock a) eqn:Hlock.
  - cbv zeta.
    destruct (mlock_ret e t1 _ _) as [errno|].
    + destruct ((errno =? EAGAIN) || (errno =? ENOMEM)) eqn:Hretry.
      * cbn [do_mlock set_buf set_wantbytes]. rewrite Kd, Hd.
        rewrite !pin_run_snoc, Hl. cbn. rewrite Hretry. reflexivity.
      * destruct (errno =? EPERM); cbn [do_mlock set_buf set_wantbytes set_do_mlock];
          rewrite !pin_run_snoc, Hl; cbn; rewrite Hretry; reflexivity.
    + rewrite Kd, Hd. rewrite pin_run_snoc, Hl. reflexivity.
  - change (do_mlock a2) with (do_mlock a1). rewrite Hd. exact Hl.
Qed.

Lemma malloc_rounds_pin fuel rounds : forall a orig t,
  pin_run t = Some (if do_mlock a then PinNone else PinOff) ->
  match malloc_rounds e fuel rounds a orig t with
  | Done a' t' => pin_run t' = Some (if do_mlock a' then PinLocked else PinOff)
  | Exit _ t' | OutOfFuel t' => pin_ok t' = true
  end.
Proof.
  induction rounds as [|rounds IH]; intros a orig t H; cbn [malloc_rounds].
  - exact (pin_ok_of _ _ H).
  - pose proof (alloc_using_malloc_pin fuel a orig t H) as Hr.
    destruct (alloc_using_malloc e fuel a orig t) as [[d a1] t1| |];
      try exact Hr.
    destruct (d =? 0); [apply IH|]; exact Hr.
Qed.

Lemma acquire_pin fuel c :
  cfg_use_hugepages c = false -> cfg_use_phys c = false ->
  match acquire e fuel c with
  | Done a t => pin_run t = Some (if do_mlock a then PinLocked else PinOff)
  | Exit _ t | OutOfFuel t => pin_ok t = true
  end.
Proof.
  intros Hh Hp. destruct (acquire_cases e fuel c) as [-> | ->]; [reflexivity|].
  unfold acquire_from. rewrite Hp. cbn [alloc_ready use_hugepages]. rewrite Hh.
  pose proof (malloc_rounds_pin fuel fuel (alloc_ready e c)
                (to_size (cfg_wantbytes c)) [] eq_refl) as Hr.
  destruct (malloc_rounds e fuel fuel _ _ _) as [a t| |]; try exact Hr.
  destruct (align_keeps a) as (_ & Kd & _). rewrite Kd. exact Hr.
Qed.

(** X7.  The heap path and pinning.  Whatever [malloc] and [mlock] answer
    and however far the run gets: [mlock] is never called on a buffer
    that is pinned, nor again once it has failed for another reason than
    [EAGAIN] or [ENOMEM]; a pinned buffer is never freed or replaced; no
    test runs, and nothing is written by [memset], before [mlock] has
    succeeded or pinning has been given up; and [munlock] is only called
    when the last [mlock] succeeded. *)
Theorem heap_path_pins_before_testing : forall fuel c,
  cfg_use_hugepages c = false -> cfg_use_phys c = false ->
  pin_ok (trace_of (main sizeof_ul e fuel c)) = true.
Proof.
  intros fuel c Hh Hp. unfold main.
  pose proof (acquire_pin fuel c Hh Hp) as Ha.
  destruct (acquire e fuel c) as [a t| |]; try exact Ha.
  destruct (run_loops_events fuel c a 1 0 t) as (added & Ht & Hall).
  assert (Hs : (if do_mlock a then PinLocked else PinOff) <> PinNone)
    by (destruct (do_mlock a); discriminate).
  pose proof (pin_run_tests a _ added t Ha Hs Hall) as H2.
  destruct (run_loops sizeof_ul e fuel c a 1 0 t) as [code t1|code t1|t1];
    cbn [trace_of] in Ht |- *; subst t1; try exact (pin_ok_of _ _ H2).
  destruct (do_mlock a); [|exact (pin_ok_of _ _ H2)].
  apply (pin_ok_of _ PinNone). rewrite pin_run_snoc, H2. reflexivity.
Qed.


(** ** The [malloc] loop on a request that is not whole pages *)

Lemma to_size_mod_page k x : 0 <= k < 64 -> to_size x mod 2 ^ k = x mod 2 ^ k.
Proof.
  intros Hk. unfold to_size. apply Z.mod_mod_divide.
  exists (2 ^ (64 - k)). rewrite <- Z.pow_add_r by lia. f_equal. lia.
Qed.

Lemma malloc_loop_wraps k fuel : forall a t,
  0 <= k < 64 ->
  (forall t s, to_size (malloc_ret e t s) = NULL) ->
  buf a = NULL -> pagesize a = 2 ^ k -> wantbytes a mod 2 ^ k <> 0 ->
  exists added,
    malloc_loop e fuel a t = OutOfFuel (t ++ added) /\
    length added = fuel /\ forallb failed_malloc added = true.
Proof.
  intros a t Hk Hfail. revert a t.
  induction fuel as [|fuel IH]; intros a t Hb Hp Hw; cbn [malloc_loop];
    assert (C : (buf a =? NULL) && negb (wantbytes a =? 0) = true)
      by (rewrite Hb; cbn; apply negb_true_iff, Z.eqb_neq; intros E;
          rewrite E in Hw; apply Hw; apply Z.mod_0_l;
          pose proof (pow2_k_bounds k Hk); lia);
    rewrite C.
  - exists []. rewrite app_nil_r. auto.
  - rewrite Hfail. cbn [buf set_buf]. rewrite Z.eqb_refl.
    destruct (IH (set_wantbytes (to_size (wantbytes (set_buf NULL a)
                                          - pagesize (set_buf NULL a)))
                    (set_buf NULL a))
                 (t ++ [EvMalloc (wantbytes a) NULL]))
      as (added & -> & Hlen & Hall).
    + reflexivity.
    + exact Hp.
    + cbn [wantbytes pagesize set_buf set_wantbytes].
      rewrite to_size_mod_page by exact Hk. rewrite Hp.
      rewrite Zminus_mod, Z.mod_same, Z.sub_0_r, Z.mod_mod
        by (pose proof (pow2_k_bounds k Hk); lia).
      exact Hw.
    + exists (EvMalloc (wantbytes a) NULL :: added).
      rewrite <- app_assoc. split; [reflexivity|]. cbn [length forallb failed_malloc].
      rewrite Hlen, Hall. auto.
Qed.

(** X8.  A request that is not a whole number of pages never comes down
    to nothing: [wantbytes -= pagesize] wraps around below zero and
    [wantbytes] is never 0.  So when [malloc] fails every time, the
    [malloc] loop does not end: for every number of steps, the run is
    still in the loop after that many steps, each of them a failed
    [malloc]. *)
Theorem malloc_loop_never_gives_up : forall k fuel c,
  0 <= k < 64 -> sysconf_pagesize e = 2 ^ k ->
  cfg_use_hugepages c = false -> cfg_use_phys c = false ->
  2 ^ k <= to_size (cfg_wantbytes c) ->
  to_size (cfg_wantbytes c) mod 2 ^ k <> 0 ->
  (forall t s, to_size (malloc_ret e t s) = NULL) ->
  exists t,
    acquire e fuel c = OutOfFuel t /\
    length t = fuel /\ forallb failed_malloc t = true.
Proof.
  intros k fuel c Hk Hsys Hh Hp Hsize Hmod Hfail.
  pose proof (pow2_k_bounds k Hk) as Hb.
  assert (Hps : page_size_of e c = 2 ^ k).
  { unfold page_size_of. rewrite Hh, Hsys. apply to_size_small. lia. }
  rewrite acquire_ready.
  2:{ rewrite Hsys, to_size_small by lia. change (to_size (-1)) with (2 ^ 64 - 1).
      assert (2 ^ k < 2 ^ 63 \/ k = 63) as [Hlt | ->] by
        (destruct (Z.eq_dec k 63); [auto | left; apply Z.pow_lt_mono_r; lia]);
        lia. }
  2:{ rewrite Hps. exact Hsize. }
  unfold acquire_from. rewrite Hp. cbn [alloc_ready use_hugepages]. rewrite Hh.
  destruct fuel as [|fuel]; [exists []; auto|].
  cbn [malloc_rounds]. unfold alloc_using_malloc.
  destruct (malloc_loop_wraps k (S fuel) (alloc_ready e c) [] Hk Hfail)
    as (added & -> & Hlen & Hall).
  - reflexivity.
  - exact Hps.
  - exact Hmod.
  - exists added. auto.
Qed.

(** ** [bufsize] is an [int] *)

(** X9.  [bufsize] holds the size that was granted as an [int].  On the
    heap path, when the first [malloc] returns a page-aligned block of
    the whole request and [mlock] (called on [bufsize] bytes) succeeds,
    the block is accepted and [bufsize] is the request converted to
    [int]: the request itself below 2 GB, but 0 for a request that is a
    multiple of 4 GB, and then every test of every pass is run on no
    words at all. *)
Theorem heap_bufsize_is_an_int : forall k fuel c,
  0 <= k < 64 -> sysconf_pagesize e = 2 ^ k ->
  cfg_use_hugepages c = false -> cfg_use_phys c = false ->
  let size := to_size (cfg_wantbytes c) in
  let r := to_size (malloc_ret e [] size) in
  2 ^ k <= size -> r <> NULL -> r mod 2 ^ k = 0 ->
  mlock_ret e [EvMalloc size r] r (to_size (to_int size)) = None ->
  (1 <= fuel)%nat ->
  exists a,
    acquire e fuel c
      = Done a [EvMalloc size r; EvMlock r (to_size (to_int size)) None] /\
    buf a = r /\ aligned a = r /\ wantbytes a = size /\ do_mlock a = true /\
    bufsize a = to_int size /\
    (size < 2 ^ 31 -> bufsize a = size) /\
    (size mod 2 ^ 32 = 0 ->
     bufsize a = 0 /\
     Forall (fun call => call_count call = 0) (pass_calls sizeof_ul c a)).
Proof.
  intros k fuel c Hk Hsys Hh Hp size r Hsize Hr Hal Hlock Hfuel.
  pose proof (pow2_k_bounds k Hk) as Hb.
  pose proof (to_size_range (cfg_wantbytes c)) as Hrange. fold size in Hrange.
  assert (Hps : page_size_of e c = 2 ^ k).
  { unfold page_size_of. rewrite Hh, Hsys. apply to_size_small. lia. }
  rewrite acquire_ready.
  2:{ rewrite Hsys, to_size_small by lia. change (to_size (-1)) with (2 ^ 64 - 1).
      assert (2 ^ k < 2 ^ 63 \/ k = 63) as [Hlt | ->] by
        (destruct (Z.eq_dec k 63); [auto | left; apply Z.pow_lt_mono_r; lia]);
        lia. }
  2:{ rewrite Hps. exact Hsize. }
  unfold acquire_from. rewrite Hp. cbn [alloc_ready use_hugepages]. rewrite Hh.
  destruct fuel as [|fuel]; [lia|].
  cbn [malloc_rounds]. unfold alloc_using_malloc.
  assert (Hsz : (size =? 0) = false) by (apply Z.eqb_neq; lia).
  assert (Hrz : (r =? NULL) = false) by (apply Z.eqb_neq; exact Hr).
  assert (Hloop : malloc_loop e (S fuel) (alloc_ready e c) []
                  = Done (set_buf r (alloc_ready e c)) [EvMalloc size r]).
  { cbn [malloc_loop alloc_ready buf wantbytes]. fold size. rewrite Hsz.
    cbn [andb negb Z.eqb NULL app]. fold r. cbn [buf set_buf]. rewrite Hrz.
    destruct fuel; cbn [malloc_loop buf set_buf]; rewrite Hrz; reflexivity. }
  rewrite Hloop.
  set (a2 := set_bufsize (to_int (wantbytes (set_buf r (alloc_ready e c))))
               (set_buf r (alloc_ready e c))).
  assert (Ha : align a2 = set_aligned r a2).
  { apply align_aligned. cbn [buf pagesize a2 set_bufsize set_buf alloc_ready].
    rewrite Hps. exact Hal. }
  assert (Ha' : align (set_aligned r a2) = set_aligned r a2).
  { rewrite align_aligned; [reflexivity|].
    cbn [buf pagesize a2 set_bufsize set_buf set_aligned alloc_ready].
    rewrite Hps. exact Hal. }
  change (do_mlock a2) with true. cbv iota zeta. rewrite Ha.
  change (aligned (set_aligned r a2)) with r.
  change (bufsize (set_aligned r a2)) with (to_int size).
  change ([] ++ [EvMalloc size r]) with [EvMalloc size r].
  rewrite Hlock. cbn [Z.eqb]. cbv iota. rewrite Ha'.
  eexists. split; [reflexivity|].
  assert (Hz : size mod 2 ^ 32 = 0 -> to_int size = 0).
  { intros H. unfold to_int. apply Z.mod_divide in H; [|lia].
    destruct H as [q Hq]. rewrite Hq.
    replace (q * 2 ^ 32 + 2 ^ 31) with (2 ^ 31 + q * 2 ^ 32) by lia.
    rewrite Z.mod_add by lia. reflexivity. }
  repeat split; try reflexivity.
  - intros Hlt. apply to_int_small. lia.
  - apply Hz. assumption.
  - apply pass_calls_no_words. apply Hz. assumption.
Qed.

(** ** [memset] with [-p] and [-H] together *)

Lemma memsets_app t1 t2 : memsets (t1 ++ t2) = memsets t1 ++ memsets t2.
Proof. unfold memsets. apply flat_map_app. Qed.

Lemma memsets_test_events a added :
  forallb (test_event a) added = true ->
  Forall (fun pl => pl = (buf a, wantbytes a)) (memsets added).
Proof.
  induction added as [|ev added IH]; intros Hall; [constructor|].
  cbn [forallb] in Hall. apply andb_true_iff in Hall as [Hev Hall].
  specialize (IH Hall).
  destruct ev; try discriminate; cbn; try exact IH.
  cbn in Hev. apply andb_true_iff in Hev as [Hp Hl].
  apply Z.eqb_eq in Hp, Hl. subst. constructor; [reflexivity | exact IH].
Qed.

(** X10.  [-p] together with [-H], for a size that is not a multiple of
    2 MB.  The device is mapped at the size that was asked for;
    [alloc_using_hugepages] then finds a buffer, maps nothing, but has
    already rounded [wantbytes] up to whole huge pages.  Every [memset]
    after a test is made from the start of the mapping with this rounded
    length, which is more than was mapped. *)
Theorem phys_hugepages_memset_overruns : forall fuel c,
  cfg_use_phys c = true -> cfg_use_hugepages c = true ->
  to_size (sysconf_pagesize e) <> to_size (-1) ->
  let size := to_size (cfg_wantbytes c) in
  let page := 2 * 1024 * 1024 in
  let base := cfg_physaddrbase c in
  let fd := to_int (open_ret e []) in
  let r := to_size (mmap_phys_ret e [EvOpen fd] size base) in
  let err := mlock_ret e [EvOpen fd; EvMmapPhys size base r] r size in
  let rounded := (size / page + 1) * page in
  page <= size -> size mod page <> 0 -> rounded < 2 ^ 64 ->
  fd <> -1 -> r <> MAP_FAILED -> r <> NULL ->
  size < rounded /\
  (exists a,
     acquire e fuel c
       = Done a [EvOpen fd; EvMmapPhys size base r; EvMlock r size err] /\
     buf a = r /\ wantbytes a = rounded) /\
  Forall (fun pl => pl = (r, rounded))
         (memsets (trace_of (main sizeof_ul e fuel c))).
Proof.
  intros fuel c Hphys Hhuge Hsys size page base fd r err rounded
         Hsize Hmod Hfit Hfd Hr Hnull.
  assert (Hlt : size < rounded).
  { unfold rounded. pose proof (Z.div_mod size page ltac:(unfold page; lia)).
    pose proof (Z.mod_pos_bound size page ltac:(unfold page; lia)). lia. }
  assert (Hps : page_size_of e c = page)
    by (unfold page_size_of; rewrite Hhuge; reflexivity).
  assert (Hacq : exists a,
     acquire e fuel c
       = Done a [EvOpen fd; EvMmapPhys size base r; EvMlock r size err] /\
     buf a = r /\ wantbytes a = rounded).
  { rewrite acquire_ready; [|exact Hsys|rewrite Hps; exact Hsize].
    unfold acquire_from. rewrite Hphys, phys_map_spec.
    cbn [wantbytes buf alloc_ready app do_mlock use_hugepages pagesize
         pagesizemask].
    fold size base fd. fold r. fold err.
    apply Z.eqb_neq in Hfd, Hr. rewrite Hfd, Hr. cbn [use_hugepages].
    rewrite Hhuge. unfold alloc_using_hugepages.
    cbn [wantbytes pagesize]. rewrite Hps.
    apply Z.eqb_neq in Hmod. rewrite Hmod. cbn [negb].
    rewrite hugepages_loop_has_buf by exact Hnull.
    eexists. split; [reflexivity|].
    match goal with |- context [align ?x] =>
      destruct (align_keeps x) as (-> & _ & -> & _) end.
    cbn. split; [reflexivity|]. apply to_size_small.
    fold page. fold rounded. lia. }
  split; [exact Hlt|]. split; [exact Hacq|].
  destruct Hacq as (a & Ha & Hb & Hw). unfold main. rewrite Ha.
  destruct (run_loops_events fuel c a 1 0
              [EvOpen fd; EvMmapPhys size base r; EvMlock r size err])
    as (added & Ht & Hall).
  apply memsets_test_events in Hall. rewrite Hb, Hw in Hall.
  destruct (run_loops sizeof_ul e fuel c a 1 0 _) as [code t1|code t1|t1];
    cbn [trace_of] in Ht |- *; subst t1;
    try (destruct (do_mlock a); [rewrite memsets_app, app_nil_r|]);
    rewrite memsets_app; exact Hall.
Qed.

(** ** Where the tested region starts *)

Lemma hugepages_loop_page fuel free : forall a t a' t',
  hugepages_loop e fuel free a t = Done a' t' ->
  pagesize a' = pagesize a /\ pagesizemask a' = pagesizemask a /\
  do_mlock a' = do_mlock a /\
  (0 <= buf a < 2 ^ 64 -> 0 <= buf a' < 2 ^ 64).
Proof.
  induction fuel as [|fuel IH]; intros a t a' t' H; cbn [hugepages_loop] in H;
    destruct ((buf a =? NULL) && negb (wantbytes a =? 0));
    try discriminate; try (injection H as <- <-; tauto).
  cbv zeta in H.
  destruct ((to_size (fst (mmap_huge_ret e t (wantbytes a))) =? MAP_FAILED)
            && (snd (mmap_huge_ret e t (wantbytes a)) =? ENOMEM)).
  - destruct ((0 <? free) && _).
    + destruct (_ <? _).
      * injection H as <- <-. cbn. repeat split; auto; unfold NULL; lia.
      * apply IH in H. cbn in H. destruct H as (A & B & C & D).
        split; [exact A|split; [exact B|split; [exact C|]]].
        intros _. apply D. unfold NULL. lia.
    + destruct (_ <? _).
      * injection H as <- <-. cbn. repeat split; auto; unfold NULL; lia.
      * apply IH in H. cbn in H. destruct H as (A & B & C & D).
        split; [exact A|split; [exact B|split; [exact C|]]].
        intros _. apply D. unfold NULL. lia.
  - destruct (_ =? MAP_FAILED); [discriminate|].
    apply IH in H. cbn in H. destruct H as (A & B & C & D).
    pose proof (to_size_range (fst (mmap_huge_ret e t (wantbytes a)))).
    split; [exact A|split; [exact B|split; [exact C|]]].
    intros _. apply D. lia.
Qed.

Lemma alloc_using_malloc_buf fuel a orig t d a' t' :
  alloc_using_malloc e fuel a orig t = Done (d, a') t' ->
  0 <= buf a < 2 ^ 64 -> 0 <= buf a' < 2 ^ 64.
Proof.
  intros H Hb. unfold alloc_using_malloc in H.
  destruct (malloc_loop e fuel a t) as [a1 t1| |] eqn:Hloop; try discriminate.
  destruct (malloc_loop_fields e _ _ _ _ _ Hloop) as (_ & _ & _ & _ & _ & _ & Hr).
  specialize (Hr Hb).
  destruct (align_keeps (set_bufsize (to_int (wantbytes a1)) a1)) as (Kb & _).
  cbn [buf set_bufsize] in Kb.
  destruct (do_mlock _).
  - cbv zeta in H. destruct (mlock_ret e t1 _ _) as [errno|].
    + destruct ((errno =? EAGAIN) || (errno =? ENOMEM));
        [|destruct (errno =? EPERM)]; injection H as <- <- <-; cbn;
        try rewrite Kb; try exact Hr; unfold NULL; lia.
    + injection H as <- <- <-. rewrite Kb. exact Hr.
  - injection H as <- <- <-. exact Hr.
Qed.

Lemma malloc_rounds_page fuel rounds : forall a orig t a' t',
  malloc_rounds e fuel rounds a orig t = Done a' t' ->
  pagesize a' = pagesize a /\ pagesizemask a' = pagesizemask a /\
  (0 <= buf a < 2 ^ 64 -> 0 <= buf a' < 2 ^ 64).
Proof.
  induction rounds as [|rounds IH]; intros a orig t a' t' H;
    cbn [malloc_rounds] in H; [discriminate|].
  destruct (alloc_using_malloc e fuel a orig t) as [[d a1] t1| |] eqn:Hr;
    try discriminate.
  destruct (alloc_using_malloc_keeps e _ _ _ _ _ _ _ Hr) as (Kp & Km & _).
  pose proof (alloc_using_malloc_buf _ _ _ _ _ _ _ Hr) as Kb.
  destruct (d =? 0).
  - apply IH in H. destruct H as (-> & -> & Hb). auto.
  - injection H as <- <-. auto.
Qed.

Lemma acquire_from_page fuel c a t a' t' :
  acquire_from e fuel c a t = Done a' t' ->
  0 <= buf a < 2 ^ 64 ->
  exists a5, a' = align a5 /\ pagesize a5 = pagesize a /\
             pagesizemask a5 = pagesizemask a /\ 0 <= buf a5 < 2 ^ 64.
Proof.
  intros H Hb. unfold acquire_from in H.
  assert (H4 : exists a4 t4,
    (if cfg_use_phys c then phys_map e (cfg_physaddrbase c) a t else Done a t)
    = Done a4 t4 /\ pagesize a4 = pagesize a /\
    pagesizemask a4 = pagesizemask a /\ 0 <= buf a4 < 2 ^ 64).
  { destruct (cfg_use_phys c); [|eauto 6].
    rewrite phys_map_spec in H |- *. cbv zeta in H |- *.
    destruct (_ =? -1); [discriminate|].
    destruct (_ =? MAP_FAILED); [discriminate|].
    eexists. eexists. split; [reflexivity|]. cbn.
    repeat split; try apply to_size_range. }
  destruct H4 as (a4 & t4 & E4 & Hp4 & Hm4 & Hb4). rewrite E4 in H.
  destruct (use_hugepages a4).
  - unfold alloc_using_hugepages in H.
    destruct (hugepages_loop e fuel _ _ t4) as [a5 t5| |] eqn:Hl; try discriminate.
    injection H as <- <-. exists a5. split; [reflexivity|].
    apply hugepages_loop_page in Hl. destruct Hl as (Lp & Lm & _ & Lb).
    destruct (negb _); cbn in Lp, Lm, Lb; rewrite Lp, Lm; auto.
  - destruct (cfg_use_phys c).
    + injection H as <- <-. exists a4. auto.
    + destruct (malloc_rounds e fuel fuel a4 _ t4) as [a5 t5| |] eqn:Hl;
        try discriminate.
      injection H as <- <-. exists a5. split; [reflexivity|].
      apply malloc_rounds_page in Hl. destruct Hl as (Lp & Lm & Lb).
      rewrite Lp, Lm. auto.
Qed.

(** X11.  On every path (heap, huge pages, [-p]), with a page size
    [2^k]: when the allocation is done, the region that is handed to the
    tests starts on a page boundary, at the buffer or less than a page
    after its start. *)
Theorem tested_region_starts_on_page_boundary : forall k fuel c a t,
  0 <= k < 64 -> page_size_of e c = 2 ^ k ->
  acquire e fuel c = Done a t ->
  pagesize a = 2 ^ k /\
  aligned a mod 2 ^ k = 0 /\
  0 <= to_size (aligned a - buf a) < 2 ^ k.
Proof.
  intros k fuel c a t Hk Hps H.
  pose proof (pow2_k_bounds k Hk) as Hpk.
  destruct (acquire_cases e fuel c) as [E | E]; rewrite E in H; [discriminate|].
  apply acquire_from_page in H; [|cbn; unfold NULL; lia].
  destruct H as (a5 & -> & Hp & Hm & Hb).
  cbn [pagesize pagesizemask alloc_ready] in Hp, Hm. rewrite Hps in Hp, Hm.
  assert (Hok : page_ok k a5) by (split; [exact Hk | split; assumption]).
  destruct (align_keeps a5) as (Kb & _ & _ & Kp & _). rewrite Kb, Kp.
  split; [exact Hp|].
  destruct (Z.eq_dec (buf a5 mod pagesize a5) 0) as [Hz | Hnz].
  - rewrite (align_aligned a5 Hz). cbn [aligned set_aligned].
    rewrite <- Hp. split; [exact Hz|].
    rewrite Z.sub_diag. cbn. rewrite Hp. lia.
  - destruct (align_unaligned k a5 Hok Hb Hnz) as (-> & Hs).
    pose proof (skip_bounds k a5 Hok Hnz) as Hsk.
    cbn [aligned set_aligned set_bufsize]. rewrite Hs, <- Hp. split; [|lia].
    rewrite Hp, to_size_mod_page by exact Hk. unfold skip. rewrite Hp.
    pose proof (Z.div_mod (buf a5) (2 ^ k) ltac:(lia)) as Hd.
    replace (buf a5 + (2 ^ k - buf a5 mod 2 ^ k))
      with ((buf a5 / 2 ^ k + 1) * 2 ^ k) by lia.
    apply Z.mod_mul. lia.
Qed.

(** ** Huge pages and pinning *)

Lemma hugepages_loop_no_heap fuel free : forall a t,
  exists added,
    trace_of (hugepages_loop e fuel free a t) = t ++ added /\
    existsb heap_or_phys_event added = false.
Proof.
  induction fuel as [|fuel IH]; intros a t; cbn [hugepages_loop];
    destruct ((buf a =? NULL) && negb (wantbytes a =? 0));
    try (exists []; rewrite app_nil_r; auto; fail).
  cbv zeta.
  assert (Hone : forall a1, exists added,
    trace_of (hugepages_loop e fuel free a1
      (t ++ [EvMmapHuge (wantbytes a)
               (to_size (fst (mmap_huge_ret e t (wantbytes a))))
               (snd (mmap_huge_ret e t (wantbytes a)))])) = t ++ added /\
    existsb heap_or_phys_event added = false).
  { intros a1. destruct (IH a1 (t ++ [EvMmapHuge (wantbytes a)
               (to_size (fst (mmap_huge_ret e t (wantbytes a))))
               (snd (mmap_huge_ret e t (wantbytes a)))]))
      as (added & -> & Hno).
    eexists. rewrite <- app_assoc. split; [reflexivity|]. exact Hno. }
  destruct (_ && (_ =? ENOMEM)).
  - destruct (_ <? pagesize _); [|apply Hone].
    eexists. split; [reflexivity|]. reflexivity.
  - destruct (_ =? MAP_FAILED); [|apply Hone].
    eexists. split; [reflexivity|]. reflexivity.
Qed.

Lemma test_events_no_heap a added :
  forallb (test_event a) added = true ->
  existsb heap_or_phys_event added = false.
Proof.
  induction added as [|ev added IH]; intros Hall; [reflexivity|].
  cbn [forallb] in Hall. apply andb_true_iff in Hall as [Hev Hall].
  cbn [existsb]. rewrite (IH Hall).
  destruct ev; try discriminate; reflexivity.
Qed.

(** X12.  Huge pages (without [-p]) are never pinned: the run calls
    neither [mlock] nor [malloc], [free], [open] or the [mmap] of a
    device.  [do_mlock] is still set when the tests are over, though, so
    a run that ends calls [munlock] on the region just before it
    exits. *)
Theorem hugepages_not_pinned_yet_unpinned : forall fuel c,
  cfg_use_hugepages c = true -> cfg_use_phys c = false ->
  existsb heap_or_phys_event (trace_of (main sizeof_ul e fuel c)) = false /\
  (forall a t0 code t,
     acquire e fuel c = Done a t0 ->
     main sizeof_ul e fuel c = Exit code t ->
     do_mlock a = true /\
     exists t1, t = t1 ++ [EvMunlock (aligned a) (to_size (bufsize a))]).
Proof.
  intros fuel c Hh Hp.
  assert (Hacq : acquire e fuel c = Exit EXIT_FAIL_NONSTARTER [] \/
    exists added,
      existsb heap_or_phys_event added = false /\
      match acquire e fuel c with
      | Done a t => t = added /\ do_mlock a = true
      | Exit _ t | OutOfFuel t => t = added
      end).
  { destruct (acquire_cases e fuel c) as [-> | ->]; [left; reflexivity|].
    right. unfold acquire_from. rewrite Hp. cbn [alloc_ready use_hugepages].
    rewrite Hh. unfold alloc_using_hugepages.
    match goal with |- context [hugepages_loop e fuel ?f ?a1 ?t1] =>
      destruct (hugepages_loop_no_heap fuel f a1 t1) as (added & Ht & Hno);
      pose proof (hugepages_loop_page fuel f a1 t1) as Hpg;
      destruct (hugepages_loop e fuel f a1 t1) as [a5 t5|code t5|t5]
    end; cbn [trace_of app] in Ht; subst; exists added;
      (split; [exact Hno|]); try reflexivity.
    split; [reflexivity|].
    destruct (Hpg a5 added eq_refl) as (_ & _ & Hd & _).
    destruct (align_keeps a5) as (_ & -> & _). rewrite Hd.
    destruct (negb _); reflexivity. }
  destruct Hacq as [Hx | (added0 & Hno & Hm)].
  { unfold main. rewrite Hx. split; [reflexivity | discriminate]. }
  unfold main.
  destruct (acquire e fuel c) as [a t0|code0 t0|t0]; subst;
    try (split; [exact Hno | discriminate]).
  destruct Hm as [-> Hd].
  destruct (run_loops_events fuel c a 1 0 added0) as (added & Ht & Hall).
  apply test_events_no_heap in Hall.
  pose proof (run_loops_no_exit sizeof_ul e fuel c a 1 0 added0) as Hne.
  destruct (run_loops sizeof_ul e fuel c a 1 0 added0) as [code t1|code t1|t1];
    cbn [trace_of] in Ht |- *; subst t1.
  - rewrite Hd. split.
    + rewrite !existsb_app, Hno, Hall. reflexivity.
    + intros a' t0' code' t' Ea Em. injection Ea as <- <-.
      injection Em as <- <-. split; [exact Hd|]. eauto.
  - exfalso. exact (Hne _ _ eq_refl).
  - split; [rewrite existsb_app, Hno, Hall; reflexivity | discriminate].
Qed.

End LoopEvents.

(** ** From the command line to the allocation *)

Section Accepts.
Variable sizeof_ul : Z.
Variable e : env.

Lemma malloc_loop_no_exit fuel : forall a t code t',
  malloc_loop e fuel a t <> Exit code t'.
Proof.
  induction fuel as [|fuel IH]; intros a t code t'; cbn [malloc_loop];
    destruct ((buf a =? NULL) && negb (wantbytes a =? 0));
    try discriminate.
  apply IH.
Qed.

Lemma malloc_rounds_no_exit fuel rounds : forall a orig t code t',
  malloc_rounds e fuel rounds a orig t <> Exit code t'.
Proof.
  induction rounds as [|rounds IH]; intros a orig t code t';
    cbn [malloc_rounds]; [discriminate|].
  unfold alloc_using_malloc.
  pose proof (malloc_loop_no_exit fuel a t) as Hne.
  destruct (malloc_loop e fuel a t) as [a1 t1|c1 t1|t1];
    [|exfalso; exact (Hne _ _ eq_refl)|discriminate].
  destruct (do_mlock _).
  - cbv zeta. destruct (mlock_ret e t1 _ _) as [errno|].
    + destruct ((errno =? EAGAIN) || (errno =? ENOMEM)); [apply IH|].
      destruct (errno =? EPERM); [apply IH | discriminate].
    + discriminate.
  - discriminate.
Qed.

Lemma hugepages_loop_exit_nonempty fuel free : forall a t code t',
  hugepages_loop e fuel free a t = Exit code t' -> t' <> [].
Proof.
  induction fuel as [|fuel IH]; intros a t code t' H;
    cbn [hugepages_loop] in H;
    destruct ((buf a =? NULL) && negb (wantbytes a =? 0));
    try discriminate.
  cbv zeta in H.
  destruct ((_ =? MAP_FAILED) && (_ =? ENOMEM)).
  - destruct (_ <? pagesize _); [discriminate|]. exact (IH _ _ _ _ H).
  - destruct (_ =? MAP_FAILED); [|exact (IH _ _ _ _ H)].
    injection H as _ <-. intros E. apply app_eq_nil in E as [_ E]. discriminate.
Qed.

(** The allocation has called something when it ends, or it leaves
    [do_mlock] set, so that [munlock] is called before the exit. *)
Lemma acquire_from_started fuel c :
  match acquire_from e fuel c (alloc_ready e c) [] with
  | Done a t => t <> [] \/ do_mlock a = true
  | Exit _ t => t <> []
  | OutOfFuel _ => True
  end.
Proof.
  unfold acquire_from.
  destruct (cfg_use_phys c) eqn:Hp.
  - rewrite phys_map_spec. cbv zeta.
    destruct (_ =? -1); [cbn; discriminate|].
    destruct (_ =? MAP_FAILED); [cbn; discriminate|].
    cbn [use_hugepages].
    match goal with |- context [Done ?a4 ?t4] =>
      set (a0 := a4); set (t0 := t4) end.
    assert (Ht0 : t0 <> []).
    { unfold t0. intros E. apply app_eq_nil in E as [_ E]. discriminate. }
    destruct (use_hugepages (alloc_ready e c)).
    + unfold alloc_using_hugepages.
      match goal with |- context [hugepages_loop e fuel ?f ?a1 ?t1] =>
        destruct (hugepages_loop_no_heap e fuel f a1 t1) as (added & Ht & _);
        destruct (hugepages_loop e fuel f a1 t1) as [a5 t5|code t5|t5]
      end; cbn [trace_of] in Ht; subst; try exact I;
        try left; intros E; apply app_eq_nil in E as [E _]; contradiction.
    + left. exact Ht0.
  - destruct (use_hugepages (alloc_ready e c)) eqn:Hh.
    + unfold alloc_using_hugepages.
      match goal with |- context [hugepages_loop e fuel ?f ?a1 ?t1] =>
        pose proof (hugepages_loop_page e fuel f a1 t1) as Hpg;
        pose proof (hugepages_loop_exit_nonempty fuel f a1 t1) as Hex;
        destruct (hugepages_loop e fuel f a1 t1) as [a5 t5|code t5|t5]
      end; try exact I.
      * right. destruct (Hpg a5 t5 eq_refl) as (_ & _ & Hd & _).
        destruct (align_keeps a5) as (_ & -> & _). rewrite Hd.
        destruct (negb _); reflexivity.
      * exact (Hex _ _ eq_refl).
    + pose proof (malloc_rounds_pin e fuel fuel (alloc_ready e c)
                    (to_size (cfg_wantbytes c)) [] eq_refl) as Hpin.
      pose proof (malloc_rounds_no_exit fuel fuel (alloc_ready e c)
                    (to_size (cfg_wantbytes c)) []) as Hne.
      destruct (malloc_rounds e fuel fuel _ _ _) as [a5 t5|code t5|t5];
        try exact I.
      * left. intros ->. destruct (do_mlock a5); discriminate.
      * exfalso. exact (Hne _ _ eq_refl).
Qed.

(** X2.  Nothing is rejected for being too large.  When the page size is
    known, the test mask (if set), the options, the memory argument and
    the loop count (if given) are read without error, [-d] comes with
    [-p], and the size, shifted by its suffix and taken modulo [2^64], is
    at least one page, then [main] goes straight on to the allocation
    with that size, and from there to the tests: the comparison with
    [maxmb] never fails, and [main] does not end before it has called
    anything. *)
Theorem main_args_accepts : forall fuel av m memshift,
  to_size (sysconf_pagesize e) <> to_size (-1) ->
  (forall r, arg_testmask av = Some r -> st_errno r = 0) ->
  (exists o,
     getopt_loop e (arg_options av) (options_init (alloc_paged e false)) []
     = Done o []) ->
  (existsb is_D (arg_options av) = true ->
   existsb is_P (arg_options av) = true) ->
  arg_mem av = Some m -> st_errno m = 0 ->
  memshift_of (st_end m) = Some memshift ->
  (forall r, arg_loops av = Some r ->
             st_errno r = 0 /\ st_end r = "000"%char) ->
  page_size_of e (config_of sizeof_ul av m memshift)
    <= to_size (Z.shiftl (to_size (st_val m)) memshift) ->
  let c := config_of sizeof_ul av m memshift in
  main_args sizeof_ul e fuel av
  = match acquire_from e fuel c (alloc_ready e c) [] with
    | Done a t =>
      match run_loops sizeof_ul e fuel c a 1 0 t with
      | Done exit_code t1 =>
        Exit exit_code
             (if do_mlock a
              then t1 ++ [EvMunlock (aligned a) (to_size (bufsize a))]
              else t1)
      | Exit code t1 => Exit code t1
      | OutOfFuel t1 => OutOfFuel t1
      end
    | Exit code t => Exit code t
    | OutOfFuel t => OutOfFuel t
    end /\
  main_args sizeof_ul e fuel av = main sizeof_ul e fuel c /\
  (forall code, main_args sizeof_ul e fuel av <> Exit code []).
Proof.
  intros fuel av m memshift Hsys Hmask Hopt Hdev Hm Herr Hshift Hloops Hsize c.
  pose proof (main_args_run sizeof_ul e fuel av m memshift Hsys Hmask Hopt Hdev
                Hm Herr Hshift Hloops Hsize) as Hrun.
  fold c in Hrun.
  assert (Hacq : acquire e fuel c = acquire_from e fuel c (alloc_ready e c) []).
  { apply acquire_ready; [exact Hsys|]. unfold c at 2. cbn [cfg_wantbytes config_of].
    rewrite to_size_idem. exact Hsize. }
  assert (Hmain : main_args sizeof_ul e fuel av
    = match acquire_from e fuel c (alloc_ready e c) [] with
      | Done a t =>
        match run_loops sizeof_ul e fuel c a 1 0 t with
        | Done exit_code t1 =>
          Exit exit_code
               (if do_mlock a
                then t1 ++ [EvMunlock (aligned a) (to_size (bufsize a))]
                else t1)
        | Exit code t1 => Exit code t1
        | OutOfFuel t1 => OutOfFuel t1
        end
      | Exit code t => Exit code t
      | OutOfFuel t => OutOfFuel t
      end).
  { rewrite Hrun. unfold main. rewrite Hacq. reflexivity. }
  split; [exact Hmain|]. split; [exact Hrun|].
  intros code. rewrite Hmain.
  pose proof (acquire_from_started fuel c) as Hst.
  destruct (acquire_from e fuel c (alloc_ready e c) []) as [a t|code0 t|t];
    [| intros E; injection E as _ E; contradiction | discriminate].
  destruct (run_loops_events sizeof_ul e fuel c a 1 0 t) as (added & Ht & _).
  pose proof (run_loops_no_exit sizeof_ul e fuel c a 1 0 t) as Hne.
  destruct (run_loops sizeof_ul e fuel c a 1 0 t) as [code1 t1|code1 t1|t1];
    cbn [trace_of] in Ht; subst;
    [| exfalso; exact (Hne _ _ eq_refl) | discriminate].
  intros E. injection E as _ E.
  destruct Hst as [Ht | Hd].
  - destruct (do_mlock a);
      [apply app_eq_nil in E as [E _]|]; apply app_eq_nil in E as [E _];
      contradiction.
  - rewrite Hd in E. apply app_eq_nil in E as [_ E]. discriminate.
Qed.

End Accepts.

(** * The properties of the run at sample inputs *)

(** [memtester 17179869185G 1]: [2^34 + 1] gigabytes wrap around to one
    gigabyte, which is what is asked of [malloc]. *)
Lemma main_args_accepts_witness :
  main_args 8 (env_ok 0x20000) 2
    (args_of [] (sized 17179869185 "G") (number 1))
  = main 8 (env_ok 0x20000) 2 (cfg_heap 1073741824 1 0) /\
  firstn 2 (trace_of (main_args 8 (env_ok 0x20000) 2
                        (args_of [] (sized 17179869185 "G") (number 1))))
  = [EvMalloc 1073741824 0x20000; EvMlock 0x20000 1073741824 None] /\
  main_args 8 (env_ok 0x20000) 2
    (args_of [] (sized 17179869185 "G") (number 1))
  <> Exit EXIT_FAIL_NONSTARTER [].
Proof.
  destruct (main_args_accepts 8 (env_ok 0x20000) 2
              (args_of [] (sized 17179869185 "G") (number 1))
              (sized 17179869185 "G") 30) as (_ & Hmain & Hne).
  - vm_compute. discriminate.
  - intros r H. discriminate H.
  - exists (options_init (alloc_paged (env_ok 0x20000) false)). reflexivity.
  - intros H. discriminate H.
  - reflexivity.
  - reflexivity.
  - reflexivity.
  - intros r H. injection H as <-. split; reflexivity.
  - vm_compute. discriminate.
  - split; [exact Hmain|]. split; [vm_compute; reflexivity|]. apply Hne.
Defined.

(** [memtester -d /dev/fb0 8192B 1], the device being a character
    device. *)
Lemma device_needs_physaddr_witness :
  main_args 8 (env_ok 0x20000) 2
    (args_of [GetD "/dev/fb0" (Some 8192)] (sized 8192 "B") (number 1))
  = Exit EXIT_FAIL_NONSTARTER [].
Proof.
  apply (device_needs_physaddr 8 (env_ok 0x20000) 2
           (args_of [GetD "/dev/fb0" (Some 8192)] (sized 8192 "B") (number 1)));
    reflexivity.
Defined.

(** [-u -d /dev/fb0 -p 0x100000 -H -p 0x200000] *)
Lemma options_read_witness :
  exists o,
    getopt_loop (env_ok 0x20000)
      [GetU; GetD "/dev/fb0" (Some 8192); GetP (number 0x100000); GetH;
       GetP (number 0x200000)]
      (options_init (alloc_paged (env_ok 0x20000) false)) [] = Done o [] /\
    use_hugepages (opt_alloc o) = true /\
    pagesize (opt_alloc o) = 2097152 /\
    opt_use_phys o = true /\
    opt_physaddrbase o = 0x200000 /\
    opt_device_specified o = true /\
    opt_device_name o = "/dev/fb0"%string /\
    opt_o_flags o = O_RDWR.
Proof.
  eexists. split; [vm_compute; reflexivity|].
  destruct (options_read (env_ok 0x20000)
              [GetU; GetD "/dev/fb0" (Some 8192); GetP (number 0x100000); GetH;
               GetP (number 0x200000)] _ [] eq_refl)
    as (_ & _ & H1 & H2 & H3 & H4 & H5 & H6 & H7).
  exact (conj H1 (conj (H2 eq_refl) (conj H3 (conj H4 (conj H5 (conj H6 H7)))))).
Defined.

(** [0x101000] on a machine with 4096-byte pages: refused by
    [-H -p 0x101000], accepted by [-p 0x101000 -H]. *)
Lemma physaddr_check_follows_option_order_witness :
  getopt_loop (env_ok 0x20000) [GetH; GetP (number 0x101000)]
    (options_init (alloc_paged (env_ok 0x20000) false)) [] = Exit usage [] /\
  exists o',
    getopt_loop (env_ok 0x20000) [GetP (number 0x101000); GetH]
      (options_init (alloc_paged (env_ok 0x20000) false)) [] = Done o' [] /\
    use_hugepages (opt_alloc o') = true /\
    pagesize (opt_alloc o') = 2 * 1024 * 1024 /\
    opt_use_phys o' = true /\
    opt_physaddrbase o' = 0x101000.
Proof.
  apply (physaddr_check_follows_option_order (env_ok 0x20000) (number 0x101000)
           (options_init (alloc_paged (env_ok 0x20000) false)) []).
  - reflexivity.
  - reflexivity.
  - reflexivity.
  - reflexivity.
  - vm_compute. discriminate.
Defined.

(** Two pages; the first [mlock] fails with [ENOMEM], so the block is
    freed and one page is asked for. *)
Lemma heap_path_keeps_heap_in_order_witness :
  trace_of (main 8 (env_mlock_fails ENOMEM 0x20000) 4 (cfg_heap 8192 1 1))
  = [EvMalloc 8192 0x20000; EvMlock 0x20000 8192 (Some ENOMEM);
     EvFree 0x20000;
     EvMalloc 4096 0x20000; EvMlock 0x20000 4096 None;
     EvStuckAddress 0x20000 512 0; EvTest 0 0x20000 0x20800 256 0;
     EvMemset 0x20000 4096; EvMunlock 0x20000 4096] /\
  heap_ok (trace_of (main 8 (env_mlock_fails ENOMEM 0x20000) 4
                       (cfg_heap 8192 1 1))) = true.
Proof.
  split; [vm_compute; reflexivity|].
  apply (heap_path_keeps_heap_in_order 8 (env_mlock_fails ENOMEM 0x20000) 4
           (cfg_heap 8192 1 1)); reflexivity.
Defined.

(** Two pages; [mlock] fails with [EPERM], so the block is freed, the
    same size is asked for again and the tests run unpinned. *)
Lemma heap_path_pins_before_testing_witness :
  trace_of (main 8 (env_mlock_fails EPERM 0x20000) 4 (cfg_heap 8192 1 1))
  = [EvMalloc 8192 0x20000; EvMlock 0x20000 8192 (Some EPERM);
     EvFree 0x20000;
     EvMalloc 8192 0x20000;
     EvStuckAddress 0x20000 1024 0; EvTest 0 0x20000 0x21000 512 0;
     EvMemset 0x20000 8192] /\
  pin_ok (trace_of (main 8 (env_mlock_fails EPERM 0x20000) 4
                      (cfg_heap 8192 1 1))) = true.
Proof.
  split; [vm_compute; reflexivity|].
  apply (heap_path_pins_before_testing 8 (env_mlock_fails EPERM 0x20000) 4
           (cfg_heap 8192 1 1)); reflexivity.
Defined.

(** 5000 bytes with 4096-byte pages and no memory: after 5000 and 904
    bytes, [2^64 - 3192] bytes are asked for. *)
Lemma malloc_loop_never_gives_up_witness :
  acquire env_no_memory 3 (cfg_heap 5000 1 0)
  = OutOfFuel [EvMalloc 5000 0; EvMalloc 904 0; EvMalloc (2 ^ 64 - 3192) 0] /\
  exists t,
    acquire env_no_memory 3 (cfg_heap 5000 1 0) = OutOfFuel t /\
    length t = 3%nat /\ forallb failed_malloc t = true.
Proof.
  split; [vm_compute; reflexivity|].
  apply (malloc_loop_never_gives_up env_no_memory 12 3 (cfg_heap 5000 1 0)).
  - lia.
  - reflexivity.
  - reflexivity.
  - reflexivity.
  - vm_compute. discriminate.
  - vm_compute. discriminate.
  - intros t s. reflexivity.
Defined.

(** [memtester 4G 1]: 4 GB are allocated and cleared after each test, and
    the tests are run on no words. *)
Lemma heap_bufsize_is_an_int_witness :
  main 8 (env_ok 0x20000) 1 (cfg_heap 4294967296 1 1)
  = Exit 0 [EvMalloc 4294967296 0x20000; EvMlock 0x20000 0 None;
            EvStuckAddress 0x20000 0 0; EvTest 0 0x20000 0x20000 0 0;
            EvMemset 0x20000 4294967296; EvMunlock 0x20000 0] /\
  exists a,
    acquire (env_ok 0x20000) 1 (cfg_heap 4294967296 1 1)
      = Done a [EvMalloc 4294967296 0x20000; EvMlock 0x20000 0 None] /\
    wantbytes a = 4294967296 /\ bufsize a = 0 /\
    Forall (fun call => call_count call = 0)
           (pass_calls 8 (cfg_heap 4294967296 1 1) a).
Proof.
  split; [vm_compute; reflexivity|].
  destruct (heap_bufsize_is_an_int 8 (env_ok 0x20000) 12 1
              (cfg_heap 4294967296 1 1))
    as (a & Ha & _ & _ & Hw & _ & _ & _ & Hz).
  - lia.
  - reflexivity.
  - reflexivity.
  - reflexivity.
  - vm_compute. discriminate.
  - vm_compute. discriminate.
  - reflexivity.
  - reflexivity.
  - lia.
  - exists a. split; [exact Ha|]. split; [exact Hw|]. apply Hz. reflexivity.
Defined.

(** [memtester -H -p 0x100000 3M 1]: 3 MB are mapped, and 4 MB are
    written from the start of the mapping after the test. *)
Lemma phys_hugepages_memset_overruns_witness :
  main 8 (env_ok 0x20000) 1 (cfg_phys_huge 3145728 1 1)
  = Exit 0 [EvOpen 3; EvMmapPhys 3145728 0x100000 0x7f0000000000;
            EvMlock 0x7f0000000000 3145728 None;
            EvStuckAddress 0x7f0000000000 393216 0;
            EvTest 0 0x7f0000000000 0x7f0000180000 196608 0;
            EvMemset 0x7f0000000000 4194304;
            EvMunlock 0x7f0000000000 3145728] /\
  3145728 < 4194304 /\
  Forall (fun pl => pl = (0x7f0000000000, 4194304))
         (memsets (trace_of (main 8 (env_ok 0x20000) 1
                               (cfg_phys_huge 3145728 1 1)))).
Proof.
  split; [vm_compute; reflexivity|].
  destruct (phys_hugepages_memset_overruns 8 (env_ok 0x20000) 1
              (cfg_phys_huge 3145728 1 1)) as (Hlt & _ & Hall).
  - reflexivity.
  - reflexivity.
  - vm_compute. discriminate.
  - vm_compute. discriminate.
  - vm_compute. discriminate.
  - reflexivity.
  - vm_compute. discriminate.
  - vm_compute. discriminate.
  - vm_compute. discriminate.
  - split; [exact Hlt | exact Hall].
Defined.

(** Two pages at an address 16 bytes past a page boundary: the region
    starts 4080 bytes into the buffer. *)
Lemma tested_region_starts_on_page_boundary_witness :
  acquire (env_ok 0x20010) 3 (cfg_heap 8192 1 0)
  = Done (mk_alloc 0x20010 0x21000 8192 32 true false 4096 (-4096))
         [EvMalloc 8192 0x20010; EvMlock 0x21000 4112 None] /\
  0x21000 mod 2 ^ 12 = 0 /\
  0 <= to_size (0x21000 - 0x20010) < 2 ^ 12.
Proof.
  split; [vm_compute; reflexivity|].
  destruct (tested_region_starts_on_page_boundary (env_ok 0x20010) 12 3
              (cfg_heap 8192 1 0)
              (mk_alloc 0x20010 0x21000 8192 32 true false 4096 (-4096))
              [EvMalloc 8192 0x20010; EvMlock 0x21000 4112 None])
    as (_ & H1 & H2).
  - lia.
  - reflexivity.
  - vm_compute. reflexivity.
  - split; [exact H1 | exact H2].
Defined.

(** [memtester -H 4M 1]: one [mmap], no [mlock], and [munlock] at the
    end. *)
Lemma hugepages_not_pinned_yet_unpinned_witness :
  main 8 (env_ok 0x20000) 3 (cfg_huge 4194304 1 1)
  = Exit 0 [EvMmapHuge 4194304 0x40000000 0;
            EvStuckAddress 0x40000000 0 0; EvTest 0 0x40000000 0x40000000 0 0;
            EvMemset 0x40000000 4194304; EvMunlock 0x40000000 0] /\
  existsb heap_or_phys_event
    (trace_of (main 8 (env_ok 0x20000) 3 (cfg_huge 4194304 1 1))) = false /\
  exists t1,
    [EvMmapHuge 4194304 0x40000000 0;
     EvStuckAddress 0x40000000 0 0; EvTest 0 0x40000000 0x40000000 0 0;
     EvMemset 0x40000000 4194304; EvMunlock 0x40000000 0]
    = t1 ++ [EvMunlock 0x40000000 (to_size 0)].
Proof.
  split; [vm_compute; reflexivity|].
  destruct (hugepages_not_pinned_yet_unpinned 8 (env_ok 0x20000) 3
              (cfg_huge 4194304 1 1) eq_refl eq_refl) as (Hno & Hend).
  split; [exact Hno|].
  destruct (Hend (mk_alloc 0x40000000 0x40000000 4194304 0 true true 2097152
                    (-2097152))
                 [EvMmapHuge 4194304 0x40000000 0] 0
                 [EvMmapHuge 4194304 0x40000000 0;
                  EvStuckAddress 0x40000000 0 0;
                  EvTest 0 0x40000000 0x40000000 0 0;
                  EvMemset 0x40000000 4194304; EvMunlock 0x40000000 0])
    as (_ & Ht).
  - vm_compute. reflexivity.
  - vm_compute. reflexivity.
  - exact Ht.
Defined.
